(** * Conditional deployment pipeline (SageMaker MLOps): model and properties

    The Python sources embedded here are

    - [pipeline/config.py]      ([PipelineConfig], module [Config]),
    - [pipeline/training.py]    ([TrainingPipeline], module [Training]),
    - [pipeline/deployment.py]  ([DeploymentPipeline], module [Deployment]),
    - [pipeline/testing.py]     ([TestingPipeline], module [Testing]),
    - [scripts/run_pipeline.py] ([main], module [RunPipeline]),

    and, for the import-time behaviour of [pipeline/deployment.py], the names
    its top level binds and its annotations read (module [ModuleLoad]).

    Conventions.  Python floats are the kernel's binary64 floats, so that a
    comparison behaves as in the interpreter, NaN included.  A dictionary
    with a fixed set of keys is a record, and a dictionary whose keys depend
    on the branch that built it is an inductive type with one constructor
    per shape; reading a key that a shape lacks raises [KeyError].  Remote
    services (SageMaker, its runtime client, scikit-learn) are oracles: a
    call either returns a value or raises, and a method is a function of the
    answers it gets.  Wall-clock timestamps and durations are left out of
    the records; no decision of the code reads them. *)

From Stdlib Require Import ZArith Lia Floats String List Bool.
From stdpp Require Import gmap strings list.
Import ListNotations.

Set Warnings "-inexact-float,-register-all".
Local Open Scope string_scope.

(** ** Python values shared by the modules *)

(** Exceptions the code raises or catches, with their messages. *)
Inductive exn : Type :=
| ValueError (msg : string)
| KeyError (key : string)
| NameError (name : string)
| IndexError (msg : string)
| RemoteError (msg : string).

(** [str(e)] *)
Definition str_of_exn (e : exn) : string :=
  match e with
  | ValueError m | IndexError m | RemoteError m => m
  | KeyError k => "'" ++ k ++ "'"
  | NameError n => "name '" ++ n ++ "' is not defined"
  end.

(** A computation that returns or raises. *)
Inductive result (A : Type) : Type :=
| Ok (a : A)
| Raise (e : exn).
Arguments Ok {A} a.
Arguments Raise {A} e.

(** One statement after another: the second runs when the first returns. *)
Definition and_then {A B : Type} (r : result A) (k : A -> result B)
  : result B :=
  match r with
  | Ok a => k a
  | Raise e => Raise e
  end.

(** An f-string: its template, with one [{}] per formatted number, and the
    floats formatted into it, in order (a duration read off the wall clock
    keeps its place in the template and has no entry here). *)
Record fstring : Type := FStr { template : string; args : list float }.

(** Logging levels used by the pipelines. *)
Inductive level : Type := INFO | WARNING | ERROR.

(** What a pipeline object leaves behind besides its return value: log
    records, entries into its own methods, and notifications sent. *)
Inductive event : Type :=
| Log (lvl : level) (msg : fstring)
| Enter (method : string)
| Notify (kind : string).

(** A decoded JSON document. *)
Inductive json : Type :=
| JNull
| JBool (b : bool)
| JInt (z : Z)
| JFloat (f : float)
| JStr (s : string)
| JList (items : list json)
| JObject (fields : list (string * json)).

(** [needle in haystack] on strings. *)
Fixpoint contains (needle haystack : string) : bool :=
  String.prefix needle haystack
  || match haystack with
     | EmptyString => false
     | String _ rest => contains needle rest
     end.

(** Truth value of an optional string: [None] and [''] are false. *)
Definition truthy_str (o : option string) : bool :=
  match o with
  | Some s => negb (s =? "")
  | None => false
  end.

(** ** Float operations as Python writes them *)
Module PyFloat.

Definition lt (a b : float) : bool := PrimFloat.ltb a b.
Definition le (a b : float) : bool := PrimFloat.leb a b.
Definition gt (a b : float) : bool := PrimFloat.ltb b a.
Definition ge (a b : float) : bool := PrimFloat.leb b a.

(** [bool(x)]: false exactly for the two zeros. *)
Definition truthy (x : float) : bool := negb (PrimFloat.eqb x 0%float).

(** [float(n)] for a count [n]; exact below [2^53]. *)
Definition of_nat (n : nat) : float :=
  PrimFloat.of_uint63 (Uint63.of_Z (Z.of_nat n)).

(** [float(z)] for a small integer literal such as a class label. *)
Definition of_Z (z : Z) : float :=
  if (z <? 0)%Z
  then PrimFloat.opp (PrimFloat.of_uint63 (Uint63.of_Z (- z)))
  else PrimFloat.of_uint63 (Uint63.of_Z z).

(** [a / b] on two counts: true division. *)
Definition truediv (a b : nat) : float := PrimFloat.div (of_nat a) (of_nat b).

(** [sum(xs)] *)
Definition sum (xs : list float) : float :=
  fold_left PrimFloat.add xs 0%float.

End PyFloat.

(** [predicted == expected] where [expected] is an [int]: numbers compare
    by value ([True] is 1, [False] is 0), anything else is unequal. *)
Definition py_eq_int (v : json) (expected : Z) : bool :=
  match v with
  | JInt z => (z =? expected)%Z
  | JBool b => ((if b then 1 else 0) =? expected)%Z
  | JFloat f => PrimFloat.eqb f (PyFloat.of_Z expected)
  | _ => false
  end.

(** ** [pipeline/config.py] *)
Module Config.

(** The class attributes of [PipelineConfig] the pipelines read. *)
Record PipelineConfig : Type := {
  ACCURACY_THRESHOLD : float;
  MINIMUM_ACCURACY : float;
  INSTANCE_TYPE : string;
  AUTO_DEPLOY_ENABLED : bool;
  ROLLBACK_ON_FAILURE : bool;
  MODEL_NAME_PREFIX : string;
  ENDPOINT_PREFIX : string
}.

(** The values taken when no environment variable is set. *)
Definition defaults : PipelineConfig := {|
  ACCURACY_THRESHOLD := 0.95%float;
  MINIMUM_ACCURACY := 0.90%float;
  INSTANCE_TYPE := "ml.m5.large";
  AUTO_DEPLOY_ENABLED := true;
  ROLLBACK_ON_FAILURE := true;
  MODEL_NAME_PREFIX := "iris-classifier";
  ENDPOINT_PREFIX := "iris-model"
|}.

(** [PipelineConfig.validate] *)
Definition validate (cls : PipelineConfig) : result bool :=
  if PyFloat.lt (ACCURACY_THRESHOLD cls) 0%float
     || PyFloat.gt (ACCURACY_THRESHOLD cls) 1%float
  then Raise (ValueError "ACCURACY_THRESHOLD must be between 0 and 1")
  else if PyFloat.lt (MINIMUM_ACCURACY cls) 0%float
          || PyFloat.gt (MINIMUM_ACCURACY cls) 1%float
  then Raise (ValueError "MINIMUM_ACCURACY must be between 0 and 1")
  else if PyFloat.lt (ACCURACY_THRESHOLD cls) (MINIMUM_ACCURACY cls)
  then Raise (ValueError "ACCURACY_THRESHOLD must be >= MINIMUM_ACCURACY")
  else Ok true.

(** Assignments to single attributes, as [run_pipeline.py] makes them. *)
Definition set_ACCURACY_THRESHOLD (v : float) (cls : PipelineConfig)
  : PipelineConfig :=
  {| ACCURACY_THRESHOLD := v;
     MINIMUM_ACCURACY := MINIMUM_ACCURACY cls;
     INSTANCE_TYPE := INSTANCE_TYPE cls;
     AUTO_DEPLOY_ENABLED := AUTO_DEPLOY_ENABLED cls;
     ROLLBACK_ON_FAILURE := ROLLBACK_ON_FAILURE cls;
     MODEL_NAME_PREFIX := MODEL_NAME_PREFIX cls;
     ENDPOINT_PREFIX := ENDPOINT_PREFIX cls |}.

Definition set_MINIMUM_ACCURACY (v : float) (cls : PipelineConfig)
  : PipelineConfig :=
  {| ACCURACY_THRESHOLD := ACCURACY_THRESHOLD cls;
     MINIMUM_ACCURACY := v;
     INSTANCE_TYPE := INSTANCE_TYPE cls;
     AUTO_DEPLOY_ENABLED := AUTO_DEPLOY_ENABLED cls;
     ROLLBACK_ON_FAILURE := ROLLBACK_ON_FAILURE cls;
     MODEL_NAME_PREFIX := MODEL_NAME_PREFIX cls;
     ENDPOINT_PREFIX := ENDPOINT_PREFIX cls |}.

Definition set_INSTANCE_TYPE (v : string) (cls : PipelineConfig)
  : PipelineConfig :=
  {| ACCURACY_THRESHOLD := ACCURACY_THRESHOLD cls;
     MINIMUM_ACCURACY := MINIMUM_ACCURACY cls;
     INSTANCE_TYPE := v;
     AUTO_DEPLOY_ENABLED := AUTO_DEPLOY_ENABLED cls;
     ROLLBACK_ON_FAILURE := ROLLBACK_ON_FAILURE cls;
     MODEL_NAME_PREFIX := MODEL_NAME_PREFIX cls;
     ENDPOINT_PREFIX := ENDPOINT_PREFIX cls |}.

End Config.

(** ** [pipeline/training.py] *)
Module Training.
Import Config.

(** The entries of the dictionary [evaluate_model] returns that the
    pipeline reads afterwards. *)
Record evaluation_results : Type := {
  accuracy : float;
  cv_mean_accuracy : float
}.

(** The three reasons [should_deploy] can give. *)
Definition reason_meets_threshold (accuracy threshold : float) : fstring :=
  FStr "✅ Model accuracy ({:.4f}) meets deployment threshold ({:.4f})"
       [accuracy; threshold].

Definition reason_meets_minimum (accuracy minimum threshold : float)
  : fstring :=
  FStr ("⚠️ Model accuracy ({:.4f}) meets minimum threshold ({:.4f})"
        ++ " but below optimal ({:.4f})")
       [accuracy; minimum; threshold].

Definition reason_below_minimum (accuracy minimum : float) : fstring :=
  FStr "❌ Model accuracy ({:.4f}) below minimum threshold ({:.4f})"
       [accuracy; minimum].

(** [TrainingPipeline.should_deploy]: the returned pair, and the records
    it logs. *)
Definition should_deploy (config : PipelineConfig)
    (evaluation : evaluation_results) : (bool * fstring) * list event :=
  let acc := accuracy evaluation in
  let cv_accuracy := cv_mean_accuracy evaluation in
  let header :=
    [ Log INFO (FStr "🎯 Checking deployment criteria:" []);
      Log INFO (FStr "   Model Accuracy: {:.4f}" [acc]);
      Log INFO (FStr "   CV Accuracy: {:.4f}" [cv_accuracy]);
      Log INFO (FStr "   Required Threshold: {:.4f}"
                     [ACCURACY_THRESHOLD config]);
      Log INFO (FStr "   Minimum Threshold: {:.4f}"
                     [MINIMUM_ACCURACY config]) ] in
  if PyFloat.ge acc (ACCURACY_THRESHOLD config) then
    let reason := reason_meets_threshold acc (ACCURACY_THRESHOLD config) in
    ((true, reason), (header ++ [Log INFO reason])%list)
  else if PyFloat.ge acc (MINIMUM_ACCURACY config) then
    let reason :=
      reason_meets_minimum acc (MINIMUM_ACCURACY config)
                           (ACCURACY_THRESHOLD config) in
    ((false, reason), (header ++ [Log WARNING reason])%list)
  else
    let reason := reason_below_minimum acc (MINIMUM_ACCURACY config) in
    ((false, reason), (header ++ [Log ERROR reason])%list).

(** The work [run_training_pipeline] hands to scikit-learn and SageMaker:
    data preparation, local training and evaluation (steps 1 to 3), and the
    SageMaker training job (step 5). *)
Record services : Type := {
  evaluate_local_model : result evaluation_results;
  train_sagemaker_model : result string
}.

(** The dictionary [run_training_pipeline] returns. *)
Record pipeline_results : Type := {
  pipeline_status : string;
  evaluation : evaluation_results;
  should_deploy_flag : bool;
  deployment_reason : fstring;
  sagemaker_training_job : option string
}.

(** [TrainingPipeline.run_training_pipeline]: every exception is notified
    and raised again. *)
Definition run_training_pipeline (config : PipelineConfig) (svc : services)
  : result pipeline_results * list event :=
  match evaluate_local_model svc with
  | Raise e => (Raise e, [Log ERROR (FStr ("❌ Training pipeline failed: "
                                           ++ str_of_exn e) []);
                          Notify "error"])
  | Ok evaluation =>
      let '((deploy, reason), log) := should_deploy config evaluation in
      let job :=
        if deploy && AUTO_DEPLOY_ENABLED config
        then match train_sagemaker_model svc with
             | Ok name => Ok (Some name)
             | Raise e => Raise e
             end
        else Ok None in
      match job with
      | Raise e =>
          (Raise e,
           (log ++ [Log ERROR (FStr ("❌ Training pipeline failed: "
                                     ++ str_of_exn e) []);
                    Notify "error"])%list)
      | Ok job =>
          (Ok {| pipeline_status := "success";
                 evaluation := evaluation;
                 should_deploy_flag := deploy;
                 deployment_reason := reason;
                 sagemaker_training_job := job |},
           (log ++ [Notify (if deploy then "success" else "failure")])%list)
      end
  end.

End Training.

(** ** The SageMaker services, as the pipelines see them *)
Module Services.

(** [describe_training_job]'s answer: the keys the pipelines read, [None]
    for a key the answer lacks. *)
Record training_job : Type := {
  FinalMetricDataList : option (list (string * float));
  S3ModelArtifacts : option string;
  RoleArn : option string
}.

(** [list_training_jobs]'s answer: (name, status) pairs in the order the
    service lists them, under each of two keys, [None] for a key the
    answer lacks.  The pipelines read ['TrainingJobs']; the service's
    interface lists the jobs under ['TrainingJobSummaries']. *)
Record training_jobs_listing : Type := {
  TrainingJobs : option (list (string * string));
  TrainingJobSummaries : option (list (string * string))
}.

(** A production variant in [describe_endpoint]'s answer: the six keys
    the health check reads, [None] for a key the variant lacks. *)
Record production_variant : Type := {
  VariantName : option string;
  InstanceType : option string;
  CurrentWeight : option float;
  DesiredWeight : option float;
  CurrentInstanceCount : option Z;
  DesiredInstanceCount : option Z
}.

(** The entries of [describe_endpoint]'s answer besides [EndpointStatus],
    [None] for a key the answer lacks. *)
Record endpoint_description : Type := {
  CreationTime : option string;
  LastModifiedTime : option string;
  ProductionVariants : option (list production_variant)
}.

(** One answer per remote operation.  [list_endpoints] gives the (name,
    status) pairs under ['Endpoints'] in the order the service returns
    them.  [describe_endpoint] gives [EndpointStatus] of the answer, and
    [described_endpoint] the other entries of the same answer.
    [invoke_endpoint n] is the [n]-th request a method sends: it raises, or
    takes some milliseconds and returns a body that decodes to JSON or
    fails to. *)
Record aws : Type := {
  list_training_jobs : result training_jobs_listing;
  describe_training_job : string -> result training_job;
  list_endpoints : result (list (string * string));
  describe_endpoint : string -> result string;
  described_endpoint : string -> endpoint_description;
  sagemaker_session : result unit;
  sklearn_model : result unit;
  model_deploy : string -> result unit;
  invoke_endpoint :
    nat -> string -> list (list float) -> result (float * result json);
  load_test_requests : nat
}.

(** [d[key]] for a key the dictionary may lack. *)
Definition getitem {A : Type} (key : string) (o : option A) : result A :=
  match o with
  | Some a => Ok a
  | None => Raise (KeyError key)
  end.

End Services.

(** ** [pipeline/deployment.py] *)
Module Deployment.
Import Config Services.

(** The two shapes of [evaluation_results]. *)
Inductive evaluation_record : Type :=
| Evaluation (training_job_name : string) (accuracy : float)
             (all_metrics : gmap string float)
| EvaluationError (training_job_name : string) (error : string).

(** The two shapes [_test_endpoint] returns; [status] is their tag. *)
Inductive test_results : Type :=
| TestSuccess (test_duration_ms : float) (predictions : json)
| TestFailed (error : string).

Definition test_status (t : test_results) : string :=
  match t with
  | TestSuccess _ _ => "success"
  | TestFailed _ => "failed"
  end.

(** The four dictionaries [_rollback_deployment] returns. *)
Inductive rollback_results : Type :=
| NoPreviousEndpoint
| RolledBack (rolled_back_to : string)
| RollbackUnavailable (reason : string)
| RollbackError (error : string).

(** [rollback_results['status']] *)
Definition rollback_status (r : rollback_results) : string :=
  match r with
  | NoPreviousEndpoint => "no_previous_endpoint"
  | RolledBack _ => "success"
  | RollbackUnavailable _ => "failed"
  | RollbackError _ => "failed"
  end.

Record metadata : Type := {
  md_endpoint_name : string;
  md_training_job_name : string;
  md_instance_type : string;
  md_previous_endpoint : option string;
  md_test_results : test_results
}.

(** The two shapes [deploy_model] returns. *)
Inductive deployment_results : Type :=
| DeploySuccess (endpoint_name : string) (test : test_results)
                (meta : metadata)
| DeployFailed (error : string) (rollback : option rollback_results)
               (attempted_endpoint : string).

Definition deployment_status (d : deployment_results) : string :=
  match d with
  | DeploySuccess _ _ _ => "success"
  | DeployFailed _ _ _ => "failed"
  end.

(** [deployment_results['endpoint_name']] *)
Definition endpoint_name_of (d : deployment_results) : result string :=
  match d with
  | DeploySuccess name _ _ => Ok name
  | DeployFailed _ _ _ => Raise (KeyError "endpoint_name")
  end.

(** The shapes of the dictionary bound to [deploy_results] in
    [run_pipeline.py]: the two [run_deployment_pipeline] returns, and the
    one [main] builds when it skips the stage. *)
Inductive pipeline_results : Type :=
| PipelineSuccess (training_job_name : string) (should_deploy : bool)
                  (evaluation : evaluation_record)
                  (deployment : option deployment_results)
| PipelineFailed (error : string)
| PipelineSkipped (reason : string).

Definition pipeline_status (p : pipeline_results) : string :=
  match p with
  | PipelineSuccess _ _ _ _ => "success"
  | PipelineFailed _ => "failed"
  | PipelineSkipped _ => "skipped"
  end.

(** [deploy_results.get('deployment_results')] *)
Definition get_deployment_results (p : pipeline_results)
  : option deployment_results :=
  match p with
  | PipelineSuccess _ _ _ d => d
  | _ => None
  end.

(** The attributes of a [DeploymentPipeline] object; [events] stands for
    its logger and notification manager, oldest record first. *)
Record self : Type := {
  config : PipelineConfig;
  current_endpoint : option string;
  previous_endpoint : option string;
  deployment_metadata : option metadata;
  events : list event
}.

(** [DeploymentPipeline.__init__] *)
Definition init (config : PipelineConfig) : self := {|
  config := config;
  current_endpoint := None;
  previous_endpoint := None;
  deployment_metadata := None;
  events := []
|}.

(** A method body: it reads and updates the object, and returns or raises.
    An exception keeps the updates made before it. *)
Definition M (A : Type) : Type := self -> result A * self.

Definition ret {A : Type} (a : A) : M A := fun s => (Ok a, s).

Definition bind {A B : Type} (m : M A) (k : A -> M B) : M B :=
  fun s =>
    match m s with
    | (Ok a, s') => k a s'
    | (Raise e, s') => (Raise e, s')
    end.

Definition raise {A : Type} (e : exn) : M A := fun s => (Raise e, s).

(** A remote call's answer, raised again when it is an exception. *)
Definition call {A : Type} (r : result A) : M A := fun s => (r, s).

(** [try: m  except Exception as e: handler e] *)
Definition try_except {A : Type} (m : M A) (handler : exn -> M A) : M A :=
  fun s =>
    match m s with
    | (Ok a, s') => (Ok a, s')
    | (Raise e, s') => handler e s'
    end.

Definition gets {A : Type} (f : self -> A) : M A := fun s => (Ok (f s), s).

Definition emit (e : event) : M unit :=
  fun s =>
    (Ok tt,
     {| config := config s;
        current_endpoint := current_endpoint s;
        previous_endpoint := previous_endpoint s;
        deployment_metadata := deployment_metadata s;
        events := (events s ++ [e])%list |}).

Definition log (lvl : level) (msg : string) : M unit :=
  emit (Log lvl (FStr msg [])).

Definition logf (lvl : level) (msg : string) (xs : list float) : M unit :=
  emit (Log lvl (FStr msg xs)).

Definition set_current_endpoint (v : option string) : M unit :=
  fun s =>
    (Ok tt,
     {| config := config s;
        current_endpoint := v;
        previous_endpoint := previous_endpoint s;
        deployment_metadata := deployment_metadata s;
        events := events s |}).

Definition set_previous_endpoint (v : option string) : M unit :=
  fun s =>
    (Ok tt,
     {| config := config s;
        current_endpoint := current_endpoint s;
        previous_endpoint := v;
        deployment_metadata := deployment_metadata s;
        events := events s |}).

Definition set_deployment_metadata (v : metadata) : M unit :=
  fun s =>
    (Ok tt,
     {| config := config s;
        current_endpoint := current_endpoint s;
        previous_endpoint := previous_endpoint s;
        deployment_metadata := Some v;
        events := events s |}).

Arguments ret {A} a s /.
Arguments bind {A B} m k s /.
Arguments raise {A} e s /.
Arguments call {A} r s /.
Arguments try_except {A} m handler s /.
Arguments gets {A} f s /.
Arguments emit e s /.
Arguments log lvl msg s /.
Arguments logf lvl msg xs s /.
Arguments set_current_endpoint v s /.
Arguments set_previous_endpoint v s /.
Arguments set_deployment_metadata v s /.

Declare Scope py_scope.
Delimit Scope py_scope with py.
Notation "x <- m ;; k" := (bind m (fun x => k))
  (at level 100, m at next level, right associativity) : py_scope.
Notation "m ;; k" := (bind m (fun _ => k))
  (at level 100, right associativity) : py_scope.
Local Open Scope py_scope.

(** [DeploymentPipeline.get_latest_training_job] *)
Definition get_latest_training_job (svc : aws) : M (option string) :=
  log INFO "🔍 Searching for latest completed training job" ;;
  cfg <- gets config ;;
  try_except
    (response <- call (list_training_jobs svc) ;;
     jobs <- call (getitem "TrainingJobs" (TrainingJobs response)) ;;
     match find (fun job : string * string =>
                   (snd job =? "Completed")
                   && contains (MODEL_NAME_PREFIX cfg) (fst job)) jobs with
     | Some job =>
         log INFO ("✅ Found training job: " ++ fst job) ;;
         ret (Some (fst job))
     | None =>
         match find (fun job : string * string => snd job =? "Completed")
                    jobs with
         | Some job =>
             log WARNING ("⚠️ Using fallback training job: " ++ fst job) ;;
             ret (Some (fst job))
         | None =>
             log ERROR "❌ No completed training jobs found" ;;
             ret None
         end
     end)
    (fun e =>
       log ERROR ("❌ Error finding training job: " ++ str_of_exn e) ;;
       ret None).

(** The dictionary [final_metrics]: one assignment per listed metric, a
    later one replacing an earlier one of the same name. *)
Definition final_metrics_of (job : training_job) : gmap string float :=
  match FinalMetricDataList job with
  | Some metrics =>
      fold_left (fun (m : gmap string float) (metric : string * float) =>
                   <[fst metric := snd metric]> m)
                metrics ∅
  | None => ∅
  end.

(** [final_metrics.get('accuracy',
                       final_metrics.get('validation_accuracy', 0.0))] *)
Definition accuracy_of (final_metrics : gmap string float) : float :=
  default (default 0%float (final_metrics !! "validation_accuracy"))
          (final_metrics !! "accuracy").

(** [DeploymentPipeline.check_deployment_criteria] *)
Definition check_deployment_criteria (svc : aws) (training_job_name : string)
  : M (bool * evaluation_record) :=
  log INFO ("📊 Checking deployment criteria for " ++ training_job_name) ;;
  cfg <- gets config ;;
  try_except
    (training_job <- call (describe_training_job svc training_job_name) ;;
     let final_metrics := final_metrics_of training_job in
     let accuracy := accuracy_of final_metrics in
     let evaluation_results :=
       Evaluation training_job_name accuracy final_metrics in
     if PyFloat.ge accuracy (ACCURACY_THRESHOLD cfg) then
       logf INFO
         "✅ Model accuracy ({:.4f}) meets deployment threshold ({:.4f})"
         [accuracy; ACCURACY_THRESHOLD cfg] ;;
       ret (true, evaluation_results)
     else if PyFloat.ge accuracy (MINIMUM_ACCURACY cfg) then
       logf WARNING
         "⚠️ Model accuracy ({:.4f}) meets minimum but below optimal threshold"
         [accuracy] ;;
       ret (false, evaluation_results)
     else
       logf ERROR
         "❌ Model accuracy ({:.4f}) below minimum threshold ({:.4f})"
         [accuracy; MINIMUM_ACCURACY cfg] ;;
       ret (false, evaluation_results))
    (fun e =>
       log ERROR ("❌ Error checking deployment criteria: " ++ str_of_exn e) ;;
       ret (false, EvaluationError training_job_name (str_of_exn e))).

(** [DeploymentPipeline.get_current_production_endpoint] *)
Definition get_current_production_endpoint (svc : aws) : M (option string) :=
  cfg <- gets config ;;
  try_except
    (endpoints <- call (list_endpoints svc) ;;
     match find (fun endpoint : string * string =>
                   (snd endpoint =? "InService")
                   && contains (ENDPOINT_PREFIX cfg) (fst endpoint))
                endpoints with
     | Some endpoint =>
         log INFO ("🎯 Found current production endpoint: " ++ fst endpoint) ;;
         ret (Some (fst endpoint))
     | None => ret None
     end)
    (fun e =>
       log WARNING ("⚠️ Error finding current endpoint: " ++ str_of_exn e) ;;
       ret None).

(** The three iris samples [_test_endpoint] sends. *)
Definition smoke_test_data : list (list float) :=
  [ [5.1; 3.5; 1.4; 0.2]; [7.0; 3.2; 4.7; 1.4]; [6.3; 3.3; 6.0; 2.5] ]%float.

(** [DeploymentPipeline._test_endpoint] *)
Definition _test_endpoint (svc : aws) (endpoint_name : string)
  : M test_results :=
  emit (Enter "_test_endpoint") ;;
  log INFO ("🧪 Testing endpoint: " ++ endpoint_name) ;;
  try_except
    (response <- call (invoke_endpoint svc 0 endpoint_name smoke_test_data) ;;
     result <- call (snd response) ;;
     logf INFO "✅ Endpoint test successful (latency: {:.2f}ms)"
          [fst response] ;;
     ret (TestSuccess (fst response) result))
    (fun e =>
       log ERROR ("❌ Endpoint test failed: " ++ str_of_exn e) ;;
       ret (TestFailed (str_of_exn e))).

(** [DeploymentPipeline._rollback_deployment] *)
Definition _rollback_deployment (svc : aws) : M rollback_results :=
  emit (Enter "_rollback_deployment") ;;
  previous <- gets previous_endpoint ;;
  if negb (truthy_str previous) then
    log WARNING "⚠️ No previous endpoint available for rollback" ;;
    ret NoPreviousEndpoint
  else
    let previous_endpoint := default "" previous in
    log INFO ("🔄 Rolling back to previous endpoint: " ++ previous_endpoint) ;;
    try_except
      (endpoint_status <- call (describe_endpoint svc previous_endpoint) ;;
       if endpoint_status =? "InService" then
         log INFO ("✅ Rollback successful - using " ++ previous_endpoint) ;;
         ret (RolledBack previous_endpoint)
       else
         log ERROR ("❌ Previous endpoint " ++ previous_endpoint
                    ++ " is not InService") ;;
         ret (RollbackUnavailable
                ("Previous endpoint not available: " ++ endpoint_status)))
      (fun e =>
         log ERROR ("❌ Rollback failed: " ++ str_of_exn e) ;;
         ret (RollbackError (str_of_exn e))).

(** The [try] block of [deploy_model]. *)
Definition deploy_model_try (svc : aws)
    (training_job_name instance_type endpoint_name : string)
  : M deployment_results :=
  training_job <- call (describe_training_job svc training_job_name) ;;
  model_data <-
    call (getitem "ModelArtifacts" (S3ModelArtifacts training_job)) ;;
  role_arn <- call (getitem "RoleArn" (RoleArn training_job)) ;;
  call (sagemaker_session svc) ;;
  call (sklearn_model svc) ;;
  production <- get_current_production_endpoint svc ;;
  set_previous_endpoint production ;;
  log INFO "📦 Deploying model to endpoint..." ;;
  call (model_deploy svc endpoint_name) ;;
  test_results <- _test_endpoint svc endpoint_name ;;
  previous <- gets previous_endpoint ;;
  let meta :=
    {| md_endpoint_name := endpoint_name;
       md_training_job_name := training_job_name;
       md_instance_type := instance_type;
       md_previous_endpoint := previous;
       md_test_results := test_results |} in
  set_deployment_metadata meta ;;
  set_current_endpoint (Some endpoint_name) ;;
  let deployment_results := DeploySuccess endpoint_name test_results meta in
  log INFO "✅ Deployment successful in {:.2f} seconds" ;;
  emit (Notify "deployment_success") ;;
  ret deployment_results.

(** The [except Exception as e] clause of [deploy_model]. *)
Definition deploy_model_except (svc : aws) (endpoint_name : string) (e : exn)
  : M deployment_results :=
  log ERROR ("❌ Deployment failed after {:.2f} seconds: " ++ str_of_exn e) ;;
  cfg <- gets config ;;
  previous <- gets previous_endpoint ;;
  rollback_results <-
    (if ROLLBACK_ON_FAILURE cfg && truthy_str previous
     then r <- _rollback_deployment svc ;; ret (Some r)
     else ret None) ;;
  emit (Notify "deployment_failure") ;;
  ret (DeployFailed (str_of_exn e) rollback_results endpoint_name).

(** [DeploymentPipeline.deploy_model]; [timestamp] is the clock reading
    that names the endpoint. *)
Definition deploy_model (svc : aws) (timestamp : string)
    (training_job_name : string) (instance_type : option string)
  : M deployment_results :=
  cfg <- gets config ;;
  let instance_type :=
    if truthy_str instance_type then default "" instance_type
    else INSTANCE_TYPE cfg in
  let endpoint_name := ENDPOINT_PREFIX cfg ++ "-" ++ timestamp in
  log INFO "🚀 Starting model deployment" ;;
  log INFO ("   Training Job: " ++ training_job_name) ;;
  log INFO ("   Endpoint Name: " ++ endpoint_name) ;;
  log INFO ("   Instance Type: " ++ instance_type) ;;
  try_except
    (deploy_model_try svc training_job_name instance_type endpoint_name)
    (deploy_model_except svc endpoint_name).

(** [DeploymentPipeline.run_deployment_pipeline] *)
Definition run_deployment_pipeline (svc : aws) (timestamp : string)
    (training_job_name : option string) : M pipeline_results :=
  cfg <- gets config ;;
  try_except
    (log INFO "🚀 Starting Enterprise MLOps Deployment Pipeline" ;;
     training_job_name <-
       (if negb (truthy_str training_job_name) then
          found <- get_latest_training_job svc ;;
          if negb (truthy_str found)
          then raise (ValueError "No suitable training job found")
          else ret (default "" found)
        else ret (default "" training_job_name)) ;;
     decision <- check_deployment_criteria svc training_job_name ;;
     let should_deploy := fst decision in
     let evaluation_results := snd decision in
     deployment_results <-
       (if should_deploy && AUTO_DEPLOY_ENABLED cfg then
          log INFO "✅ Deployment criteria met - proceeding with deployment" ;;
          d <- deploy_model svc timestamp training_job_name None ;;
          ret (Some d)
        else
          let reason :=
            if negb should_deploy then "Deployment criteria not met"
            else "Auto-deploy disabled" in
          log INFO ("⏸️ Skipping deployment: " ++ reason) ;;
          emit (Notify "deployment_skipped") ;;
          ret None) ;;
     log INFO "✅ Deployment pipeline completed in {:.2f} seconds" ;;
     ret (PipelineSuccess training_job_name should_deploy evaluation_results
                          deployment_results))
    (fun e =>
       log ERROR ("❌ Deployment pipeline failed: " ++ str_of_exn e) ;;
       emit (Notify "error") ;;
       ret (PipelineFailed (str_of_exn e))).

(** Whether the object recorded an entry into [method]. *)
Definition entered (method : string) (s : self) : bool :=
  existsb (fun e => match e with
                    | Enter m => m =? method
                    | _ => false
                    end) (events s).

(** Whether the rollback routine was invoked on the object. *)
Definition rollback_invoked (s : self) : bool :=
  entered "_rollback_deployment" s.

End Deployment.

(** ** [pipeline/testing.py] *)
Module Testing.
Import Config Services.

Record test_case : Type := {
  name : string;
  data : list float;
  expected_class : Z;
  expected_species : string
}.

(** [TestingPipeline.get_test_data] *)
Definition get_test_data : list test_case :=
  [ {| name := "Setosa Sample 1"; data := [5.1; 3.5; 1.4; 0.2]%float;
       expected_class := 0; expected_species := "setosa" |};
    {| name := "Setosa Sample 2"; data := [4.9; 3.0; 1.4; 0.2]%float;
       expected_class := 0; expected_species := "setosa" |};
    {| name := "Versicolor Sample 1"; data := [7.0; 3.2; 4.7; 1.4]%float;
       expected_class := 1; expected_species := "versicolor" |};
    {| name := "Versicolor Sample 2"; data := [6.4; 3.2; 4.5; 1.5]%float;
       expected_class := 1; expected_species := "versicolor" |};
    {| name := "Virginica Sample 1"; data := [6.3; 3.3; 6.0; 2.5]%float;
       expected_class := 2; expected_species := "virginica" |};
    {| name := "Virginica Sample 2"; data := [5.8; 2.7; 5.1; 1.9]%float;
       expected_class := 2; expected_species := "virginica" |};
    {| name := "Boundary Case 1"; data := [6.0; 3.0; 4.0; 1.2]%float;
       expected_class := 1; expected_species := "versicolor" |};
    {| name := "Boundary Case 2"; data := [6.5; 3.0; 5.0; 1.8]%float;
       expected_class := 2; expected_species := "virginica" |} ].

(** One entry of [instance_info]. *)
Record variant_info : Type := {
  variant_name : string;
  instance_type : string;
  current_weight : float;
  desired_weight : float;
  current_instance_count : Z;
  desired_instance_count : Z
}.

(** The two shapes [test_endpoint_health] returns. *)
Inductive health_results : Type :=
| HealthChecked (status endpoint_status : string)
                (production_variants : list variant_info)
| HealthError (error : string).

(** [health_results.get('status')] *)
Definition health_status (h : health_results) : string :=
  match h with
  | HealthChecked status _ _ => status
  | HealthError _ => "error"
  end.

(** The dictionary appended to [instance_info] for one variant: its six
    keys are read in this order. *)
Definition read_variant (variant : production_variant) : result variant_info :=
  and_then (getitem "VariantName" (VariantName variant)) (fun name =>
  and_then (getitem "InstanceType" (InstanceType variant)) (fun kind =>
  and_then (getitem "CurrentWeight" (CurrentWeight variant)) (fun weight =>
  and_then (getitem "DesiredWeight" (DesiredWeight variant)) (fun desired =>
  and_then (getitem "CurrentInstanceCount" (CurrentInstanceCount variant))
    (fun count =>
  and_then (getitem "DesiredInstanceCount" (DesiredInstanceCount variant))
    (fun desired_count =>
  Ok {| variant_name := name;
        instance_type := kind;
        current_weight := weight;
        desired_weight := desired;
        current_instance_count := count;
        desired_instance_count := desired_count |})))))).

(** The loop over [production_variants]. *)
Fixpoint read_variants (variants : list production_variant)
  : result (list variant_info) :=
  match variants with
  | [] => Ok []
  | variant :: rest =>
      and_then (read_variant variant) (fun info =>
      and_then (read_variants rest) (fun infos => Ok (info :: infos)))
  end.

(** The reads of the [try] block after [EndpointStatus]: the two times,
    then the variants. *)
Definition read_description (description : endpoint_description)
  : result (list variant_info) :=
  and_then (getitem "CreationTime" (CreationTime description)) (fun _ =>
  and_then (getitem "LastModifiedTime" (LastModifiedTime description))
    (fun _ =>
  and_then (getitem "ProductionVariants" (ProductionVariants description))
    read_variants)).

(** [TestingPipeline.test_endpoint_health] *)
Definition test_endpoint_health (svc : aws) (endpoint_name : string)
  : health_results :=
  match describe_endpoint svc endpoint_name with
  | Ok status =>
      match read_description (described_endpoint svc endpoint_name) with
      | Ok instance_info =>
          HealthChecked
            (if status =? "InService" then "healthy" else "unhealthy")
            status instance_info
      | Raise e => HealthError (str_of_exn e)
      end
  | Raise e => HealthError (str_of_exn e)
  end.

(** The two shapes of an entry of [prediction_results]. *)
Inductive prediction_result : Type :=
| PredictionSuccess (test_name : string) (input_data : list float)
                    (expected : Z) (species : string)
                    (predicted_class : json) (is_correct : bool)
                    (latency_ms : float)
| PredictionFailed (test_name : string) (input_data : list float)
                   (expected : Z) (error : string).

(** [result['status']] of an entry. *)
Definition prediction_status (r : prediction_result) : string :=
  match r with
  | PredictionSuccess _ _ _ _ _ _ _ => "success"
  | PredictionFailed _ _ _ _ => "failed"
  end.

(** The variables the loop of [test_endpoint_predictions] updates. *)
Record locals : Type := {
  prediction_results : list prediction_result;
  latencies : list float;
  correct : nat
}.

(** [result[0] if isinstance(result, list) else result] *)
Definition predicted_class_of (decoded : json) : result json :=
  match decoded with
  | JList [] => Raise (IndexError "list index out of range")
  | JList (first :: _) => Ok first
  | other => Ok other
  end.

(** The [except] clause of the loop body: one failed entry. *)
Definition record_failure (st : locals) (c : test_case) (e : exn) : locals :=
  {| prediction_results :=
       (prediction_results st
        ++ [PredictionFailed (name c) (data c) (expected_class c)
                             (str_of_exn e)])%list;
     latencies := latencies st;
     correct := correct st |}.

(** One iteration of the loop, for the [i]-th case (counted from 0). *)
Definition run_case (svc : aws) (endpoint_name : string) (st : locals)
    (ic : nat * test_case) : locals :=
  let c := snd ic in
  match invoke_endpoint svc (fst ic) endpoint_name [data c] with
  | Raise e => record_failure st c e
  | Ok (latency_ms, body) =>
      let st :=
        {| prediction_results := prediction_results st;
           latencies := (latencies st ++ [latency_ms])%list;
           correct := correct st |} in
      match body with
      | Raise e => record_failure st c e
      | Ok decoded =>
          match predicted_class_of decoded with
          | Raise e => record_failure st c e
          | Ok predicted_class =>
              let is_correct := py_eq_int predicted_class (expected_class c) in
              {| prediction_results :=
                   (prediction_results st
                    ++ [PredictionSuccess (name c) (data c) (expected_class c)
                          (expected_species c) predicted_class is_correct
                          latency_ms])%list;
                 latencies := latencies st;
                 correct := if is_correct then S (correct st) else correct st |}
          end
      end
  end.

(** [enumerate(test_cases)], counted from 0. *)
Definition enumerate {A : Type} (l : list A) : list (nat * A) :=
  combine (seq 0 (length l)) l.

(** [max(xs)] and [min(xs)] on a non-empty list of floats. *)
Definition py_max (x : float) (xs : list float) : float :=
  fold_left (fun m y => if PyFloat.gt y m then y else m) xs x.

Definition py_min (x : float) (xs : list float) : float :=
  fold_left (fun m y => if PyFloat.lt y m then y else m) xs x.

(** [sum(xs) / len(xs) if xs else 0.0] *)
Definition average (xs : list float) : float :=
  match xs with
  | [] => 0%float
  | _ => PrimFloat.div (PyFloat.sum xs) (PyFloat.of_nat (length xs))
  end.

Record prediction_test_results : Type := {
  accuracy : float;
  correct_predictions : nat;
  total_predictions : nat;
  avg_latency_ms : float;
  max_latency_ms : float;
  min_latency_ms : float;
  individual_results : list prediction_result
}.

(** [TestingPipeline.test_endpoint_predictions], for any batch of cases. *)
Definition test_endpoint_predictions_on (test_cases : list test_case)
    (svc : aws) (endpoint_name : string) : prediction_test_results :=
  let total_predictions := length test_cases in
  let st :=
    fold_left (run_case svc endpoint_name) (enumerate test_cases)
              {| prediction_results := []; latencies := []; correct := 0 |} in
  {| accuracy :=
       if (0 <? total_predictions)%nat
       then PyFloat.truediv (correct st) total_predictions
       else 0%float;
     correct_predictions := correct st;
     total_predictions := total_predictions;
     avg_latency_ms := average (latencies st);
     max_latency_ms :=
       match latencies st with [] => 0%float | x :: xs => py_max x xs end;
     min_latency_ms :=
       match latencies st with [] => 0%float | x :: xs => py_min x xs end;
     individual_results := prediction_results st |}.

(** [TestingPipeline.test_endpoint_predictions] *)
Definition test_endpoint_predictions : aws -> string -> prediction_test_results :=
  test_endpoint_predictions_on get_test_data.

(** The variables the loop of [test_endpoint_performance] updates. *)
Record counters : Type := {
  request_times : list float;
  successful : nat;
  failed : nat
}.

(** One request of the load loop. *)
Definition send_request (svc : aws) (endpoint_name : string) (st : counters)
    (i : nat) : counters :=
  match invoke_endpoint svc i endpoint_name [[5.1; 3.5; 1.4; 0.2]%float] with
  | Ok (request_time, _) =>
      {| request_times := (request_times st ++ [request_time])%list;
         successful := S (successful st);
         failed := failed st |}
  | Raise _ =>
      {| request_times := request_times st;
         successful := successful st;
         failed := S (failed st) |}
  end.

(** The entries of [performance_results] read after the load test (the
    throughput and the 95th percentile, which nothing reads, are left
    out). *)
Record performance_results : Type := {
  total_requests : nat;
  successful_requests : nat;
  failed_requests : nat;
  success_rate : float;
  load_avg_latency_ms : float;
  load_max_latency_ms : float;
  load_min_latency_ms : float
}.

(** [TestingPipeline.test_endpoint_performance]: the loop runs while the
    clock is before the deadline, which lets [load_test_requests svc]
    requests through. *)
Definition test_endpoint_performance (svc : aws) (endpoint_name : string)
  : performance_results :=
  let st :=
    fold_left (send_request svc endpoint_name)
              (seq 0 (load_test_requests svc))
              {| request_times := []; successful := 0; failed := 0 |} in
  let total_requests := (successful st + failed st)%nat in
  {| total_requests := total_requests;
     successful_requests := successful st;
     failed_requests := failed st;
     success_rate :=
       if (0 <? total_requests)%nat
       then PyFloat.truediv (successful st) total_requests
       else 0%float;
     load_avg_latency_ms := average (request_times st);
     load_max_latency_ms :=
       match request_times st with [] => 0%float | x :: xs => py_max x xs end;
     load_min_latency_ms :=
       match request_times st with [] => 0%float | x :: xs => py_min x xs end |}.

(** The issue lines of [run_comprehensive_tests]. *)
Definition issue_health : fstring := FStr "Endpoint health check failed" [].

Definition issue_accuracy (prediction_accuracy : float) : fstring :=
  FStr "Prediction accuracy ({:.2%}) below minimum threshold"
       [prediction_accuracy].

Definition issue_success_rate (rate : float) : fstring :=
  FStr "Performance test success rate ({:.2%}) below 95%" [rate].

Definition issue_latency (avg_latency : float) : fstring :=
  FStr "Average latency ({:.2f}ms) above 1 second" [avg_latency].

(** "Determine overall test status": the four checks of
    [run_comprehensive_tests], each one assigning [overall_status] and
    appending to [issues] when it fires. *)
Definition overall_test_status (config : PipelineConfig)
    (health : string) (prediction_accuracy success_rate avg_latency : float)
  : string * list fstring :=
  let overall_status := "passed" in
  let issues : list fstring := [] in
  let '(overall_status, issues) :=
    if negb (health =? "healthy")
    then ("failed", (issues ++ [issue_health])%list)
    else (overall_status, issues) in
  let '(overall_status, issues) :=
    if PyFloat.lt prediction_accuracy (MINIMUM_ACCURACY config)
    then ("failed", (issues ++ [issue_accuracy prediction_accuracy])%list)
    else (overall_status, issues) in
  let '(overall_status, issues) :=
    if PyFloat.lt success_rate 0.95%float
    then ("warning", (issues ++ [issue_success_rate success_rate])%list)
    else (overall_status, issues) in
  let '(overall_status, issues) :=
    if PyFloat.gt avg_latency 1000%float
    then ("warning", (issues ++ [issue_latency avg_latency])%list)
    else (overall_status, issues) in
  (overall_status, issues).

Record comprehensive_results : Type := {
  overall_status : string;
  issues : list fstring;
  health : health_results;
  predictions : prediction_test_results;
  performance : performance_results;
  tested_endpoint : string
}.

(** [TestingPipeline.run_comprehensive_tests].  The three tests catch what
    their requests raise, so the [except] clause around them has nothing
    to catch. *)
Definition run_comprehensive_tests (config : PipelineConfig) (svc : aws)
    (endpoint_name : string) : comprehensive_results :=
  let health_results := test_endpoint_health svc endpoint_name in
  let prediction_results := test_endpoint_predictions svc endpoint_name in
  let performance_results := test_endpoint_performance svc endpoint_name in
  let verdict :=
    overall_test_status config (health_status health_results)
      (accuracy prediction_results) (success_rate performance_results)
      (load_avg_latency_ms performance_results) in
  {| overall_status := fst verdict;
     issues := snd verdict;
     health := health_results;
     predictions := prediction_results;
     performance := performance_results;
     tested_endpoint := endpoint_name |}.

End Testing.

(** ** [scripts/run_pipeline.py] *)
Module RunPipeline.
Import Config Services.

Inductive mode : Type := complete | training | deployment | testing.

Definition mode_eqb (a b : mode) : bool :=
  match a, b with
  | complete, complete | training, training
  | deployment, deployment | testing, testing => true
  | _, _ => false
  end.

(** The parsed command line. *)
Record arguments : Type := {
  mode_of : mode;
  training_job_arg : option string;
  endpoint_name_arg : option string;
  output_file : option string;
  accuracy_threshold : option float;
  minimum_accuracy : option float;
  instance_type : option string
}.

(** Everything outside the process.  [new_training_pipeline],
    [new_deployment_pipeline] and [new_testing_pipeline] are the
    constructions of the three pipeline objects for the configuration of
    the run: each sets up logging from [LOG_LEVEL] and creates its session
    or clients, and returns or raises. *)
Record world : Type := {
  new_training_pipeline : result unit;
  new_deployment_pipeline : result unit;
  new_testing_pipeline : result unit;
  sklearn : Training.services;
  sagemaker : aws;
  clock : string;
  write_output : result unit
}.

(** Truth value of an optional float argument. *)
Definition given (o : option float) : bool :=
  match o with
  | Some x => PyFloat.truthy x
  | None => false
  end.

(** "Override configuration with command line arguments": the attributes
    are set on the instance [config = PipelineConfig()]; [cls] holds the
    class attributes. *)
Definition override (cls : PipelineConfig) (args : arguments)
  : PipelineConfig :=
  let config := cls in
  let config :=
    if given (accuracy_threshold args)
    then set_ACCURACY_THRESHOLD (default 0%float (accuracy_threshold args))
                                config
    else config in
  let config :=
    if given (minimum_accuracy args)
    then set_MINIMUM_ACCURACY (default 0%float (minimum_accuracy args)) config
    else config in
  if truthy_str (instance_type args)
  then set_INSTANCE_TYPE (default "" (instance_type args)) config
  else config.

(** The dictionary [results] that [main] fills stage by stage; the testing
    entry is [Some None] when the stage found no endpoint to test. *)
Record results : Type := {
  training_entry : option Training.pipeline_results;
  deployment_entry : option Deployment.pipeline_results;
  testing_entry : option (option Testing.comprehensive_results)
}.

(** The training phase of [main]: the trainer is constructed, then run. *)
Definition training_phase (config : PipelineConfig) (args : arguments)
    (w : world) : result (option Training.pipeline_results) :=
  if mode_eqb (mode_of args) complete || mode_eqb (mode_of args) training
  then match new_training_pipeline w with
       | Raise e => Raise e
       | Ok _ =>
           match fst (Training.run_training_pipeline config (sklearn w)) with
           | Ok train_results => Ok (Some train_results)
           | Raise e => Raise e
           end
       end
  else Ok None.

(** [deployer.run_deployment_pipeline(...)] on a fresh [DeploymentPipeline]. *)
Definition deployer_run (config : PipelineConfig) (w : world)
    (training_job_name : option string) : result Deployment.pipeline_results :=
  fst (Deployment.run_deployment_pipeline (sagemaker w) (clock w)
         training_job_name (Deployment.init config)).

(** The branch of the deployment phase that binds [deploy_results]. *)
Definition produce_deploy_results (config : PipelineConfig)
    (args : arguments) (w : world) (train : option Training.pipeline_results)
  : result Deployment.pipeline_results :=
  if mode_eqb (mode_of args) deployment && truthy_str (training_job_arg args)
  then deployer_run config w (training_job_arg args)
  else if mode_eqb (mode_of args) complete
          && match train with
             | Some r => Training.should_deploy_flag r
             | None => false
             end
  then deployer_run config w None
  else if mode_eqb (mode_of args) deployment
  then deployer_run config w None
  else Ok (Deployment.PipelineSkipped "deployment criteria not met").

(** The deployment phase of [main]: the deployer is constructed,
    [deploy_results] is produced, then summarised, which reads the
    endpoint name of any deployment results present. *)
Definition deployment_phase (config : PipelineConfig) (args : arguments)
    (w : world) (train : option Training.pipeline_results)
  : result (option Deployment.pipeline_results) :=
  if mode_eqb (mode_of args) complete || mode_eqb (mode_of args) deployment
  then
    match new_deployment_pipeline w with
    | Raise e => Raise e
    | Ok _ =>
        match produce_deploy_results config args w train with
        | Raise e => Raise e
        | Ok deploy_results =>
            match Deployment.get_deployment_results deploy_results with
            | Some d =>
                match Deployment.endpoint_name_of d with
                | Ok _ => Ok (Some deploy_results)
                | Raise e => Raise e
                end
            | None => Ok (Some deploy_results)
            end
        end
    end
  else Ok None.

(** "Determine endpoint name" in the testing phase. *)
Definition determine_endpoint (config : PipelineConfig) (args : arguments)
    (w : world) (deploy : option Deployment.pipeline_results)
  : result (option string) :=
  if truthy_str (endpoint_name_arg args) then Ok (endpoint_name_arg args)
  else
    match deploy ≫= Deployment.get_deployment_results with
    | Some d =>
        match Deployment.endpoint_name_of d with
        | Ok n => Ok (Some n)
        | Raise e => Raise e
        end
    | None =>
        match list_endpoints (sagemaker w) with
        | Raise e => Raise e
        | Ok endpoints =>
            Ok (fst <$>
                  find (fun endpoint : string * string =>
                          (snd endpoint =? "InService")
                          && contains (ENDPOINT_PREFIX config) (fst endpoint))
                       endpoints)
        end
    end.

(** The testing phase of [main]: the tester is constructed, the endpoint
    determined, and the tests run on it. *)
Definition testing_phase (config : PipelineConfig) (args : arguments)
    (w : world) (deploy : option Deployment.pipeline_results)
  : result (option (option Testing.comprehensive_results)) :=
  if mode_eqb (mode_of args) complete || mode_eqb (mode_of args) testing
  then
    match new_testing_pipeline w with
    | Raise e => Raise e
    | Ok _ =>
        match determine_endpoint config args w deploy with
        | Raise e => Raise e
        | Ok endpoint_name =>
            if truthy_str endpoint_name
            then Ok (Some (Some (Testing.run_comprehensive_tests
                                   config (sagemaker w)
                                   (default "" endpoint_name))))
            else Ok (Some None)
        end
    end
  else Ok None.

(** The [try] block of [main], up to [return 0]. *)
Definition run_stages (config : PipelineConfig) (args : arguments) (w : world)
  : result results :=
  match training_phase config args w with
  | Raise e => Raise e
  | Ok train =>
      match deployment_phase config args w train with
      | Raise e => Raise e
      | Ok deploy =>
          match testing_phase config args w deploy with
          | Raise e => Raise e
          | Ok tests =>
              match (if truthy_str (output_file args)
                     then write_output w else Ok tt) with
              | Raise e => Raise e
              | Ok _ =>
                  Ok {| training_entry := train;
                        deployment_entry := deploy;
                        testing_entry := tests |}
              end
          end
      end
  end.

(** The exit code of the script: [sys.exit(1)] on a configuration error,
    otherwise [sys.exit(main())], where [main] returns 0 at the end of its
    [try] block and 1 from its [except] clause.  [validate] is a class
    method, so it reads the class attributes [cls]. *)
Definition main (cls : PipelineConfig) (args : arguments) (w : world) : Z :=
  let config := override cls args in
  match validate cls with
  | Raise _ => 1
  | Ok _ =>
      match run_stages config args w with
      | Ok _ => 0
      | Raise _ => 1
      end
  end.

End RunPipeline.

(** ** Executing the top level of a pipeline module *)
Module ModuleLoad.

(** A [def] in a class body, with the global and builtin names its
    parameter and return annotations read, in the order Python evaluates
    them. *)
Record funcdef : Type := {
  def_name : string;
  annotation_names : list string
}.

(** The top-level statements of a pipeline module. *)
Inductive stmt : Type :=
| Import (names : list string)
| TryImport (names : list string)
| ClassDef (class_name : string) (body : list funcdef).

(** The names every module can read without importing them. *)
Definition builtins : gset string :=
  {[ "str"; "bool"; "int"; "float"; "dict"; "list" ]}.

(** The first name of [names] bound neither in [globals] nor as a builtin. *)
Definition first_unbound (globals : gset string) (names : list string)
  : option string :=
  find (fun n => negb (bool_decide (n ∈ globals ∪ builtins))) names.

(** Executing the [def]s of a class body.  With eager annotations each
    [def] evaluates its annotations when it executes; with deferred
    annotations it evaluates none. *)
Fixpoint exec_defs (eager : bool) (globals : gset string)
    (defs : list funcdef) : result unit :=
  match defs with
  | [] => Ok tt
  | d :: rest =>
      match (if eager then first_unbound globals (annotation_names d)
             else None) with
      | Some n => Raise (NameError n)
      | None => exec_defs eager globals rest
      end
  end.

(** Executing the statements of a module in order; the result is the
    module's namespace.  [sdk] tells whether the optional packages of a
    [try: import ... except ImportError] block are installed. *)
Fixpoint exec_module (eager sdk : bool) (globals : gset string)
    (body : list stmt) : result (gset string) :=
  match body with
  | [] => Ok globals
  | Import names :: rest =>
      exec_module eager sdk (list_to_set names ∪ globals) rest
  | TryImport names :: rest =>
      exec_module eager sdk
        (if sdk then list_to_set names ∪ globals else globals) rest
  | ClassDef class_name defs :: rest =>
      match exec_defs eager globals defs with
      | Raise e => Raise e
      | Ok _ => exec_module eager sdk ({[ class_name ]} ∪ globals) rest
      end
  end.

(** [pipeline/deployment.py], lines 7 to 414. *)
Definition deployment_py : list stmt :=
  [ Import ["json"];
    Import ["logging"];
    Import ["time"];
    Import ["datetime"];
    Import ["Any"; "Dict"; "Optional"];
    Import ["boto3"];
    TryImport ["sagemaker"; "get_execution_role"; "SKLearnModel"];
    Import ["PipelineConfig"];
    Import ["NotificationManager"];
    ClassDef "DeploymentPipeline"
      [ {| def_name := "__init__";
           annotation_names := ["PipelineConfig"] |};
        {| def_name := "_setup_logging";
           annotation_names := ["logging"] |};
        {| def_name := "get_latest_training_job";
           annotation_names := ["Optional"; "str"] |};
        {| def_name := "check_deployment_criteria";
           annotation_names :=
             ["str"; "Tuple"; "bool"; "Dict"; "str"; "Any"] |};
        {| def_name := "get_current_production_endpoint";
           annotation_names := ["Optional"; "str"] |};
        {| def_name := "deploy_model";
           annotation_names := ["str"; "str"; "Dict"; "str"; "Any"] |};
        {| def_name := "_test_endpoint";
           annotation_names := ["str"; "Dict"; "str"; "Any"] |};
        {| def_name := "_rollback_deployment";
           annotation_names := ["Dict"; "str"; "Any"] |};
        {| def_name := "run_deployment_pipeline";
           annotation_names := ["str"; "Dict"; "str"; "Any"] |} ] ].

(** [from pipeline.deployment import DeploymentPipeline] followed by a use
    of the class: the use runs only if the import returns. *)
Definition import_then {A : Type} (eager sdk : bool) (use : unit -> A)
  : result A :=
  match exec_module eager sdk ∅ deployment_py with
  | Raise e => Raise e
  | Ok _ => Ok (use tt)
  end.

End ModuleLoad.


(** * Vocabulary of the properties *)


(** The training job lists no metric named [accuracy] or
    [validation_accuracy] (a job without a metric list lists none). *)
Definition lacks_accuracy (job : Services.training_job) : Prop :=
  match Services.FinalMetricDataList job with
  | Some metrics =>
      ("accuracy" ∉ metrics.*1) /\ ("validation_accuracy" ∉ metrics.*1)
  | None => True
  end.

(** The [i]-th request of the functional test raises before a response
    arrives. *)
Definition transport_error (svc : Services.aws) (endpoint_name : string)
    (ic : nat * Testing.test_case) : bool :=
  match Services.invoke_endpoint svc (fst ic) endpoint_name
          [Testing.data (snd ic)] with
  | Raise _ => true
  | Ok _ => false
  end.

(** The [i]-th request is answered with a class equal to the expected
    one. *)
Definition answered_correctly (svc : Services.aws) (endpoint_name : string)
    (ic : nat * Testing.test_case) : bool :=
  match Services.invoke_endpoint svc (fst ic) endpoint_name
          [Testing.data (snd ic)] with
  | Ok (_, Ok decoded) =>
      match Testing.predicted_class_of decoded with
      | Ok predicted => py_eq_int predicted (Testing.expected_class (snd ic))
      | Raise _ => false
      end
  | _ => false
  end.

(** The entry [r] of [individual_results] is the record of case [ic]: it
    carries the case's name, input and expected class, it is a failed
    entry when the request raised, and it counts as correct exactly when
    the case was answered correctly. *)
Definition records (svc : Services.aws) (endpoint_name : string)
    (ic : nat * Testing.test_case) (r : Testing.prediction_result) : Prop :=
  match r with
  | Testing.PredictionSuccess test_name input expected _ _ is_correct _ =>
      test_name = Testing.name (snd ic)
      /\ input = Testing.data (snd ic)
      /\ expected = Testing.expected_class (snd ic)
      /\ transport_error svc endpoint_name ic = false
      /\ is_correct = answered_correctly svc endpoint_name ic
  | Testing.PredictionFailed test_name input expected _ =>
      test_name = Testing.name (snd ic)
      /\ input = Testing.data (snd ic)
      /\ expected = Testing.expected_class (snd ic)
      /\ answered_correctly svc endpoint_name ic = false
  end.

(** The number of checks of [run_comprehensive_tests] that fire. *)
Definition violated_conditions (config : Config.PipelineConfig)
    (health : string) (prediction_accuracy success_rate avg_latency : float)
  : nat :=
  (if negb (health =? "healthy") then 1 else 0)
  + (if PyFloat.lt prediction_accuracy (Config.MINIMUM_ACCURACY config)
     then 1 else 0)
  + (if PyFloat.lt success_rate 0.95%float then 1 else 0)
  + (if PyFloat.gt avg_latency 1000%float then 1 else 0).

(** The deployment attempt of [deploy_model] raises: one of the calls made
    up to and including the creation of the endpoint does. *)
Definition provisioning_raises (svc : Services.aws)
    (training_job_name endpoint_name : string) : bool :=
  match Services.describe_training_job svc training_job_name with
  | Raise _ => true
  | Ok job =>
      match Services.S3ModelArtifacts job, Services.RoleArn job,
            Services.sagemaker_session svc, Services.sklearn_model svc,
            Services.model_deploy svc endpoint_name with
      | Some _, Some _, Ok _, Ok _, Ok _ => false
      | _, _, _, _, _ => true
      end
  end.

(** What the smoke test of [deploy_model] finds at an endpoint. *)
Definition smoke_test (svc : Services.aws) (endpoint_name : string)
  : Deployment.test_results :=
  match Services.invoke_endpoint svc 0 endpoint_name
          Deployment.smoke_test_data with
  | Ok (ms, Ok predictions) => Deployment.TestSuccess ms predictions
  | Ok (_, Raise e) => Deployment.TestFailed (str_of_exn e)
  | Raise e => Deployment.TestFailed (str_of_exn e)
  end.

(** The name [deploy_model] gives the endpoint it creates. *)
Definition candidate (s : Deployment.self) (timestamp : string) : string :=
  Config.ENDPOINT_PREFIX (Deployment.config s) ++ "-" ++ timestamp.

(** The [status] of what [_rollback_deployment] returned, if it
    returned. *)
Definition returned_status
    (out : result Deployment.rollback_results * Deployment.self)
  : option string :=
  match fst out with
  | Ok r => Some (Deployment.rollback_status r)
  | Raise _ => None
  end.

(** A [DeploymentPipeline] whose last deployment recorded [previous] as
    the production endpoint. *)
Definition pipeline_with_previous (config : Config.PipelineConfig)
    (previous : option string) : Deployment.self :=
  {| Deployment.config := config;
     Deployment.current_endpoint := None;
     Deployment.previous_endpoint := previous;
     Deployment.deployment_metadata := None;
     Deployment.events := [] |}.

(** A step from [s] to [s'] that leaves the configuration and the two
    endpoint attributes as they were and does not enter the rollback
    routine. *)
Definition preserves (s s' : Deployment.self) : Prop :=
  Deployment.config s' = Deployment.config s
  /\ Deployment.current_endpoint s' = Deployment.current_endpoint s
  /\ Deployment.previous_endpoint s' = Deployment.previous_endpoint s
  /\ Deployment.rollback_invoked s' = Deployment.rollback_invoked s.

(** * Sample services *)
Module Samples.
Import Services.

(** A completed training job with the given final metrics. *)
Definition job_with (metrics : list (string * float)) : training_job :=
  {| FinalMetricDataList := Some metrics;
     S3ModelArtifacts := Some "s3://sagemaker-mlops-artifacts/model.tar.gz";
     RoleArn := Some "arn:aws:iam::123456789012:role/sagemaker" |}.

(** A listing of training jobs as the service's interface gives it: the
    jobs are under ['TrainingJobSummaries'], and there is no
    ['TrainingJobs']. *)
Definition summaries (jobs : list (string * string)) : training_jobs_listing :=
  {| TrainingJobs := None; TrainingJobSummaries := Some jobs |}.

(** A production variant as the service's interface describes it: it
    carries no ['InstanceType']. *)
Definition variant_summary : production_variant :=
  {| VariantName := Some "AllTraffic";
     InstanceType := None;
     CurrentWeight := Some 1%float;
     DesiredWeight := Some 1%float;
     CurrentInstanceCount := Some 1%Z;
     DesiredInstanceCount := Some 1%Z |}.

(** The description of an endpoint as the service's interface gives it. *)
Definition summary_description : endpoint_description :=
  {| CreationTime := Some "2024-01-01T00:00:00";
     LastModifiedTime := Some "2024-01-01T00:05:00";
     ProductionVariants := Some [variant_summary] |}.

(** A description that carries every entry the health check reads. *)
Definition full_description : endpoint_description :=
  {| CreationTime := Some "2024-01-01T00:00:00";
     LastModifiedTime := Some "2024-01-01T00:05:00";
     ProductionVariants :=
       Some [ {| VariantName := Some "AllTraffic";
                 InstanceType := Some "ml.m5.large";
                 CurrentWeight := Some 1%float;
                 DesiredWeight := Some 1%float;
                 CurrentInstanceCount := Some 1%Z;
                 DesiredInstanceCount := Some 1%Z |} ] |}.

(** An account in which every call succeeds: one completed training job,
    one endpoint in service, and a model that classifies each input as
    class 0. *)
Definition healthy (metrics : list (string * float)) : aws :=
  {| list_training_jobs := Ok (summaries [("iris-classifier-1", "Completed")]);
     describe_training_job := fun _ => Ok (job_with metrics);
     list_endpoints := Ok [("iris-model-old", "InService")];
     describe_endpoint := fun _ => Ok "InService";
     described_endpoint := fun _ => summary_description;
     sagemaker_session := Ok tt;
     sklearn_model := Ok tt;
     model_deploy := fun _ => Ok tt;
     invoke_endpoint := fun _ _ _ => Ok (12.5%float, Ok (JList [JInt 0]));
     load_test_requests := 4 |}.

(** The same account, where the freshly created endpoint still answers
    [describe_endpoint] with [status] and every request to an endpoint
    raises; the description carries every entry the health check reads. *)
Definition not_serving (metrics : list (string * float)) (status : string)
  : aws :=
  {| list_training_jobs := Ok (summaries [("iris-classifier-1", "Completed")]);
     describe_training_job := fun _ => Ok (job_with metrics);
     list_endpoints := Ok [("iris-model-old", "InService")];
     describe_endpoint := fun _ => Ok status;
     described_endpoint := fun _ => full_description;
     sagemaker_session := Ok tt;
     sklearn_model := Ok tt;
     model_deploy := fun _ => Ok tt;
     invoke_endpoint := fun _ _ _ => Raise (RemoteError "ModelError");
     load_test_requests := 4 |}.

(** The same account, where creating the endpoint raises. *)
Definition provisioning_fails (metrics : list (string * float)) : aws :=
  {| list_training_jobs := Ok (summaries [("iris-classifier-1", "Completed")]);
     describe_training_job := fun _ => Ok (job_with metrics);
     list_endpoints := Ok [("iris-model-old", "InService")];
     describe_endpoint := fun _ => Ok "InService";
     described_endpoint := fun _ => summary_description;
     sagemaker_session := Ok tt;
     sklearn_model := Ok tt;
     model_deploy := fun _ => Raise (RemoteError "ResourceLimitExceeded");
     invoke_endpoint := fun _ _ _ => Ok (12.5%float, Ok (JList [JInt 0]));
     load_test_requests := 4 |}.

(** An account without training jobs or endpoints, where
    [describe_endpoint] raises. *)
Definition empty_account : aws :=
  {| list_training_jobs := Ok (summaries []);
     describe_training_job := fun _ => Raise (RemoteError "ValidationException");
     list_endpoints := Ok [];
     describe_endpoint := fun _ => Raise (RemoteError "ValidationException");
     described_endpoint := fun _ => summary_description;
     sagemaker_session := Ok tt;
     sklearn_model := Ok tt;
     model_deploy := fun _ => Ok tt;
     invoke_endpoint := fun _ _ _ => Raise (RemoteError "ValidationError");
     load_test_requests := 0 |}.

(** The healthy account, except that the second request of a method
    raises. *)
Definition second_request_fails : aws :=
  {| list_training_jobs := Ok (summaries [("iris-classifier-1", "Completed")]);
     describe_training_job := fun _ => Ok (job_with []);
     list_endpoints := Ok [("iris-model-old", "InService")];
     describe_endpoint := fun _ => Ok "InService";
     described_endpoint := fun _ => summary_description;
     sagemaker_session := Ok tt;
     sklearn_model := Ok tt;
     model_deploy := fun _ => Ok tt;
     invoke_endpoint := fun n _ _ =>
       if (n =? 1)%nat then Raise (RemoteError "ServiceUnavailable")
       else Ok (12.5%float, Ok (JList [JInt 0]));
     load_test_requests := 4 |}.

(** Thresholds that accept every accuracy. *)
Definition zero_thresholds : Config.PipelineConfig :=
  Config.set_MINIMUM_ACCURACY 0%float
    (Config.set_ACCURACY_THRESHOLD 0%float Config.defaults).

(** A command line that only selects the mode. *)
Definition arguments_for (m : RunPipeline.mode) : RunPipeline.arguments :=
  {| RunPipeline.mode_of := m;
     RunPipeline.training_job_arg := None;
     RunPipeline.endpoint_name_arg := None;
     RunPipeline.output_file := None;
     RunPipeline.accuracy_threshold := None;
     RunPipeline.minimum_accuracy := None;
     RunPipeline.instance_type := None |}.

(** A world in which the three pipeline objects are constructed, local
    training evaluates to [accuracy] and the account is [account]. *)
Definition world_with (accuracy : float) (account : aws) : RunPipeline.world :=
  {| RunPipeline.new_training_pipeline := Ok tt;
     RunPipeline.new_deployment_pipeline := Ok tt;
     RunPipeline.new_testing_pipeline := Ok tt;
     RunPipeline.sklearn :=
       {| Training.evaluate_local_model :=
            Ok {| Training.accuracy := accuracy;
                  Training.cv_mean_accuracy := accuracy |};
          Training.train_sagemaker_model := Ok "iris-classifier-1" |};
     RunPipeline.sagemaker := account;
     RunPipeline.clock := "20240101-000000";
     RunPipeline.write_output := Ok tt |}.

End Samples.

(** * Further vocabulary: listings *)

(** [x] is the first element of [l] that satisfies [f]. *)
Definition first_where {A : Type} (f : A -> bool) (l : list A) (x : A)
  : Prop :=
  exists before after,
    l = (before ++ x :: after)%list
    /\ f x = true
    /\ Forall (fun y => f y = false) before.

(** A listed training job has completed. *)
Definition completed (job : string * string) : bool :=
  snd job =? "Completed".

(** A listed training job has completed and its name contains the model
    name prefix. *)
Definition completed_model (prefix : string) (job : string * string) : bool :=
  (snd job =? "Completed") && contains prefix (fst job).

(** A listed endpoint is in service and its name contains the endpoint
    prefix. *)
Definition serving (prefix : string) (endpoint : string * string) : bool :=
  (snd endpoint =? "InService") && contains prefix (fst endpoint).

(** * Further vocabulary: metrics *)

(** The metrics a training job lists, none when it has no list. *)
Definition listed_metrics (job : Services.training_job)
  : list (string * float) :=
  default [] (Services.FinalMetricDataList job).

(** The value of the last listed metric named [name]. *)
Definition last_reported (name : string) (metrics : list (string * float))
  : option float :=
  snd <$> last (filter (fun metric : string * float => fst metric = name)
                       metrics).

(** * Further vocabulary: what a method leaves behind *)

(** The events of [records] that are not log records: the entries into a
    method and the notifications, oldest first. *)
Definition beyond_the_log (records : list event) : list event :=
  List.filter (fun e => match e with Log _ _ => false | _ => true end)
              records.

(** A step from [s] to [s'] that assigns none of the attributes of the
    object and appends records to its events, of which [others] are the
    ones that are not log records.  With [others] empty the step changes
    nothing but the log. *)
Definition appends (s s' : Deployment.self) (others : list event) : Prop :=
  Deployment.config s' = Deployment.config s
  /\ Deployment.current_endpoint s' = Deployment.current_endpoint s
  /\ Deployment.previous_endpoint s' = Deployment.previous_endpoint s
  /\ Deployment.deployment_metadata s' = Deployment.deployment_metadata s
  /\ exists records,
       Deployment.events s' = (Deployment.events s ++ records)%list
       /\ beyond_the_log records = others.

(** * Further vocabulary: what the deployment methods compute *)

(** The decision and the record of [check_deployment_criteria], read off
    the service's description of the job. *)
Definition criteria (config : Config.PipelineConfig) (svc : Services.aws)
    (training_job_name : string) : bool * Deployment.evaluation_record :=
  match Services.describe_training_job svc training_job_name with
  | Ok job =>
      let metrics := Deployment.final_metrics_of job in
      (PyFloat.ge (Deployment.accuracy_of metrics)
                  (Config.ACCURACY_THRESHOLD config),
       Deployment.Evaluation training_job_name
         (Deployment.accuracy_of metrics) metrics)
  | Raise e =>
      (false, Deployment.EvaluationError training_job_name (str_of_exn e))
  end.

(** The training job the listing gives [get_latest_training_job]: the
    jobs are read under ['TrainingJobs']; an answer without that key, like
    a listing that raises, gives none. *)
Definition latest_training_job (config : Config.PipelineConfig)
    (svc : Services.aws) : option string :=
  match Services.list_training_jobs svc with
  | Ok response =>
      match Services.TrainingJobs response with
      | Some jobs =>
          match find (completed_model (Config.MODEL_NAME_PREFIX config))
                     jobs with
          | Some job => Some (fst job)
          | None => fst <$> find completed jobs
          end
      | None => None
      end
  | Raise _ => None
  end.

(** The endpoint the listing shows in production, if any. *)
Definition production_endpoint (config : Config.PipelineConfig)
    (svc : Services.aws) : option string :=
  match Services.list_endpoints svc with
  | Ok endpoints =>
      fst <$> find (serving (Config.ENDPOINT_PREFIX config)) endpoints
  | Raise _ => None
  end.

(** [deploy_model] gets as far as recording the production endpoint: the
    training job is described with its artifacts and role, and the
    session and the model object are created. *)
Definition snapshot_reached (svc : Services.aws) (training_job_name : string)
  : bool :=
  match Services.describe_training_job svc training_job_name with
  | Ok job =>
      match Services.S3ModelArtifacts job, Services.RoleArn job,
            Services.sagemaker_session svc, Services.sklearn_model svc with
      | Some _, Some _, Ok _, Ok _ => true
      | _, _, _, _ => false
      end
  | Raise _ => false
  end.

(** What rolling back to [previous] reports. *)
Definition rollback_report (svc : Services.aws) (previous : option string)
  : Deployment.rollback_results :=
  if truthy_str previous then
    match Services.describe_endpoint svc (default "" previous) with
    | Ok status =>
        if status =? "InService"
        then Deployment.RolledBack (default "" previous)
        else Deployment.RollbackUnavailable
               ("Previous endpoint not available: " ++ status)
    | Raise e => Deployment.RollbackError (str_of_exn e)
    end
  else Deployment.NoPreviousEndpoint.

(** * Further vocabulary: the test suite *)

(** The [i]-th request of the load test returns. *)
Definition request_answered (svc : Services.aws) (endpoint_name : string)
    (i : nat) : bool :=
  match Services.invoke_endpoint svc i endpoint_name
          [[5.1; 3.5; 1.4; 0.2]%float] with
  | Ok _ => true
  | Raise _ => false
  end.

(** One of the two performance checks of [run_comprehensive_tests] fires. *)
Definition performance_violated (success_rate avg_latency : float) : bool :=
  PyFloat.lt success_rate 0.95%float || PyFloat.gt avg_latency 1000%float.

(** The health check or the accuracy check fires. *)
Definition function_violated (config : Config.PipelineConfig)
    (health : string) (prediction_accuracy : float) : bool :=
  negb (health =? "healthy")
  || PyFloat.lt prediction_accuracy (Config.MINIMUM_ACCURACY config).

(** An account whose endpoints are in service, are described as the
    service's interface describes them, and answer the [n]-th request of
    a method with the class expected of the [n]-th shipped test case. *)
Definition accurate_model : Services.aws :=
  {| Services.list_training_jobs :=
       Ok (Samples.summaries [("iris-classifier-1", "Completed")]);
     Services.describe_training_job := fun _ => Ok (Samples.job_with []);
     Services.list_endpoints := Ok [("iris-model-old", "InService")];
     Services.describe_endpoint := fun _ => Ok "InService";
     Services.described_endpoint := fun _ => Samples.summary_description;
     Services.sagemaker_session := Ok tt;
     Services.sklearn_model := Ok tt;
     Services.model_deploy := fun _ => Ok tt;
     Services.invoke_endpoint := fun n _ _ =>
       Ok (12.5%float,
           Ok (JList [JInt (default 0%Z
                              (Testing.expected_class
                                 <$> Testing.get_test_data !! n))]));
     Services.load_test_requests := 4 |}.

(** The kinds of the notifications among [events], oldest first. *)
Definition notifications (events : list event) : list string :=
  omap (fun e => match e with Notify kind => Some kind | _ => None end)
       events.

(** * [scripts/run_pipeline.py] as a script *)

(** The exit status of [python run_pipeline.py]: the imports at the top of
    the script run first, [pipeline.deployment] among them
    ([other_imports] stands for the others); an exception raised by an
    import ends the process with status 1; otherwise the status is what
    [main] gives. *)
Definition script_exit_status (eager sdk : bool) (other_imports : result unit)
    (cls : Config.PipelineConfig) (args : RunPipeline.arguments)
    (w : RunPipeline.world) : Z :=
  match ModuleLoad.import_then eager sdk (fun _ => other_imports) with
  | Ok (Ok _) => RunPipeline.main cls args w
  | Ok (Raise _) => 1
  | Raise _ => 1
  end.

(** * [scripts/deploy_model.py] *)
Module DeployScript.

(** [s.lower()], on the letters A to Z (the names of training jobs are
    made of ASCII letters, digits and hyphens). *)
Definition lower_ascii (c : Ascii.ascii) : Ascii.ascii :=
  let n := Ascii.nat_of_ascii c in
  if (65 <=? n)%nat && (n <=? 90)%nat then Ascii.ascii_of_nat (n + 32)
  else c.

Fixpoint lower (s : string) : string :=
  match s with
  | EmptyString => EmptyString
  | String c rest => String (lower_ascii c) (lower rest)
  end.

(** [describe_training_job]'s answer: the entries the script reads, [None]
    for a key the answer lacks; the model artifacts and the training image
    sit one dictionary further down. *)
Record training_job : Type := {
  RoleArn : option string;
  ModelArtifacts : option (option string);
  AlgorithmSpecification : option (option string)
}.

(** The three dictionaries [deploy_model] returns. *)
Inductive deployment : Type :=
| Deployed (endpoint_name : string) (test_prediction : json)
| DeployedButTestFailed (endpoint_name error : string)
| Failed (error : string).

(** [result['status']] *)
Definition status (d : deployment) : string :=
  match d with
  | Deployed _ _ => "success"
  | DeployedButTestFailed _ _ => "deployed_but_test_failed"
  | Failed _ => "failed"
  end.

(** What the script asks of its environment, one answer per operation:
    [clock] is the formatted time of the deployment, and [write_json] is
    writing the results to the output file. *)
Record environment : Type := {
  list_training_jobs : result Services.training_jobs_listing;
  sagemaker_session : result unit;
  get_execution_role : result string;
  describe_training_job : string -> result training_job;
  sklearn_model : result unit;
  clock : string;
  model_deploy : string -> result unit;
  predict : result json;
  write_json : deployment -> result unit
}.

(** The parsed command line. *)
Record arguments : Type := {
  training_job_arg : option string;
  instance_type : string;
  output_json : option string
}.

(** The test of the first loop of [get_latest_training_job]. *)
Definition completed_iris (job : string * string) : bool :=
  (snd job =? "Completed") && contains "iris" (lower (fst job)).

(** [get_latest_training_job]: the jobs are read under
    ['TrainingJobs'], with no [try] around the call or the reads. *)
Definition get_latest_training_job (env : environment)
  : result (option string) :=
  and_then (list_training_jobs env) (fun response =>
  and_then (Services.getitem "TrainingJobs" (Services.TrainingJobs response))
    (fun jobs =>
  match find completed_iris jobs with
  | Some job => Ok (Some (fst job))
  | None =>
      match find (fun job : string * string => snd job =? "Completed")
                 jobs with
      | Some job => Ok (Some (fst job))
      | None => Ok None
      end
  end)).

(** "Get execution role", with its fallback to the role of the training
    job. *)
Definition execution_role (env : environment) (training_job_name : string)
  : result string :=
  match get_execution_role env with
  | Ok role => Ok role
  | Raise _ =>
      match describe_training_job env training_job_name with
      | Raise e => Raise e
      | Ok job => Services.getitem "RoleArn" (RoleArn job)
      end
  end.

(** [training_job[outer][inner]] *)
Definition getitem2 (outer inner : string) (o : option (option string))
  : result string :=
  match Services.getitem outer o with
  | Raise e => Raise e
  | Ok entry => Services.getitem inner entry
  end.

(** The statements of [deploy_model] before its [try]: what they raise
    leaves the function. *)
Definition prepare_model (env : environment) (training_job_name : string)
  : result unit :=
  match sagemaker_session env with
  | Raise e => Raise e
  | Ok _ =>
      match execution_role env training_job_name with
      | Raise e => Raise e
      | Ok _ =>
          match describe_training_job env training_job_name with
          | Raise e => Raise e
          | Ok job =>
              match getitem2 "ModelArtifacts" "S3ModelArtifacts"
                             (ModelArtifacts job) with
              | Raise e => Raise e
              | Ok _ =>
                  match getitem2 "AlgorithmSpecification" "TrainingImage"
                                 (AlgorithmSpecification job) with
                  | Raise e => Raise e
                  | Ok _ => sklearn_model env
                  end
              end
          end
      end
  end.

(** [deploy_model]; the instance type is passed on to [model.deploy],
    whose answer here depends on the endpoint name alone. *)
Definition deploy_model (env : environment) (training_job_name : string)
    (instance : string) : result deployment :=
  match prepare_model env training_job_name with
  | Raise e => Raise e
  | Ok _ =>
      let endpoint_name := "iris-model-" ++ clock env in
      match model_deploy env endpoint_name with
      | Raise e => Ok (Failed (str_of_exn e))
      | Ok _ =>
          match predict env with
          | Ok prediction => Ok (Deployed endpoint_name prediction)
          | Raise e =>
              Ok (DeployedButTestFailed endpoint_name (str_of_exn e))
          end
      end
  end.

(** "Find training job if not specified": [None] is [sys.exit(1)]. *)
Definition find_training_job (env : environment) (args : arguments)
  : result (option string) :=
  if truthy_str (training_job_arg args) then Ok (training_job_arg args)
  else
    match get_latest_training_job env with
    | Raise e => Raise e
    | Ok found => Ok (if truthy_str found then found else None)
    end.

(** The exit status of the script: an exception that leaves [main] ends
    the process with status 1. *)
Definition main (env : environment) (args : arguments) : Z :=
  match find_training_job env args with
  | Raise _ => 1
  | Ok None => 1
  | Ok (Some training_job_name) =>
      match deploy_model env training_job_name (instance_type args) with
      | Raise _ => 1
      | Ok deployed =>
          match (if truthy_str (output_json args)
                 then write_json env deployed else Ok tt) with
          | Raise _ => 1
          | Ok _ => if status deployed =? "success" then 0 else 1
          end
      end
  end.

End DeployScript.

(** An environment in which every operation of the deployment script
    succeeds and the listing is [listing]. *)
Definition script_environment (listing : Services.training_jobs_listing)
  : DeployScript.environment :=
  {| DeployScript.list_training_jobs := Ok listing;
     DeployScript.sagemaker_session := Ok tt;
     DeployScript.get_execution_role := Raise (ValueError "no role");
     DeployScript.describe_training_job := fun _ =>
       Ok {| DeployScript.RoleArn := Some "arn:aws:iam::123456789012:role/s";
             DeployScript.ModelArtifacts := Some (Some "s3://bucket/model");
             DeployScript.AlgorithmSpecification := Some (Some "sklearn") |};
     DeployScript.sklearn_model := Ok tt;
     DeployScript.clock := "20240101-000000";
     DeployScript.model_deploy := fun _ => Ok tt;
     DeployScript.predict := Ok (JList [JInt 0]);
     DeployScript.write_json := fun _ => Ok tt |}.

(** The healthy account of the samples, except that its listing carries
    the jobs under ['TrainingJobs'], the key the pipeline reads. *)
Definition account_listing_training_jobs (metrics : list (string * float))
  : Services.aws :=
  {| Services.list_training_jobs :=
       Ok {| Services.TrainingJobs := Some [("iris-classifier-1", "Completed")];
             Services.TrainingJobSummaries := None |};
     Services.describe_training_job := fun _ => Ok (Samples.job_with metrics);
     Services.list_endpoints := Ok [("iris-model-old", "InService")];
     Services.describe_endpoint := fun _ => Ok "InService";
     Services.described_endpoint := fun _ => Samples.summary_description;
     Services.sagemaker_session := Ok tt;
     Services.sklearn_model := Ok tt;
     Services.model_deploy := fun _ => Ok tt;
     Services.invoke_endpoint := fun _ _ _ =>
       Ok (12.5%float, Ok (JList [JInt 0]));
     Services.load_test_requests := 4 |}.
(** * Properties *)

(** ** The order of floats *)

Ltac compare_cases :=
  change (Pos.compare_cont Eq) with Pos.compare in *;
  repeat match goal with
  | H : context [(?a ?= ?b)%Z] |- _ =>
      destruct (Z.compare_spec a b); try discriminate
  | H : context [(?a ?= ?b)%positive] |- _ =>
      destruct (Pos.compare_spec a b); try discriminate
  end; subst;
  repeat match goal with
  | |- context [(?a ?= ?b)%Z] => destruct (Z.compare_spec a b); try lia
  | |- context [(?a ?= ?b)%positive] =>
      destruct (Pos.compare_spec a b); try lia
  end.

(** The comparison of the IEEE specification is transitive on the pairs it
    orders: [x < y] and [y <= z] give [z > x]. *)
Lemma SFcompare_lt_le_gt (x y z : spec_float) :
  SFcompare x y = Some Lt ->
  SFcompare y z = Some Lt \/ SFcompare y z = Some Eq ->
  SFcompare z x = Some Gt.
Proof.
  destruct x as [sx|sx| |sx mx ex], y as [sy|sy| |sy my ey],
           z as [sz|sz| |sz mz ez];
    cbn [SFcompare]; intros H1 [H2|H2];
    repeat match goal with b : bool |- _ => destruct b end;
    try discriminate; try reflexivity;
    f_equal; compare_cases; try reflexivity; try discriminate.
Qed.

(** It is antisymmetric: [x <= y] excludes [y < x]. *)
Lemma SFcompare_le_not_lt (x y : spec_float) :
  SFcompare x y = Some Lt \/ SFcompare x y = Some Eq ->
  SFcompare y x <> Some Lt.
Proof.
  destruct x as [sx|sx| |sx mx ex], y as [sy|sy| |sy my ey];
    cbn [SFcompare]; intros [H|H];
    repeat match goal with b : bool |- _ => destruct b end;
    try discriminate; try (intros ?; discriminate);
    compare_cases; intros ?; discriminate.
Qed.

(** A float that compares with something equals itself (it is no NaN). *)
Lemma SFcompare_refl (x y : spec_float) (c : comparison) :
  SFcompare x y = Some c -> SFcompare x x = Some Eq.
Proof.
  destruct x as [sx|sx| |sx mx ex], y as [sy|sy| |sy my ey];
    cbn [SFcompare]; try discriminate; intros _;
    repeat match goal with b : bool |- _ => destruct b end;
    try reflexivity;
    change (Pos.compare_cont Eq) with Pos.compare;
    rewrite Z.compare_refl, Pos.compare_refl; reflexivity.
Qed.

Lemma le_cases (a b : float) :
  PyFloat.le a b = true ->
  SFcompare (Prim2SF a) (Prim2SF b) = Some Lt \/
  SFcompare (Prim2SF a) (Prim2SF b) = Some Eq.
Proof.
  unfold PyFloat.le. rewrite leb_spec. unfold SFleb.
  destruct (SFcompare _ _) as [[]|]; auto; discriminate.
Qed.

Lemma lt_cases (a b : float) :
  PyFloat.lt a b = true -> SFcompare (Prim2SF a) (Prim2SF b) = Some Lt.
Proof.
  unfold PyFloat.lt. rewrite ltb_spec. unfold SFltb.
  destruct (SFcompare _ _) as [[]|]; auto; discriminate.
Qed.

(** [a <= b] excludes [a > b]. *)
Lemma le_not_gt (a b : float) :
  PyFloat.le a b = true -> PyFloat.gt a b = false.
Proof.
  intros H. apply le_cases, SFcompare_le_not_lt in H.
  unfold PyFloat.gt. rewrite ltb_spec. unfold SFltb.
  destruct (SFcompare _ _) as [[]|]; congruence.
Qed.


(** [a < m] and [m <= t] exclude [a >= t]. *)
Lemma lt_le_not_ge (a m t : float) :
  PyFloat.lt a m = true -> PyFloat.le m t = true -> PyFloat.ge a t = false.
Proof.
  intros H1 H2. apply lt_cases in H1. apply le_cases in H2.
  pose proof (SFcompare_lt_le_gt _ _ _ H1 H2) as K.
  unfold PyFloat.ge. rewrite leb_spec. unfold SFleb. now rewrite K.
Qed.


(** ** C8: configuration validation *)

(** What [PipelineConfig.validate] does on thresholds that compare:
    it raises a [ValueError] for every pair in which the target is below
    the minimum or in which a threshold is below 0 or above 1; it returns
    [True] for every pair with [0 <= minimum <= target <= 1]; and when it
    raises, the script exits with code 1 whatever its arguments and the
    state of the services. *)
Lemma validate_rejects_bad_thresholds_accepts_good
    (cls : Config.PipelineConfig) :
  let target := Config.ACCURACY_THRESHOLD cls in
  let minimum := Config.MINIMUM_ACCURACY cls in
  (PyFloat.lt target minimum = true
   \/ PyFloat.lt target 0 = true \/ PyFloat.gt target 1 = true
   \/ PyFloat.lt minimum 0 = true \/ PyFloat.gt minimum 1 = true ->
   exists msg, Config.validate cls = Raise (ValueError msg))
  /\ (PyFloat.le 0 minimum = true /\ PyFloat.le minimum target = true
      /\ PyFloat.le target 1 = true ->
      Config.validate cls = Ok true)
  /\ (forall e args w,
        Config.validate cls = Raise e -> RunPipeline.main cls args w = 1%Z).
Proof.
  intros target minimum. unfold Config.validate. fold target minimum.
  split; [|split].
  - intros H.
    destruct (PyFloat.lt target 0) eqn:E1; cbn [orb]; [eauto|].
    destruct (PyFloat.gt target 1) eqn:E2; cbn [orb]; [eauto|].
    destruct (PyFloat.lt minimum 0) eqn:E3; cbn [orb]; [eauto|].
    destruct (PyFloat.gt minimum 1) eqn:E4; cbn [orb]; [eauto|].
    destruct (PyFloat.lt target minimum) eqn:E5; [eauto|].
    intuition discriminate.
  - intros (H0 & Hmt & H1).
    assert (E1 : PyFloat.lt target 0 = false).
    { destruct (PyFloat.lt target 0) eqn:E; [|reflexivity].
      pose proof (lt_le_not_ge _ _ _ E H0) as K.
      unfold PyFloat.ge, PyFloat.le in *. congruence. }
    assert (E2 : PyFloat.gt target 1 = false) by now apply le_not_gt.
    assert (E3 : PyFloat.lt minimum 0 = false)
      by (apply (le_not_gt 0 minimum); assumption).
    assert (E4 : PyFloat.gt minimum 1 = false).
    { destruct (PyFloat.gt minimum 1) eqn:E; [|reflexivity].
      pose proof (lt_le_not_ge 1 minimum target E Hmt) as K.
      unfold PyFloat.ge, PyFloat.le in *. congruence. }
    assert (E5 : PyFloat.lt target minimum = false)
      by (apply (le_not_gt minimum target); assumption).
    now rewrite E1, E2, E3, E4, E5.
  - intros e args w H. unfold RunPipeline.main, Config.validate.
    fold target minimum. now rewrite H.
Qed.

(** A float that something compares with is no NaN either. *)
Lemma SFcompare_refl_r (x y : spec_float) (c : comparison) :
  SFcompare y x = Some c -> SFcompare x x = Some Eq.
Proof.
  destruct x as [sx|sx| |sx mx ex], y as [sy|sy| |sy my ey];
    cbn [SFcompare]; try discriminate; intros _;
    repeat match goal with b : bool |- _ => destruct b end;
    try reflexivity;
    change (Pos.compare_cont Eq) with Pos.compare;
    rewrite Z.compare_refl, Pos.compare_refl; reflexivity.
Qed.

(** A NaN is below nothing and above nothing. *)
Lemma nan_is_unordered (x y : float) :
  PrimFloat.eqb x x = false ->
  PyFloat.lt x y = false /\ PyFloat.gt x y = false.
Proof.
  intros Hnan. rewrite FloatAxioms.eqb_spec in Hnan. unfold SFeqb in Hnan.
  unfold PyFloat.lt, PyFloat.gt. rewrite !ltb_spec. unfold SFltb. split.
  - destruct (SFcompare (Prim2SF x) (Prim2SF y)) as [c|] eqn:E;
      [|reflexivity].
    now rewrite (SFcompare_refl _ _ _ E) in Hnan.
  - destruct (SFcompare (Prim2SF y) (Prim2SF x)) as [c|] eqn:E;
      [|reflexivity].
    now rewrite (SFcompare_refl_r _ _ _ E) in Hnan.
Qed.

(** C8 fails on the code, in two ways.  First, [validate] rejects a
    threshold by comparing it, and every comparison with a NaN is false:
    a class whose target is NaN (as [ACCURACY_THRESHOLD=nan] in the
    environment gives) is accepted whenever its minimum is not below 0
    and not above 1, and likewise a class whose minimum is NaN, though
    NaN lies outside [0,1].  Second, [validate] reads the class
    attributes, and [main] calls it after setting the thresholds of the
    command line on the instance: with the default class attributes,
    [--accuracy-threshold 0.5 --minimum-accuracy 0.9] gives the run a
    target below its minimum, which [validate] would refuse on those
    values; no configuration error is raised and the run goes through its
    stages and exits with 0. *)
Theorem validation_lets_invalid_thresholds_through :
  (forall cls,
     PrimFloat.eqb (Config.ACCURACY_THRESHOLD cls)
                   (Config.ACCURACY_THRESHOLD cls) = false ->
     PyFloat.lt (Config.MINIMUM_ACCURACY cls) 0 = false ->
     PyFloat.gt (Config.MINIMUM_ACCURACY cls) 1 = false ->
     Config.validate cls = Ok true)
  /\ (forall cls,
        PrimFloat.eqb (Config.MINIMUM_ACCURACY cls)
                      (Config.MINIMUM_ACCURACY cls) = false ->
        PyFloat.lt (Config.ACCURACY_THRESHOLD cls) 0 = false ->
        PyFloat.gt (Config.ACCURACY_THRESHOLD cls) 1 = false ->
        Config.validate cls = Ok true)
  /\ Config.validate (Config.set_ACCURACY_THRESHOLD nan Config.defaults)
     = Ok true
  /\ (let args :=
        {| RunPipeline.mode_of := RunPipeline.training;
           RunPipeline.training_job_arg := None;
           RunPipeline.endpoint_name_arg := None;
           RunPipeline.output_file := None;
           RunPipeline.accuracy_threshold := Some 0.5%float;
           RunPipeline.minimum_accuracy := Some 0.9%float;
           RunPipeline.instance_type := None |} in
      let config := RunPipeline.override Config.defaults args in
      let w := Samples.world_with 0.97%float (Samples.healthy []) in
      Config.validate Config.defaults = Ok true
      /\ Config.ACCURACY_THRESHOLD config = 0.5%float
      /\ Config.MINIMUM_ACCURACY config = 0.9%float
      /\ Config.validate config
         = Raise (ValueError "ACCURACY_THRESHOLD must be >= MINIMUM_ACCURACY")
      /\ (exists r, RunPipeline.run_stages config args w = Ok r)
      /\ RunPipeline.main Config.defaults args w = 0%Z).
Proof.
  split; [|split; [|split]].
  - intros cls Hnan Hlow Hhigh. unfold Config.validate.
    destruct (nan_is_unordered _ 0%float Hnan) as (-> & _).
    destruct (nan_is_unordered _ 1%float Hnan) as (_ & Hgt).
    unfold PyFloat.gt in Hgt |- *. rewrite Hgt.
    destruct (nan_is_unordered _ (Config.MINIMUM_ACCURACY cls) Hnan)
      as (-> & _).
    unfold PyFloat.gt in Hhigh. now rewrite Hlow, Hhigh.
  - intros cls Hnan Hlow Hhigh. unfold Config.validate.
    destruct (nan_is_unordered _ 0%float Hnan) as (-> & _).
    destruct (nan_is_unordered _ 1%float Hnan) as (_ & Hgt).
    unfold PyFloat.gt in Hgt |- *. rewrite Hgt.
    destruct (nan_is_unordered _ (Config.ACCURACY_THRESHOLD cls) Hnan)
      as (_ & Hbelow).
    unfold PyFloat.gt, PyFloat.lt in Hbelow, Hlow, Hhigh |- *.
    now rewrite Hlow, Hhigh, Hbelow.
  - vm_compute. reflexivity.
  - vm_compute. repeat split; try reflexivity. eexists. reflexivity.
Qed.

(** ** C1: the accuracy gates *)

Ltac run_method :=
  cbn -[contains String.append String.eqb PyFloat.ge find truthy_str].




(** [check_deployment_criteria] on a job the service describes: the
    decision, the record, and the last line logged. *)
Lemma check_deployment_criteria_described svc name job s :
  Services.describe_training_job svc name = Ok job ->
  let cfg := Deployment.config s in
  let metrics := Deployment.final_metrics_of job in
  let a := Deployment.accuracy_of metrics in
  let r := Deployment.check_deployment_criteria svc name s in
  if PyFloat.ge a (Config.ACCURACY_THRESHOLD cfg) then
    fst r = Ok (true, Deployment.Evaluation name a metrics)
    /\ exists msg, last (Deployment.events (snd r)) = Some (Log INFO msg)
  else if PyFloat.ge a (Config.MINIMUM_ACCURACY cfg) then
    fst r = Ok (false, Deployment.Evaluation name a metrics)
    /\ exists msg, last (Deployment.events (snd r)) = Some (Log WARNING msg)
  else
    fst r = Ok (false, Deployment.Evaluation name a metrics)
    /\ exists msg, last (Deployment.events (snd r)) = Some (Log ERROR msg).
Proof.
  intros H cfg metrics a r. subst r.
  unfold Deployment.check_deployment_criteria. run_method.
  rewrite H. run_method. fold cfg metrics a.
  destruct (PyFloat.ge a (Config.ACCURACY_THRESHOLD cfg));
    [|destruct (PyFloat.ge a (Config.MINIMUM_ACCURACY cfg))];
    run_method; (split; [reflexivity|]); rewrite last_snoc; eauto.
Qed.



(** The default thresholds are accepted, and a target below the minimum
    is rejected. *)
Lemma validate_rejects_bad_thresholds_accepts_good_witness :
  Config.validate Config.defaults = Ok true
  /\ exists msg,
       Config.validate
         (Config.set_ACCURACY_THRESHOLD 0.5%float Config.defaults)
       = Raise (ValueError msg).
Proof.
  split.
  - apply (proj1 (proj2 (validate_rejects_bad_thresholds_accepts_good
                           Config.defaults))).
    repeat split; reflexivity.
  - apply (proj1 (validate_rejects_bad_thresholds_accepts_good
                    (Config.set_ACCURACY_THRESHOLD 0.5%float Config.defaults))).
    left. reflexivity.
Defined.

(** ** C10: a training job without an accuracy metric *)

(** Assigning the listed metrics leaves every unlisted name as it was. *)
Lemma lookup_unlisted_metric (metrics : list (string * float))
    (m : gmap string float) (k : string) :
  k ∉ metrics.*1 ->
  fold_left (fun (m : gmap string float) (metric : string * float) =>
               <[fst metric := snd metric]> m) metrics m !! k
  = m !! k.
Proof.
  revert m. induction metrics as [|[k' v] metrics IH]; intros m Hk.
  - reflexivity.
  - cbn [fold_left fst snd]. rewrite fmap_cons in Hk. cbn [fst] in Hk.
    apply not_elem_of_cons in Hk as [Hne Hk].
    rewrite IH by assumption. now apply lookup_insert_ne.
Qed.

(** Without the two metrics the accuracy read is [0.0]. *)
Lemma accuracy_of_lacking job :
  lacks_accuracy job ->
  Deployment.accuracy_of (Deployment.final_metrics_of job) = 0%float.
Proof.
  unfold lacks_accuracy, Deployment.accuracy_of, Deployment.final_metrics_of.
  destruct (Services.FinalMetricDataList job) as [metrics|].
  - intros [Ha Hv]. now rewrite !lookup_unlisted_metric by assumption.
  - intros _. reflexivity.
Qed.

(** C10, as the code has it.  When the accuracy threshold is above 0, a
    training job whose metric list names neither [accuracy] nor
    [validation_accuracy] is given the accuracy [0.0]:
    [check_deployment_criteria] returns without raising, its decision is
    [False], and its record is the normal evaluation record (with the
    accuracy [0.0] and the metrics found), not the error record. *)
Theorem missing_accuracy_blocks_deployment
    (svc : Services.aws) (training_job_name : string)
    (job : Services.training_job) (s : Deployment.self) :
  Services.describe_training_job svc training_job_name = Ok job ->
  lacks_accuracy job ->
  PyFloat.lt 0 (Config.ACCURACY_THRESHOLD (Deployment.config s)) = true ->
  fst (Deployment.check_deployment_criteria svc training_job_name s)
  = Ok (false,
        Deployment.Evaluation training_job_name 0%float
          (Deployment.final_metrics_of job)).
Proof.
  intros Hjob Hlacks Hpos.
  pose proof (check_deployment_criteria_described svc training_job_name
                job s Hjob) as Hcheck.
  cbv zeta in Hcheck. rewrite (accuracy_of_lacking job Hlacks) in Hcheck.
  assert (Hge : PyFloat.ge 0 (Config.ACCURACY_THRESHOLD (Deployment.config s))
                = false).
  { destruct (PyFloat.ge 0 _) eqn:E; [|reflexivity].
    apply (le_not_gt _ 0) in E. unfold PyFloat.gt, PyFloat.lt in *.
    congruence. }
  rewrite Hge in Hcheck.
  destruct (PyFloat.ge 0 (Config.MINIMUM_ACCURACY (Deployment.config s)));
    apply Hcheck.
Qed.

(** A witness of the amended C10: the default thresholds and a job that
    reports only its training loss. *)
Lemma missing_accuracy_blocks_deployment_witness :
  fst (Deployment.check_deployment_criteria
         (Samples.healthy [("train_loss", 0.07%float)]) "iris-classifier-1"
         (Deployment.init Config.defaults))
  = Ok (false,
        Deployment.Evaluation "iris-classifier-1" 0%float
          (Deployment.final_metrics_of
             (Samples.job_with [("train_loss", 0.07%float)]))).
Proof.
  apply (missing_accuracy_blocks_deployment
           (Samples.healthy [("train_loss", 0.07%float)]) "iris-classifier-1"
           (Samples.job_with [("train_loss", 0.07%float)])
           (Deployment.init Config.defaults)).
  - reflexivity.
  - cbn. split; intros H; apply list_elem_of_In in H; cbn in H;
      intuition discriminate.
  - reflexivity.
Defined.

(** C10 as stated fails when the target is 0: thresholds that pass
    validation, a job without any metric, and the decision is to deploy. *)
Lemma missing_accuracy_deploys_at_zero_threshold :
  Config.validate Samples.zero_thresholds = Ok true
  /\ lacks_accuracy (Samples.job_with [])
  /\ fst (Deployment.check_deployment_criteria
            (Samples.healthy []) "iris-classifier-1"
            (Deployment.init Samples.zero_thresholds))
     = Ok (true, Deployment.Evaluation "iris-classifier-1" 0%float ∅).
Proof.
  split; [reflexivity|]. split; [|reflexivity].
  cbn. split; apply not_elem_of_nil.
Qed.

(** ** C7: functional accuracy *)

(** One iteration of the loop appends exactly one entry, the record of its
    case, and counts the case when it was answered correctly. *)
Lemma run_case_step svc endpoint_name st ic :
  exists r,
    Testing.prediction_results (Testing.run_case svc endpoint_name st ic)
    = (Testing.prediction_results st ++ [r])%list
    /\ records svc endpoint_name ic r
    /\ Testing.correct (Testing.run_case svc endpoint_name st ic)
       = (Testing.correct st
          + if answered_correctly svc endpoint_name ic then 1 else 0)%nat.
Proof.
  unfold Testing.run_case, records, answered_correctly, transport_error.
  destruct (Services.invoke_endpoint svc (fst ic) endpoint_name
              [Testing.data (snd ic)]) as [[latency [decoded|e]]|e];
    cbn [Testing.record_failure Testing.prediction_results Testing.correct].
  - destruct (Testing.predicted_class_of decoded) as [predicted|e];
      cbn [Testing.record_failure Testing.prediction_results Testing.correct].
    + eexists. split; [reflexivity|]. split; [repeat split|].
      destruct (py_eq_int predicted _); lia.
    + eexists. split; [reflexivity|]. split; [repeat split|]. lia.
  - eexists. split; [reflexivity|]. split; [repeat split|]. lia.
  - eexists. split; [reflexivity|]. split; [repeat split|]. lia.
Qed.

(** The whole loop, from any state and any first index: one entry per
    case, in the order of the cases, and one count per correct answer. *)
Lemma run_cases_invariant svc endpoint_name
    (ics : list (nat * Testing.test_case)) (st : Testing.locals) :
  let st' := fold_left (Testing.run_case svc endpoint_name) ics st in
  exists entries,
    Testing.prediction_results st'
    = (Testing.prediction_results st ++ entries)%list
    /\ Forall2 (records svc endpoint_name) ics entries
    /\ Testing.correct st'
       = (Testing.correct st
          + length (List.filter (answered_correctly svc endpoint_name) ics))%nat.
Proof.
  revert st. induction ics as [|ic ics IH]; intros st; cbn [fold_left].
  - exists []. rewrite app_nil_r. cbn. repeat split; [constructor | lia].
  - destruct (run_case_step svc endpoint_name st ic) as (r & Hr & Hrec & Hc).
    destruct (IH (Testing.run_case svc endpoint_name st ic))
      as (entries & He & Hall & Hcount).
    exists (r :: entries). split; [|split].
    + rewrite He, Hr, <- app_assoc. reflexivity.
    + now constructor.
    + rewrite Hcount, Hc. cbn [List.filter].
      destruct (answered_correctly svc endpoint_name ic); cbn [length]; lia.
Qed.

Lemma length_enumerate {A : Type} (l : list A) :
  length (Testing.enumerate l) = length l.
Proof.
  unfold Testing.enumerate.
  rewrite length_combine, length_seq. apply Nat.min_id.
Qed.

Lemma lookup_combine_seq {A : Type} (l : list A) (k i : nat) (c : A) :
  l !! i = Some c ->
  combine (seq k (length l)) l !! i = Some ((k + i)%nat, c).
Proof.
  revert k i. induction l as [|x l IH]; intros k i Hi; [discriminate|].
  destruct i as [|i]; cbn in *.
  - rewrite Nat.add_0_r. congruence.
  - rewrite IH with (1 := Hi). f_equal. f_equal. lia.
Qed.

Lemma lookup_enumerate {A : Type} (l : list A) (i : nat) (c : A) :
  l !! i = Some c -> Testing.enumerate l !! i = Some (i, c).
Proof. apply (lookup_combine_seq l 0 i c). Qed.

(** C7.  For every batch of labeled cases, every endpoint and every
    behaviour of the service, the functional test reports as its accuracy
    the number of cases answered with the expected class divided by the
    number of cases in the batch.  A case whose request raises is recorded
    as a failed entry, stays in the denominator, and the cases after it
    still run: the entries are the records of all the cases, in order. *)
Theorem functional_accuracy_is_matches_over_total
    (test_cases : list Testing.test_case) (svc : Services.aws)
    (endpoint_name : string) :
  let r := Testing.test_endpoint_predictions_on test_cases svc endpoint_name in
  let matches :=
    length (List.filter (answered_correctly svc endpoint_name)
                        (Testing.enumerate test_cases)) in
  Testing.total_predictions r = length test_cases
  /\ Testing.correct_predictions r = matches
  /\ Testing.accuracy r
     = (if (0 <? length test_cases)%nat
        then PyFloat.truediv matches (length test_cases)
        else 0%float)
  /\ Forall2 (records svc endpoint_name)
             (Testing.enumerate test_cases) (Testing.individual_results r)
  /\ (forall i c,
        test_cases !! i = Some c ->
        transport_error svc endpoint_name (i, c) = true ->
        exists entry,
          Testing.individual_results r !! i = Some entry
          /\ Testing.prediction_status entry = "failed").
Proof.
  intros r matches.
  destruct (run_cases_invariant svc endpoint_name
              (Testing.enumerate test_cases)
              {| Testing.prediction_results := [];
                 Testing.latencies := [];
                 Testing.correct := 0 |})
    as (entries & He & Hall & Hcount).
  cbn [Testing.prediction_results Testing.correct app Nat.add] in He, Hcount.
  assert (Hres : Testing.individual_results r = entries) by exact He.
  assert (Hcor : Testing.correct_predictions r = matches) by exact Hcount.
  split; [reflexivity|]. split; [exact Hcor|]. split; [|split].
  - subst r. unfold Testing.test_endpoint_predictions_on.
    cbn [Testing.accuracy]. fold matches.
    change (Testing.correct _) with
      (Testing.correct_predictions
         (Testing.test_endpoint_predictions_on test_cases svc endpoint_name)).
    now rewrite Hcor.
  - now rewrite Hres.
  - intros i c Hi Herr. rewrite Hres.
    assert (Hic : Testing.enumerate test_cases !! i = Some (i, c))
      by now apply lookup_enumerate.
    destruct (Forall2_lookup_l _ _ _ _ _ Hall Hic) as (entry & Hentry & Hrec).
    exists entry. split; [exact Hentry|].
    destruct entry; [|reflexivity].
    cbn in Hrec. destruct Hrec as (_ & _ & _ & Hno & _). congruence.
Qed.

(** The batch the code ships has eight cases, and every count of eighths
    is a float: multiplied by 8 it gives the count back. *)
Lemma shipped_batch_accuracy_is_exact (svc : Services.aws)
    (endpoint_name : string) :
  let r := Testing.test_endpoint_predictions svc endpoint_name in
  Testing.total_predictions r = 8%nat
  /\ Testing.accuracy r
     = PyFloat.truediv (Testing.correct_predictions r) 8
  /\ forall k, (k <= 8)%nat ->
       PrimFloat.mul (PyFloat.truediv k 8) (PyFloat.of_nat 8)
       = PyFloat.of_nat k.
Proof.
  intros r.
  destruct (functional_accuracy_is_matches_over_total Testing.get_test_data
              svc endpoint_name) as (Ht & Hc & Ha & _).
  unfold Testing.test_endpoint_predictions in r. fold r in Ht, Hc, Ha.
  split; [exact Ht|]. split; [rewrite Ha, Hc; reflexivity|].
  intros k Hk.
  do 9 (destruct k as [|k]; [vm_compute; reflexivity|]). lia.
Qed.

(** An instance of C7: the model answers class 0 to everything and the
    second request raises, so one of the eight cases matches; the second
    entry is a failed one and the six cases after it are still recorded. *)
Lemma functional_accuracy_is_matches_over_total_witness :
  let r := Testing.test_endpoint_predictions Samples.second_request_fails
             "iris-model-1" in
  Testing.accuracy r = 0.125%float
  /\ length (Testing.individual_results r) = 8%nat
  /\ exists entry,
       Testing.individual_results r !! 1%nat = Some entry
       /\ Testing.prediction_status entry = "failed".
Proof.
  pose proof (functional_accuracy_is_matches_over_total Testing.get_test_data
                Samples.second_request_fails "iris-model-1") as H.
  cbv zeta in H. destruct H as (_ & _ & Hacc & Hall & Herr).
  split; [exact Hacc|]. split; [reflexivity|].
  exact (Herr 1%nat _ eq_refl eq_refl).
Defined.

(** ** C9: importing [pipeline/deployment.py] *)

(** C9.  The typing import of [pipeline/deployment.py] binds [Any],
    [Dict] and [Optional] and not [Tuple], which the return annotation of
    [check_deployment_criteria] reads.  With eager annotations, executing
    the module raises [NameError] for [Tuple] while the class body runs,
    whether or not the SageMaker SDK is installed, so nothing that uses
    the class after importing it is ever run; with deferred annotations
    the module loads. *)
Theorem deployment_module_import_raises_name_error :
  (forall sdk,
     ModuleLoad.exec_module true sdk ∅ ModuleLoad.deployment_py
     = Raise (NameError "Tuple"))
  /\ (forall sdk (A : Type) (use : unit -> A),
        ModuleLoad.import_then true sdk use = Raise (NameError "Tuple"))
  /\ (forall sdk,
        exists globals,
          ModuleLoad.exec_module false sdk ∅ ModuleLoad.deployment_py
          = Ok globals
          /\ "DeploymentPipeline" ∈ globals /\ "Tuple" ∉ globals).
Proof.
  assert (H : forall sdk,
             ModuleLoad.exec_module true sdk ∅ ModuleLoad.deployment_py
             = Raise (NameError "Tuple"))
    by (intros []; vm_compute; reflexivity).
  split; [exact H|]. split.
  - intros sdk A use. unfold ModuleLoad.import_then. now rewrite H.
  - intros sdk. eexists. split; [reflexivity|].
    destruct sdk; split; vm_compute; intuition congruence.
Qed.

(** ** C4: the overall verdict of the test suite *)

(** One issue line is accumulated per violated condition. *)
Lemma one_issue_per_violated_condition config health acc rate latency :
  length (snd (Testing.overall_test_status config health acc rate latency))
  = violated_conditions config health acc rate latency.
Proof.
  unfold Testing.overall_test_status, violated_conditions.
  destruct (negb (health =? "healthy")),
           (PyFloat.lt acc (Config.MINIMUM_ACCURACY config)),
           (PyFloat.lt rate 0.95), (PyFloat.gt latency 1000); reflexivity.
Qed.

(** With no condition violated the verdict is [passed], without issues. *)
Lemma verdict_passed config acc rate latency :
  PyFloat.lt acc (Config.MINIMUM_ACCURACY config) = false ->
  PyFloat.lt rate 0.95 = false ->
  PyFloat.gt latency 1000 = false ->
  Testing.overall_test_status config "healthy" acc rate latency
  = ("passed", []).
Proof.
  intros H1 H2 H3. unfold Testing.overall_test_status.
  now rewrite H1, H2, H3.
Qed.

(** With the health check or the accuracy check violated and neither
    performance check violated, the verdict is [failed]. *)
Lemma verdict_failed_without_warning config health acc rate latency :
  negb (health =? "healthy")
  || PyFloat.lt acc (Config.MINIMUM_ACCURACY config) = true ->
  PyFloat.lt rate 0.95 = false ->
  PyFloat.gt latency 1000 = false ->
  fst (Testing.overall_test_status config health acc rate latency)
  = "failed".
Proof.
  intros H1 H2 H3. unfold Testing.overall_test_status.
  rewrite H2, H3.
  destruct (negb (health =? "healthy")),
           (PyFloat.lt acc (Config.MINIMUM_ACCURACY config));
    try reflexivity; discriminate.
Qed.

(** With a performance check violated the verdict is [warning], whatever
    the health and accuracy checks found: the later assignment replaces
    the earlier one. *)
Lemma verdict_warning_whenever_performance_violated
    config health acc rate latency :
  PyFloat.lt rate 0.95 || PyFloat.gt latency 1000 = true ->
  fst (Testing.overall_test_status config health acc rate latency)
  = "warning".
Proof.
  intros H. unfold Testing.overall_test_status.
  destruct (negb (health =? "healthy")),
           (PyFloat.lt acc (Config.MINIMUM_ACCURACY config)),
           (PyFloat.lt rate 0.95), (PyFloat.gt latency 1000);
    try reflexivity; discriminate.
Qed.

(** C4, at an endpoint that is not serving.  The endpoint's status is
    [Failed] and every request to it raises: the health check is
    unhealthy, the functional accuracy is 0 and the load success rate is
    0.  The three issue lines are accumulated, one per violated condition,
    and the overall verdict is [warning], not [failed]. *)
Theorem unhealthy_endpoint_verdict_is_warning :
  let r := Testing.run_comprehensive_tests Config.defaults
             (Samples.not_serving [] "Failed") "iris-model-1" in
  Testing.health_status (Testing.health r) = "unhealthy"
  /\ Testing.accuracy (Testing.predictions r) = 0%float
  /\ Testing.success_rate (Testing.performance r) = 0%float
  /\ Testing.issues r
     = [Testing.issue_health; Testing.issue_accuracy 0;
        Testing.issue_success_rate 0]
  /\ Testing.overall_status r = "warning".
Proof. vm_compute. repeat split; reflexivity. Qed.

(** ** C5: the rollback routine *)

(** C5, as the code has it.  [_rollback_deployment] returns without
    raising and assigns neither [current_endpoint] nor
    [previous_endpoint].  Without a previous endpoint its status is
    [no_previous_endpoint].  With one, the endpoint is described again: if
    it is [InService] the status is [success] and [rolled_back_to] names
    it; if it has another status the outcome is [failed] with the status
    quoted in [reason], and an error is logged; if describing it raises
    the outcome is [failed] too, with the exception text in [error], and
    an error is logged. *)
Theorem rollback_outcomes (svc : Services.aws) (s : Deployment.self) :
  let out := Deployment._rollback_deployment svc s in
  let previous := Deployment.previous_endpoint s in
  (Deployment.current_endpoint (snd out) = Deployment.current_endpoint s
   /\ Deployment.previous_endpoint (snd out) = previous)
  /\ (truthy_str previous = false ->
      fst out = Ok Deployment.NoPreviousEndpoint)
  /\ (forall name,
        previous = Some name -> truthy_str previous = true ->
        match Services.describe_endpoint svc name with
        | Ok status =>
            if status =? "InService"
            then fst out = Ok (Deployment.RolledBack name)
            else
              fst out
              = Ok (Deployment.RollbackUnavailable
                      ("Previous endpoint not available: " ++ status))
              /\ returned_status out = Some "failed"
              /\ exists msg,
                   last (Deployment.events (snd out)) = Some (Log ERROR msg)
        | Raise e =>
            fst out = Ok (Deployment.RollbackError (str_of_exn e))
            /\ returned_status out = Some "failed"
            /\ exists msg,
                 last (Deployment.events (snd out)) = Some (Log ERROR msg)
        end).
Proof.
  intros out previous. subst out.
  unfold Deployment._rollback_deployment, returned_status. run_method.
  fold previous.
  destruct previous as [name|] eqn:Hprev; cbn [truthy_str negb].
  - destruct (name =? "") eqn:Hname; cbn [negb]; run_method.
    + split; [split; reflexivity|]. split; [reflexivity|].
      intros ? _ ?. discriminate.
    + destruct (Services.describe_endpoint svc name) as [status|e] eqn:Hd;
        run_method.
      * destruct (status =? "InService") eqn:Hs; run_method.
        -- split; [split; reflexivity|]. split; [discriminate|].
           intros name' [= <-] _. rewrite Hd, Hs. reflexivity.
        -- split; [split; reflexivity|]. split; [discriminate|].
           intros name' [= <-] _. rewrite Hd, Hs.
           split; [reflexivity|]. split; [reflexivity|].
           rewrite last_snoc. eauto.
      * split; [split; reflexivity|]. split; [discriminate|].
        intros name' [= <-] _. rewrite Hd.
        split; [reflexivity|]. split; [reflexivity|].
        rewrite last_snoc. eauto.
  - run_method. split; [split; reflexivity|]. split; [reflexivity|].
    intros ? [=].
Qed.

(** A witness of C5: the previous endpoint has status [Failed]. *)
Lemma rollback_outcomes_witness :
  fst (Deployment._rollback_deployment (Samples.not_serving [] "Failed")
         (pipeline_with_previous Config.defaults (Some "iris-model-old")))
  = Ok (Deployment.RollbackUnavailable
          "Previous endpoint not available: Failed").
Proof.
  exact (proj1 (proj2 (proj2 (rollback_outcomes
           (Samples.not_serving [] "Failed")
           (pipeline_with_previous Config.defaults (Some "iris-model-old"))))
           "iris-model-old" eq_refl eq_refl)).
Defined.

(** ** C2 and C3: [deploy_model] *)

Ltac method_step :=
  cbn -[contains String.append String.eqb PyFloat.ge find truthy_str
        Deployment.get_current_production_endpoint Deployment._test_endpoint
        Deployment._rollback_deployment Deployment.deploy_model_try
        Deployment.deploy_model_except Deployment.rollback_invoked].

Ltac solve_invoked :=
  unfold Deployment.rollback_invoked, Deployment.entered;
  cbn [Deployment.events];
  rewrite ?existsb_app; cbn [existsb];
  repeat match goal with
  | |- context [String.eqb ?a ?b] =>
      let v := eval vm_compute in (String.eqb a b) in
      change (String.eqb a b) with v
  end;
  cbn [orb andb]; rewrite ?orb_false_r, ?orb_true_r; try reflexivity.

(** Looking up the production endpoint returns, and only logs. *)
Lemma get_current_production_endpoint_preserves svc s :
  exists p s',
    Deployment.get_current_production_endpoint svc s = (Ok p, s')
    /\ preserves s s'.
Proof.
  unfold Deployment.get_current_production_endpoint. cbn -[find contains String.eqb String.append].
  destruct (Services.list_endpoints svc) as [endpoints|e]; cbn -[find contains String.eqb String.append].
  - destruct (find _ endpoints) as [endpoint|]; cbn -[find contains String.eqb String.append].
    + eexists _, _. split; [reflexivity|]. repeat split. solve_invoked.
    + eexists _, _. split; [reflexivity|]. repeat split.
  - eexists _, _. split; [reflexivity|]. repeat split. solve_invoked.
Qed.

(** The smoke test returns what the request gave, and only logs. *)
Lemma test_endpoint_preserves svc endpoint s :
  exists s',
    Deployment._test_endpoint svc endpoint s = (Ok (smoke_test svc endpoint), s')
    /\ preserves s s'.
Proof.
  unfold Deployment._test_endpoint, smoke_test. cbn -[String.append].
  destruct (Services.invoke_endpoint svc 0 endpoint _) as [[ms [body|e]]|e]; cbn -[String.append].
  all: eexists; (split; [reflexivity|]); repeat split; solve_invoked.
Qed.

(** The rollback routine returns, records its entry, and assigns nothing. *)
Lemma rollback_deployment_effect svc s :
  exists r s',
    Deployment._rollback_deployment svc s = (Ok r, s')
    /\ Deployment.config s' = Deployment.config s
    /\ Deployment.current_endpoint s' = Deployment.current_endpoint s
    /\ Deployment.previous_endpoint s' = Deployment.previous_endpoint s
    /\ Deployment.rollback_invoked s' = true.
Proof.
  unfold Deployment._rollback_deployment. cbn -[String.append String.eqb truthy_str].
  destruct (truthy_str (Deployment.previous_endpoint s)); cbn -[String.append String.eqb truthy_str].
  - destruct (Services.describe_endpoint svc _) as [status|e]; cbn -[String.append String.eqb truthy_str].
    + destruct (status =? "InService"); cbn -[String.append String.eqb truthy_str].
      all: eexists _, _; (split; [reflexivity|]); repeat split; solve_invoked.
    + eexists _, _; (split; [reflexivity|]); repeat split; solve_invoked.
  - eexists _, _; (split; [reflexivity|]); repeat split; solve_invoked.
Qed.

(** The [except] clause returns the failed dictionary; it enters the
    rollback routine exactly when rollback is enabled and a previous
    endpoint is recorded. *)
Lemma deploy_model_except_effect svc endpoint e s :
  exists rb s',
    Deployment.deploy_model_except svc endpoint e s
    = (Ok (Deployment.DeployFailed (str_of_exn e) rb endpoint), s')
    /\ Deployment.current_endpoint s' = Deployment.current_endpoint s
    /\ Deployment.previous_endpoint s' = Deployment.previous_endpoint s
    /\ Deployment.rollback_invoked s'
       = Deployment.rollback_invoked s
         || (Config.ROLLBACK_ON_FAILURE (Deployment.config s)
             && truthy_str (Deployment.previous_endpoint s))
    /\ (rb = None <->
        Config.ROLLBACK_ON_FAILURE (Deployment.config s)
        && truthy_str (Deployment.previous_endpoint s) = false).
Proof.
  unfold Deployment.deploy_model_except. method_step.
  destruct (Config.ROLLBACK_ON_FAILURE (Deployment.config s)
            && truthy_str (Deployment.previous_endpoint s)) eqn:Hflag;
    method_step.
  - match goal with
    | |- context [Deployment._rollback_deployment svc ?s0] =>
        destruct (rollback_deployment_effect svc s0)
          as (r & s1 & Hrun & Hcfg & Hcur & Hprev & Hinv);
        rewrite Hrun
    end.
    method_step. eexists _, _. split; [reflexivity|].
    cbn [Deployment.current_endpoint Deployment.previous_endpoint] in *.
    repeat split; try assumption.
    + solve_invoked. fold (Deployment.entered "_rollback_deployment" s1).
      fold (Deployment.rollback_invoked s1). rewrite Hinv. reflexivity.
    + discriminate.
    + discriminate.
  - eexists _, _. split; [reflexivity|]. repeat split; try reflexivity.
    solve_invoked.
Qed.

(** The [try] block raises exactly when the deployment attempt does, and
    then has not touched [current_endpoint]; otherwise it assigns the new
    endpoint after the smoke test, whatever the test found. *)
Lemma deploy_model_try_effect svc name instance_type endpoint s :
  if provisioning_raises svc name endpoint then
    exists e s',
      Deployment.deploy_model_try svc name instance_type endpoint s
      = (Raise e, s')
      /\ Deployment.config s' = Deployment.config s
      /\ Deployment.current_endpoint s' = Deployment.current_endpoint s
      /\ Deployment.rollback_invoked s' = Deployment.rollback_invoked s
  else
    exists meta s',
      Deployment.deploy_model_try svc name instance_type endpoint s
      = (Ok (Deployment.DeploySuccess endpoint (smoke_test svc endpoint) meta),
         s')
      /\ Deployment.config s' = Deployment.config s
      /\ Deployment.current_endpoint s' = Some endpoint
      /\ Deployment.rollback_invoked s' = Deployment.rollback_invoked s.
Proof.
  unfold provisioning_raises, Deployment.deploy_model_try. method_step.
  destruct (Services.describe_training_job svc name) as [job|e]; method_step;
    [|eexists _, _; split; [reflexivity|]; repeat split].
  destruct (Services.S3ModelArtifacts job) as [model_data|]; method_step;
    [|eexists _, _; split; [reflexivity|]; repeat split].
  destruct (Services.RoleArn job) as [role_arn|]; method_step;
    [|eexists _, _; split; [reflexivity|]; repeat split].
  destruct (Services.sagemaker_session svc) as [[]|e]; method_step;
    [|eexists _, _; split; [reflexivity|]; repeat split].
  destruct (Services.sklearn_model svc) as [[]|e]; method_step;
    [|eexists _, _; split; [reflexivity|]; repeat split].
  destruct (get_current_production_endpoint_preserves svc s)
    as (p & s1 & Hrun & Hc1 & Hcur1 & Hprev1 & Hinv1).
  rewrite Hrun. method_step.
  destruct (Services.model_deploy svc endpoint) as [[]|e]; method_step.
  - match goal with
    | |- context [Deployment._test_endpoint svc endpoint ?s0] =>
        destruct (test_endpoint_preserves svc endpoint s0)
          as (s2 & Htest & Hc2 & Hcur2 & Hprev2 & Hinv2);
        rewrite Htest
    end.
    method_step. eexists _, _. split; [reflexivity|].
    cbn [Deployment.config Deployment.current_endpoint] in *.
    repeat split; [congruence|].
    solve_invoked. fold (Deployment.entered "_rollback_deployment" s2).
    fold (Deployment.rollback_invoked s2). rewrite Hinv2.
    solve_invoked. exact Hinv1.
  - eexists _, _. split; [reflexivity|].
    cbn [Deployment.config Deployment.current_endpoint].
    repeat split; try assumption.
    solve_invoked. exact Hinv1.
Qed.

(** Every run of [deploy_model] returns one of its two dictionaries.  When
    the deployment attempt raises, the result is the failed one, the
    pointer [current_endpoint] is left as it was, and the rollback routine
    is entered exactly when rollback is enabled and [previous_endpoint]
    holds a name.  Otherwise the result is the success one, it records
    what the smoke test found, [current_endpoint] names the new endpoint,
    and the rollback routine is not entered. *)
Lemma deploy_model_cases svc timestamp name instance_type s :
  let out := Deployment.deploy_model svc timestamp name instance_type s in
  let endpoint := candidate s timestamp in
  if provisioning_raises svc name endpoint then
    (exists e rb, fst out = Ok (Deployment.DeployFailed e rb endpoint))
    /\ Deployment.current_endpoint (snd out) = Deployment.current_endpoint s
    /\ Deployment.rollback_invoked (snd out)
       = Deployment.rollback_invoked s
         || (Config.ROLLBACK_ON_FAILURE (Deployment.config s)
             && truthy_str (Deployment.previous_endpoint (snd out)))
  else
    (exists meta,
       fst out
       = Ok (Deployment.DeploySuccess endpoint (smoke_test svc endpoint) meta))
    /\ Deployment.current_endpoint (snd out) = Some endpoint
    /\ Deployment.rollback_invoked (snd out) = Deployment.rollback_invoked s.
Proof.
  intros out endpoint. subst out.
  unfold Deployment.deploy_model. fold (candidate s timestamp). method_step.
  fold (candidate s timestamp). fold endpoint.
  match goal with
  | |- context [Deployment.deploy_model_try svc name ?it endpoint ?s0] =>
      pose proof (deploy_model_try_effect svc name it endpoint s0) as Htry;
      set (s_0 := s0) in *
  end.
  destruct (provisioning_raises svc name endpoint).
  - destruct Htry as (e & s1 & Hrun & Hc1 & Hcur1 & Hinv1). rewrite Hrun.
    destruct (deploy_model_except_effect svc endpoint e s1)
      as (rb & s2 & Hex & Hcur2 & Hprev2 & Hinv2 & _).
    rewrite Hex. cbn [fst snd]. split; [eauto|]. split.
    + rewrite Hcur2, Hcur1. reflexivity.
    + rewrite Hinv2, Hinv1, Hc1, Hprev2. f_equal.
      subst s_0. solve_invoked.
  - destruct Htry as (meta & s1 & Hrun & Hc1 & Hcur1 & Hinv1). rewrite Hrun.
    cbn [fst snd]. split; [eauto|]. split; [exact Hcur1|].
    rewrite Hinv1. subst s_0. solve_invoked.
Qed.

(** C2, as the code has it.  On an object that has not rolled back
    before, [deploy_model] invokes the rollback routine if and only if
    [ROLLBACK_ON_FAILURE] is set, [previous_endpoint] holds a name, and
    the deployment attempt raised (describing the training job, creating
    the session or the model, or creating the endpoint).  What the smoke
    test of the new endpoint finds has no part in it. *)
Theorem rollback_invoked_iff_deployment_raises
    (svc : Services.aws) (timestamp training_job_name : string)
    (instance_type : option string) (s : Deployment.self) :
  let out :=
    Deployment.deploy_model svc timestamp training_job_name instance_type s in
  Deployment.rollback_invoked s = false ->
  Deployment.rollback_invoked (snd out)
  = Config.ROLLBACK_ON_FAILURE (Deployment.config s)
    && truthy_str (Deployment.previous_endpoint (snd out))
    && provisioning_raises svc training_job_name (candidate s timestamp).
Proof.
  intros out Hfresh.
  pose proof (deploy_model_cases svc timestamp training_job_name
                instance_type s) as H.
  cbv zeta in H. fold out in H.
  destruct (provisioning_raises svc training_job_name (candidate s timestamp)).
  - destruct H as (_ & _ & Hinv). rewrite Hinv, Hfresh.
    now rewrite orb_false_l, andb_true_r.
  - destruct H as (_ & _ & Hinv). rewrite Hinv, Hfresh.
    now rewrite andb_false_r.
Qed.

(** A witness of C2: creating the endpoint raises while an endpoint is in
    production, and the rollback routine is invoked. *)
Lemma rollback_invoked_iff_deployment_raises_witness :
  Deployment.rollback_invoked
    (snd (Deployment.deploy_model
            (Samples.provisioning_fails [("accuracy", 0.97%float)])
            "20240101-000000" "iris-classifier-1" None
            (Deployment.init Config.defaults)))
  = true.
Proof.
  rewrite (rollback_invoked_iff_deployment_raises
             (Samples.provisioning_fails [("accuracy", 0.97%float)])
             "20240101-000000" "iris-classifier-1" None
             (Deployment.init Config.defaults) eq_refl).
  reflexivity.
Defined.

(** C2 as stated fails in both directions.  With rollback enabled and an
    endpoint in production, a new endpoint whose smoke test fails is
    reported as a successful deployment and the rollback routine is not
    invoked; and when creating the endpoint raises, the rollback routine
    is invoked although no test of the new endpoint was run. *)
Lemma failed_smoke_test_invokes_no_rollback :
  (let out :=
     Deployment.deploy_model (Samples.not_serving [("accuracy", 0.97%float)]
                                                  "Failed")
       "20240101-000000" "iris-classifier-1" None
       (Deployment.init Config.defaults) in
   Config.ROLLBACK_ON_FAILURE Config.defaults = true
   /\ Deployment.previous_endpoint (snd out) = Some "iris-model-old"
   /\ (exists meta,
         fst out
         = Ok (Deployment.DeploySuccess "iris-model-20240101-000000"
                 (Deployment.TestFailed "ModelError") meta))
   /\ Deployment.rollback_invoked (snd out) = false)
  /\ (let out :=
        Deployment.deploy_model
          (Samples.provisioning_fails [("accuracy", 0.97%float)])
          "20240101-000000" "iris-classifier-1" None
          (Deployment.init Config.defaults) in
      Deployment.entered "_test_endpoint" (snd out) = false
      /\ Deployment.rollback_invoked (snd out) = true).
Proof.
  split.
  - vm_compute. split; [reflexivity|]. split; [reflexivity|].
    split; [eexists; reflexivity|]. reflexivity.
  - vm_compute. split; reflexivity.
Qed.




(** C5 as stated fails twice.  A previous endpoint that is no longer in
    service and a fault while describing it give the same status,
    [failed]; and after a rollback that succeeds, [current_endpoint] is
    what it was before (here unset), not the endpoint rolled back to. *)
Lemma unhealthy_previous_endpoint_has_the_status_of_a_fault :
  returned_status
    (Deployment._rollback_deployment (Samples.not_serving [] "Failed")
       (pipeline_with_previous Config.defaults (Some "iris-model-old")))
  = Some "failed"
  /\ returned_status
       (Deployment._rollback_deployment Samples.empty_account
          (pipeline_with_previous Config.defaults (Some "iris-model-old")))
     = Some "failed"
  /\ (let out :=
        Deployment.deploy_model (Samples.provisioning_fails [])
          "20240101-000000" "iris-classifier-1" None
          (Deployment.init Config.defaults) in
      fst out
      = Ok (Deployment.DeployFailed "ResourceLimitExceeded"
              (Some (Deployment.RolledBack "iris-model-old"))
              "iris-model-20240101-000000")
      /\ Deployment.current_endpoint (snd out) = None).
Proof. vm_compute. repeat split; reflexivity. Qed.

(** ** C6: the exit code of [run_pipeline.py] *)

(** C6, as the code has it.  With a valid configuration the exit code is
    1 exactly when an exception reaches the handler of [main].  So it is 1
    when the training stage ends in an error: its pipeline object cannot
    be constructed, or the exception of the training run reaches [main].
    It is 1 when the deployment stage returns deployment results whose
    deploy step failed (the summary reads their endpoint name, which they
    lack).  A decision not to deploy is no exception: in training mode a
    run whose pipeline object is constructed and whose training stage
    returns exits with 0, whether the model was promoted, held or
    rejected, exactly when the results file, if one is asked for, can be
    written; the file is written inside the [try], so a file that cannot
    be written gives 1. *)
Theorem exit_code_follows_exceptions_not_decisions
    (cls : Config.PipelineConfig) (args : RunPipeline.arguments)
    (w : RunPipeline.world) :
  let config := RunPipeline.override cls args in
  Config.validate cls = Ok true ->
  (forall e,
     RunPipeline.mode_of args = RunPipeline.complete
     \/ RunPipeline.mode_of args = RunPipeline.training ->
     RunPipeline.new_training_pipeline w = Raise e
     \/ fst (Training.run_training_pipeline config (RunPipeline.sklearn w))
        = Raise e ->
     RunPipeline.main cls args w = 1%Z)
  /\ (forall train p d,
        RunPipeline.mode_of args = RunPipeline.complete
        \/ RunPipeline.mode_of args = RunPipeline.deployment ->
        RunPipeline.training_phase config args w = Ok train ->
        RunPipeline.produce_deploy_results config args w train = Ok p ->
        Deployment.get_deployment_results p = Some d ->
        Deployment.deployment_status d = "failed" ->
        RunPipeline.main cls args w = 1%Z)
  /\ (forall r,
        RunPipeline.mode_of args = RunPipeline.training ->
        RunPipeline.new_training_pipeline w = Ok tt ->
        fst (Training.run_training_pipeline config (RunPipeline.sklearn w))
        = Ok r ->
        (RunPipeline.main cls args w = 0%Z <->
         (truthy_str (RunPipeline.output_file args) = true ->
          RunPipeline.write_output w = Ok tt))).
Proof.
  intros config Hvalid. unfold RunPipeline.main. rewrite Hvalid.
  fold config. unfold RunPipeline.run_stages.
  split; [|split].
  - intros e Hmode Hraise. unfold RunPipeline.training_phase.
    destruct Hmode as [-> | ->]; cbn [RunPipeline.mode_eqb orb];
      (destruct Hraise as [-> | Hraise]; [reflexivity|]);
      (destruct (RunPipeline.new_training_pipeline w); [|reflexivity]);
      now rewrite Hraise.
  - intros train p d Hmode Htrain Hp Hd Hfailed. rewrite Htrain.
    unfold RunPipeline.deployment_phase.
    destruct Hmode as [Hm | Hm]; rewrite Hm in *;
      cbn [RunPipeline.mode_eqb orb];
      (destruct (RunPipeline.new_deployment_pipeline w); [|reflexivity]);
      rewrite Hp, Hd; destruct d; try discriminate; reflexivity.
  - intros r Hmode Hnew Hret.
    unfold RunPipeline.training_phase, RunPipeline.deployment_phase,
      RunPipeline.testing_phase.
    rewrite Hmode. cbn [RunPipeline.mode_eqb orb]. rewrite Hnew, Hret.
    destruct (truthy_str (RunPipeline.output_file args)).
    + destruct (RunPipeline.write_output w) as [[]|e]; split;
        try reflexivity; try discriminate.
      intros H. specialize (H eq_refl). discriminate.
    + split; [discriminate | reflexivity].
Qed.

(** A witness of C6: a model that is promoted in training mode, and a
    deployment of the training job named on the command line whose
    endpoint cannot be created. *)
Lemma exit_code_follows_exceptions_not_decisions_witness :
  RunPipeline.main Config.defaults
    (Samples.arguments_for RunPipeline.training)
    (Samples.world_with 0.97%float (Samples.healthy [])) = 0%Z
  /\ RunPipeline.main Config.defaults
       {| RunPipeline.mode_of := RunPipeline.deployment;
          RunPipeline.training_job_arg := Some "iris-classifier-1";
          RunPipeline.endpoint_name_arg := None;
          RunPipeline.output_file := None;
          RunPipeline.accuracy_threshold := None;
          RunPipeline.minimum_accuracy := None;
          RunPipeline.instance_type := None |}
       (Samples.world_with 0.97%float
          (Samples.provisioning_fails [("accuracy", 0.97%float)])) = 1%Z.
Proof.
  split.
  - pose proof (exit_code_follows_exceptions_not_decisions
                  Config.defaults (Samples.arguments_for RunPipeline.training)
                  (Samples.world_with 0.97%float (Samples.healthy []))
                  ltac:(vm_compute; reflexivity)) as (_ & _ & H).
    apply (proj2 (H _ eq_refl eq_refl ltac:(vm_compute; reflexivity))).
    vm_compute. discriminate.
  - pose proof (exit_code_follows_exceptions_not_decisions
                  Config.defaults
                  {| RunPipeline.mode_of := RunPipeline.deployment;
                     RunPipeline.training_job_arg := Some "iris-classifier-1";
                     RunPipeline.endpoint_name_arg := None;
                     RunPipeline.output_file := None;
                     RunPipeline.accuracy_threshold := None;
                     RunPipeline.minimum_accuracy := None;
                     RunPipeline.instance_type := None |}
                  (Samples.world_with 0.97%float
                     (Samples.provisioning_fails [("accuracy", 0.97%float)]))
                  ltac:(vm_compute; reflexivity)) as (_ & H & _).
    eapply (H None);
      [right; reflexivity | vm_compute; reflexivity | vm_compute; reflexivity
      | vm_compute; reflexivity | reflexivity].
Defined.

(** C6 as stated fails: in training mode a model below the minimum is
    rejected, nothing is promoted, and the exit code is 0. *)
Lemma rejected_training_run_exits_zero :
  let w := Samples.world_with 0.5%float (Samples.healthy []) in
  let args := Samples.arguments_for RunPipeline.training in
  fst (Training.should_deploy Config.defaults
         {| Training.accuracy := 0.5%float;
            Training.cv_mean_accuracy := 0.5%float |})
  = (false, Training.reason_below_minimum 0.5%float 0.90%float)
  /\ (exists r,
        RunPipeline.run_stages Config.defaults args w = Ok r
        /\ RunPipeline.deployment_entry r = None)
  /\ RunPipeline.main Config.defaults args w = 0%Z.
Proof.
  vm_compute. split; [reflexivity|]. split; [|reflexivity].
  eexists. split; reflexivity.
Qed.

(** The deployment stage can also end in its error outcome without the
    exit code showing it: in deployment mode, with no completed training
    job in the account, [run_deployment_pipeline] returns the [failed]
    dictionary and [main] returns 0. *)
Example failed_deployment_pipeline_exits_zero :
  let w := Samples.world_with 0.97%float Samples.empty_account in
  let args := Samples.arguments_for RunPipeline.deployment in
  RunPipeline.deployer_run Config.defaults w None
  = Ok (Deployment.PipelineFailed "No suitable training job found")
  /\ RunPipeline.main Config.defaults args w = 0%Z.
Proof. vm_compute. split; reflexivity. Qed.

(** The thresholds given on the command line are set on the instance and
    are not what [validate] reads: a target of 5 passes the check of the
    default class attributes and is the threshold the stages use. *)
Example command_line_thresholds_are_not_validated :
  let args :=
    {| RunPipeline.mode_of := RunPipeline.training;
       RunPipeline.training_job_arg := None;
       RunPipeline.endpoint_name_arg := None;
       RunPipeline.output_file := None;
       RunPipeline.accuracy_threshold := Some 5%float;
       RunPipeline.minimum_accuracy := None;
       RunPipeline.instance_type := None |} in
  Config.validate Config.defaults = Ok true
  /\ Config.ACCURACY_THRESHOLD (RunPipeline.override Config.defaults args)
     = 5%float
  /\ RunPipeline.main Config.defaults args
       (Samples.world_with 0.97%float (Samples.healthy [])) = 0%Z.
Proof. vm_compute. repeat split; reflexivity. Qed.

(** * Further properties of the pipelines *)

(** ** Listings: the latest training job and the production endpoint *)

(** [find] returns the first element that satisfies the test. *)
Lemma find_first_where {A : Type} (f : A -> bool) (l : list A) :
  match find f l with
  | Some x => first_where f l x
  | None => Forall (fun y => f y = false) l
  end.
Proof.
  induction l as [|y l IH]; cbn [find].
  - constructor.
  - destruct (f y) eqn:Hy.
    + exists [], l. repeat split; [exact Hy | constructor].
    + destruct (find f l) as [x|].
      * destruct IH as (before & after & -> & Hx & Hbefore).
        exists (y :: before), after. repeat split; [exact Hx|].
        now constructor.
      * now constructor.
Qed.

(** Steps that only append to the events compose. *)
Lemma appends_trans s1 s2 s3 (a b : list event) :
  appends s1 s2 a -> appends s2 s3 b -> appends s1 s3 (a ++ b)%list.
Proof.
  intros (A1 & A2 & A3 & A4 & r1 & E1 & F1) (B1 & B2 & B3 & B4 & r2 & E2 & F2).
  repeat split; try congruence.
  exists (r1 ++ r2)%list. split.
  - rewrite E2, E1. symmetry. apply app_assoc.
  - unfold beyond_the_log in *. rewrite List.filter_app. congruence.
Qed.

Ltac solve_appends :=
  unfold appends;
  cbn [Deployment.config Deployment.current_endpoint
       Deployment.previous_endpoint Deployment.deployment_metadata
       Deployment.events];
  repeat (split; [reflexivity|]);
  first
    [ exists []; split; [symmetry; apply app_nil_r | reflexivity]
    | eexists; split; [rewrite <- ?app_assoc; reflexivity | reflexivity] ].

Lemma get_latest_training_job_effect svc s :
  exists s',
    Deployment.get_latest_training_job svc s
    = (Ok (latest_training_job (Deployment.config s) svc), s')
    /\ appends s s' [].
Proof.
  unfold Deployment.get_latest_training_job, latest_training_job.
  method_step.
  destruct (Services.list_training_jobs svc) as [response|e]; method_step.
  2: { eexists. split; [reflexivity|]. solve_appends. }
  destruct (Services.TrainingJobs response) as [jobs|]; method_step.
  2: { eexists. split; [reflexivity|]. solve_appends. }
  change (fun job : string * string =>
            (snd job =? "Completed")
            && contains (Config.MODEL_NAME_PREFIX (Deployment.config s))
                        (fst job))
    with (completed_model (Config.MODEL_NAME_PREFIX (Deployment.config s))).
  change (fun job : string * string => snd job =? "Completed")
    with completed.
  destruct (find (completed_model _) jobs) as [job|]; method_step.
  - eexists. split; [reflexivity|]. solve_appends.
  - destruct (find completed jobs) as [job|]; method_step;
      eexists; (split; [reflexivity|]); solve_appends.
Qed.




(** [needle in haystack] holds exactly when the haystack splits around
    the needle. *)
Lemma prefix_split (p s : string) :
  String.prefix p s = true <-> exists post, s = p ++ post.
Proof.
  revert p. induction s as [|b s IH]; intros [|a p]; cbn [String.prefix].
  - split; [intros _; now exists "" | reflexivity].
  - split; [discriminate | intros (post & H); discriminate].
  - split; [intros _; now exists (String b s) | reflexivity].
  - destruct (Ascii.ascii_dec a b) as [->|Hne].
    + rewrite IH. split; intros (post & H); exists post.
      * cbn. now rewrite H.
      * cbn in H. now injection H.
    + split; [discriminate|]. intros (post & H). cbn in H.
      injection H as -> _. contradiction.
Qed.

(** The test [prefix in name] that selects training jobs and endpoints is
    substring containment; so an empty prefix is contained in every
    name. *)
Theorem contains_is_substring (needle haystack : string) :
  (contains needle haystack = true
   <-> exists pre post, haystack = pre ++ needle ++ post)
  /\ contains "" haystack = true.
Proof.
  split.
  - induction haystack as [|c rest IH]; cbn [contains].
    + rewrite orb_false_r, prefix_split. split.
      * intros (post & H). now exists "", post.
      * intros (pre & post & H). destruct pre; cbn in H; [|discriminate].
        now exists post.
    + rewrite orb_true_iff, prefix_split, IH. split.
      * intros [(post & H) | (pre & post & H)].
        -- now exists "", post.
        -- exists (String c pre), post. cbn. now rewrite H.
      * intros (pre & post & H). destruct pre as [|c' pre]; cbn in H.
        -- left. now exists post.
        -- right. injection H as -> H. now exists pre, post.
  - destruct haystack; reflexivity.
Qed.

(** ** The accuracy read from a training job *)

Lemma lookup_assigned_metrics (metrics : list (string * float))
    (m : gmap string float) (k : string) :
  fold_left (fun (m : gmap string float) (metric : string * float) =>
               <[fst metric := snd metric]> m) metrics m !! k
  = match last_reported k metrics with
    | Some v => Some v
    | None => m !! k
    end.
Proof.
  unfold last_reported. revert m.
  induction metrics as [|[k' v] metrics IH]; intros m; [reflexivity|].
  cbn [fold_left fst snd]. rewrite IH, filter_cons. cbn [fst].
  destruct (decide (k' = k)) as [->|Hne].
  - rewrite last_cons.
    destruct (last (filter _ metrics)) as [[k2 v2]|]; cbn; [reflexivity|].
    now rewrite lookup_insert_eq.
  - destruct (last (filter _ metrics)) as [[k2 v2]|]; cbn; [reflexivity|].
    now rewrite lookup_insert_ne.
Qed.

(** The dictionary [final_metrics] holds, for each name, the value of the
    last listed metric of that name.  The accuracy that
    [check_deployment_criteria] compares is the last listed [accuracy];
    without one, the last listed [validation_accuracy]; without either,
    [0.0].  A listed [accuracy] wins over [validation_accuracy] whatever
    their values. *)
Theorem accuracy_is_last_listed_metric (job : Services.training_job) :
  let metrics := listed_metrics job in
  (forall name,
     Deployment.final_metrics_of job !! name = last_reported name metrics)
  /\ Deployment.accuracy_of (Deployment.final_metrics_of job)
     = match last_reported "accuracy" metrics with
       | Some accuracy => accuracy
       | None =>
           match last_reported "validation_accuracy" metrics with
           | Some accuracy => accuracy
           | None => 0%float
           end
       end.
Proof.
  intros metrics.
  assert (H : forall name,
             Deployment.final_metrics_of job !! name
             = last_reported name metrics).
  { intros name. subst metrics.
    unfold Deployment.final_metrics_of, listed_metrics.
    destruct (Services.FinalMetricDataList job) as [l|];
      cbn [default from_option id].
    - rewrite lookup_assigned_metrics.
      destruct (last_reported name l); [reflexivity | apply lookup_empty].
    - reflexivity. }
  split; [exact H|].
  unfold Deployment.accuracy_of. rewrite !H.
  destruct (last_reported "accuracy" metrics),
           (last_reported "validation_accuracy" metrics); reflexivity.
Qed.

(** ** The deployment methods as functions of the service's answers *)

Ltac pipeline_step :=
  cbn -[contains String.append String.eqb PyFloat.ge find truthy_str
        Deployment.get_current_production_endpoint Deployment._test_endpoint
        Deployment._rollback_deployment Deployment.deploy_model_try
        Deployment.deploy_model_except Deployment.rollback_invoked
        Deployment.get_latest_training_job
        Deployment.check_deployment_criteria Deployment.deploy_model].

Lemma check_deployment_criteria_effect svc name s :
  exists s',
    Deployment.check_deployment_criteria svc name s
    = (Ok (criteria (Deployment.config s) svc name), s')
    /\ appends s s' [].
Proof.
  unfold Deployment.check_deployment_criteria, criteria. method_step.
  destruct (Services.describe_training_job svc name) as [job|e]; method_step.
  - destruct (PyFloat.ge _ (Config.ACCURACY_THRESHOLD _)) eqn:H1; method_step.
    + eexists. split; [reflexivity|]. solve_appends.
    + destruct (PyFloat.ge _ (Config.MINIMUM_ACCURACY _)); method_step;
        eexists; (split; [reflexivity|]); solve_appends.
  - eexists. split; [reflexivity|]. solve_appends.
Qed.



Lemma deploy_model_returns svc timestamp name instance_type s :
  exists d s',
    Deployment.deploy_model svc timestamp name instance_type s = (Ok d, s').
Proof.
  pose proof (deploy_model_cases svc timestamp name instance_type s) as H.
  cbv zeta in H.
  destruct (Deployment.deploy_model svc timestamp name instance_type s)
    as [r s'].
  cbn [fst snd] in H.
  destruct (provisioning_raises _ _ _).
  - destruct H as ((e & rb & ->) & _). eauto.
  - destruct H as ((meta & ->) & _). eauto.
Qed.

Ltac after_check svc name :=
  match goal with
  | |- context [Deployment.check_deployment_criteria svc name ?s0] =>
      let s1 := fresh "s1" in
      let Hrun := fresh "Hrun" in
      let Hs1 := fresh "Hs1" in
      destruct (check_deployment_criteria_effect svc name s0)
        as (s1 & Hrun & Hs1);
      rewrite Hrun; pipeline_step
  end.

(** What [run_deployment_pipeline] returns and leaves behind, case by
    case. *)
Lemma run_deployment_pipeline_exact
    (svc : Services.aws) (timestamp : string)
    (training_job_name : option string) (s : Deployment.self) :
  let out :=
    Deployment.run_deployment_pipeline svc timestamp training_job_name s in
  let cfg := Deployment.config s in
  let job :=
    if truthy_str training_job_name then training_job_name
    else latest_training_job cfg svc in
  if truthy_str job then
    let name := default "" job in
    let decision := criteria cfg svc name in
    if fst decision && Config.AUTO_DEPLOY_ENABLED cfg then
      exists s1 d s2,
        appends s s1 []
        /\ Deployment.deploy_model svc timestamp name None s1 = (Ok d, s2)
        /\ appends s2 (snd out) []
        /\ fst out
           = Ok (Deployment.PipelineSuccess name true (snd decision) (Some d))
    else
      fst out
      = Ok (Deployment.PipelineSuccess name (fst decision) (snd decision)
              None)
      /\ appends s (snd out) [Notify "deployment_skipped"]
  else
    fst out = Ok (Deployment.PipelineFailed "No suitable training job found")
    /\ appends s (snd out) [Notify "error"].
Proof.
  intros out cfg job. subst out job cfg.
  unfold Deployment.run_deployment_pipeline. pipeline_step.
  destruct (truthy_str training_job_name) eqn:Hgiven; pipeline_step.
  - rewrite Hgiven.
    destruct training_job_name as [name|]; [|discriminate].
    cbn [default from_option id].
    match goal with
    | |- context [Deployment.check_deployment_criteria svc name ?s0] =>
        set (s0' := s0);
        assert (H0 : appends s s0' []) by (subst s0'; solve_appends);
        destruct (check_deployment_criteria_effect svc name s0')
          as (s1 & Hrun & Hs1);
        rewrite Hrun; change (Deployment.config s0') with (Deployment.config s);
        clearbody s0'
    end.
    pipeline_step.
    pose proof (appends_trans _ _ _ _ _ H0 Hs1) as H1. cbn [app] in H1.
    destruct (fst (criteria (Deployment.config s) svc name)
              && Config.AUTO_DEPLOY_ENABLED (Deployment.config s)) eqn:Hgo;
      pipeline_step.
    + match goal with
      | |- context [Deployment.deploy_model svc timestamp name None ?s2] =>
          set (s2' := s2);
          assert (H2 : appends s1 s2' []) by (subst s2'; solve_appends);
          destruct (deploy_model_returns svc timestamp name None s2')
            as (d & s3 & Hd);
          rewrite Hd; clearbody s2'
      end.
      pipeline_step.
      exists s2', d, s3.
      split; [exact (appends_trans _ _ _ _ _ H1 H2)|].
      split; [exact Hd|]. split; [solve_appends|].
      apply andb_prop in Hgo as (-> & _). reflexivity.
    + split; [reflexivity|].
      eapply (appends_trans _ _ _ [] [Notify "deployment_skipped"]);
        [exact H1 | solve_appends].
  - match goal with
    | |- context [Deployment.get_latest_training_job svc ?s0] =>
        set (s0' := s0);
        assert (H0 : appends s s0' []) by (subst s0'; solve_appends);
        destruct (get_latest_training_job_effect svc s0')
          as (s1 & Hfound & Hs1);
        rewrite Hfound; change (Deployment.config s0') with (Deployment.config s);
        clearbody s0'
    end.
    pipeline_step.
    pose proof (appends_trans _ _ _ _ _ H0 Hs1) as H1. cbn [app] in H1.
    destruct (truthy_str (latest_training_job (Deployment.config s) svc))
      eqn:Hfoundt; pipeline_step.
    + destruct (latest_training_job (Deployment.config s) svc) as [name|];
        [|discriminate].
      cbn [default from_option id].
      match goal with
      | |- context [Deployment.check_deployment_criteria svc name ?s2] =>
          set (s2' := s2);
          assert (H2 : appends s1 s2' []) by (subst s2'; solve_appends);
          destruct (check_deployment_criteria_effect svc name s2')
            as (s3 & Hrun & Hs3);
          rewrite Hrun;
          replace (Deployment.config s2') with (Deployment.config s)
            by (subst s2'; symmetry; apply H1);
          clearbody s2'
      end.
      pipeline_step.
      pose proof (appends_trans _ _ _ _ _ H1
                    (appends_trans _ _ _ _ _ H2 Hs3)) as H3.
      cbn [app] in H3.
      destruct (fst (criteria (Deployment.config s) svc name)
                && Config.AUTO_DEPLOY_ENABLED (Deployment.config s)) eqn:Hgo;
        pipeline_step.
      * match goal with
        | |- context [Deployment.deploy_model svc timestamp name None ?s4] =>
            set (s4' := s4);
            assert (H4 : appends s3 s4' []) by (subst s4'; solve_appends);
            destruct (deploy_model_returns svc timestamp name None s4')
              as (d & s5 & Hd);
            rewrite Hd; clearbody s4'
        end.
        pipeline_step.
        exists s4', d, s5.
        split; [exact (appends_trans _ _ _ _ _ H3 H4)|].
        split; [exact Hd|]. split; [solve_appends|].
        apply andb_prop in Hgo as (-> & _). reflexivity.
      * split; [reflexivity|].
        eapply (appends_trans _ _ _ [] [Notify "deployment_skipped"]);
          [exact H3 | solve_appends].
    + split; [reflexivity|].
      eapply (appends_trans _ _ _ [] [Notify "error"]);
        [exact H1 | solve_appends].
Qed.


Lemma get_current_production_endpoint_value svc s :
  exists s',
    Deployment.get_current_production_endpoint svc s
    = (Ok (production_endpoint (Deployment.config s) svc), s')
    /\ preserves s s'.
Proof.
  unfold Deployment.get_current_production_endpoint, production_endpoint.
  cbn -[find contains String.eqb String.append].
  destruct (Services.list_endpoints svc) as [endpoints|e];
    cbn -[find contains String.eqb String.append].
  - change (fun endpoint : string * string =>
              (snd endpoint =? "InService")
              && contains (Config.ENDPOINT_PREFIX (Deployment.config s))
                          (fst endpoint))
      with (serving (Config.ENDPOINT_PREFIX (Deployment.config s))).
    destruct (find _ endpoints) as [endpoint|];
      cbn -[find contains String.eqb String.append];
      eexists; (split; [reflexivity|]); repeat split; solve_invoked.
  - eexists. split; [reflexivity|]. repeat split; solve_invoked.
Qed.

Lemma rollback_deployment_value svc s :
  exists s',
    Deployment._rollback_deployment svc s
    = (Ok (rollback_report svc (Deployment.previous_endpoint s)), s')
    /\ Deployment.previous_endpoint s' = Deployment.previous_endpoint s.
Proof.
  unfold Deployment._rollback_deployment, rollback_report.
  cbn -[String.append String.eqb truthy_str].
  destruct (truthy_str (Deployment.previous_endpoint s));
    cbn -[String.append String.eqb truthy_str].
  - destruct (Services.describe_endpoint svc _) as [status|e];
      cbn -[String.append String.eqb truthy_str].
    + destruct (status =? "InService");
        cbn -[String.append String.eqb truthy_str];
        eexists; split; reflexivity.
    + eexists; split; reflexivity.
  - eexists; split; reflexivity.
Qed.

Lemma deploy_model_except_value svc endpoint e s :
  exists s',
    Deployment.deploy_model_except svc endpoint e s
    = (Ok (Deployment.DeployFailed (str_of_exn e)
             (if Config.ROLLBACK_ON_FAILURE (Deployment.config s)
                 && truthy_str (Deployment.previous_endpoint s)
              then Some (rollback_report svc (Deployment.previous_endpoint s))
              else None)
             endpoint), s')
    /\ Deployment.previous_endpoint s' = Deployment.previous_endpoint s.
Proof.
  unfold Deployment.deploy_model_except. method_step.
  destruct (Config.ROLLBACK_ON_FAILURE (Deployment.config s)
            && truthy_str (Deployment.previous_endpoint s)); method_step.
  - match goal with
    | |- context [Deployment._rollback_deployment svc ?s0] =>
        destruct (rollback_deployment_value svc s0) as (s1 & Hrun & Hprev);
        rewrite Hrun
    end.
    method_step. eexists. split; [reflexivity|]. exact Hprev.
  - eexists. split; reflexivity.
Qed.

Lemma deploy_model_try_snapshot svc name instance_type endpoint s :
  exists r s',
    Deployment.deploy_model_try svc name instance_type endpoint s = (r, s')
    /\ Deployment.config s' = Deployment.config s
    /\ Deployment.previous_endpoint s'
       = (if snapshot_reached svc name
          then production_endpoint (Deployment.config s) svc
          else Deployment.previous_endpoint s).
Proof.
  unfold snapshot_reached, Deployment.deploy_model_try. method_step.
  destruct (Services.describe_training_job svc name) as [job|e]; method_step;
    [|eexists _, _; split; [reflexivity|]; split; reflexivity].
  destruct (Services.S3ModelArtifacts job) as [model_data|]; method_step;
    [|eexists _, _; split; [reflexivity|]; split; reflexivity].
  destruct (Services.RoleArn job) as [role_arn|]; method_step;
    [|eexists _, _; split; [reflexivity|]; split; reflexivity].
  destruct (Services.sagemaker_session svc) as [[]|e]; method_step;
    [|eexists _, _; split; [reflexivity|]; split; reflexivity].
  destruct (Services.sklearn_model svc) as [[]|e]; method_step;
    [|eexists _, _; split; [reflexivity|]; split; reflexivity].
  destruct (get_current_production_endpoint_value svc s)
    as (s1 & Hrun & Hc1 & Hcur1 & Hprev1 & Hinv1).
  rewrite Hrun. method_step.
  destruct (Services.model_deploy svc endpoint) as [[]|e]; method_step.
  - match goal with
    | |- context [Deployment._test_endpoint svc endpoint ?s0] =>
        destruct (test_endpoint_preserves svc endpoint s0)
          as (s2 & Htest & Hc2 & Hcur2 & Hprev2 & Hinv2);
        rewrite Htest
    end.
    method_step. eexists _, _. split; [reflexivity|].
    cbn [Deployment.config Deployment.previous_endpoint] in *.
    split; congruence.
  - eexists _, _. split; [reflexivity|].
    cbn [Deployment.config Deployment.previous_endpoint].
    split; [assumption | reflexivity].
Qed.

(** [deploy_model] records the production endpoint in
    [previous_endpoint] only once the training job is described and the
    session and model objects exist; when an earlier step raises,
    [previous_endpoint] keeps the value an earlier deployment left there.
    A failed deployment reports the rollback to that endpoint, whichever
    it is, exactly when rollback is enabled and the attribute holds a
    name. *)
Theorem deploy_model_snapshot_and_report
    (svc : Services.aws) (timestamp training_job_name : string)
    (instance_type : option string) (s : Deployment.self) :
  let out :=
    Deployment.deploy_model svc timestamp training_job_name instance_type s in
  let previous :=
    if snapshot_reached svc training_job_name
    then production_endpoint (Deployment.config s) svc
    else Deployment.previous_endpoint s in
  Deployment.previous_endpoint (snd out) = previous
  /\ (provisioning_raises svc training_job_name (candidate s timestamp) = true ->
      exists e,
        fst out
        = Ok (Deployment.DeployFailed e
                (if Config.ROLLBACK_ON_FAILURE (Deployment.config s)
                    && truthy_str previous
                 then Some (rollback_report svc previous)
                 else None)
                (candidate s timestamp))).
Proof.
  intros out previous. subst out.
  unfold Deployment.deploy_model. fold (candidate s timestamp). method_step.
  fold (candidate s timestamp).
  match goal with
  | |- context [Deployment.deploy_model_try svc training_job_name ?it
                  ?endpoint ?s0] =>
      destruct (deploy_model_try_snapshot svc training_job_name it endpoint s0)
        as (r & s1 & Hrun & Hc1 & Hprev1);
      pose proof (deploy_model_try_effect svc training_job_name it endpoint s0)
        as Heffect;
      rewrite Hrun in Heffect |- *
  end.
  cbn [Deployment.config Deployment.previous_endpoint] in Hc1, Hprev1.
  fold previous in Hprev1.
  destruct r as [d|e].
  - cbn [fst snd]. split; [exact Hprev1|].
    intros Hraises. rewrite Hraises in Heffect.
    destruct Heffect as (e & s' & [=] & _).
  - destruct (deploy_model_except_value svc (candidate s timestamp) e s1)
      as (s2 & Hex & Hprev2).
    rewrite Hex. cbn [fst snd].
    split; [congruence|]. intros _.
    rewrite Hc1, Hprev1. eauto.
Qed.

(** A witness: the training job cannot be described, so the endpoint
    recorded by an earlier deployment is the one rolled back to. *)
Lemma deploy_model_snapshot_and_report_witness :
  exists e,
    fst (Deployment.deploy_model Samples.empty_account "20240101-000000"
           "iris-classifier-1" None
           (pipeline_with_previous Config.defaults (Some "iris-model-old")))
    = Ok (Deployment.DeployFailed e
            (Some (Deployment.RollbackError "ValidationException"))
            "iris-model-20240101-000000").
Proof.
  exact (proj2 (deploy_model_snapshot_and_report Samples.empty_account
                  "20240101-000000" "iris-classifier-1" None
                  (pipeline_with_previous Config.defaults
                     (Some "iris-model-old")))
               ltac:(vm_compute; reflexivity)).
Defined.

(** ** The test suite *)

(** The overall status of [run_comprehensive_tests] is decided by the last
    check that fires: [warning] when a performance check fires, whatever
    the health and accuracy checks found; [failed] when only health or
    accuracy checks fire; [passed] when none does. *)
Theorem overall_status_is_last_violated_check
    (config : Config.PipelineConfig) (health : string)
    (prediction_accuracy success_rate avg_latency : float) :
  fst (Testing.overall_test_status config health prediction_accuracy
         success_rate avg_latency)
  = if performance_violated success_rate avg_latency then "warning"
    else if function_violated config health prediction_accuracy then "failed"
    else "passed".
Proof.
  unfold Testing.overall_test_status, performance_violated, function_violated.
  destruct (negb (health =? "healthy")),
           (PyFloat.lt prediction_accuracy (Config.MINIMUM_ACCURACY config)),
           (PyFloat.lt success_rate 0.95), (PyFloat.gt avg_latency 1000);
    reflexivity.
Qed.

(** Reading the variants raises as soon as reading one of them does. *)
Lemma read_variants_raises (variants : list Services.production_variant)
    (variant : Services.production_variant) (e : exn) :
  In variant variants ->
  Testing.read_variant variant = Raise e ->
  exists e', Testing.read_variants variants = Raise e'.
Proof.
  induction variants as [|v variants IH]; intros Hin Hraise; [contradiction|].
  cbn [Testing.read_variants]. destruct Hin as [-> | Hin].
  - rewrite Hraise. cbn [and_then]. eauto.
  - destruct (Testing.read_variant v) as [info|e0]; cbn [and_then];
      [|eauto].
    destruct (IH Hin Hraise) as (e' & ->). cbn [and_then]. eauto.
Qed.

(** The health check reports [healthy] exactly when the endpoint is
    described as [InService] and every entry the check reads is there. *)
Lemma healthy_iff_in_service_and_readable svc endpoint_name :
  Testing.health_status (Testing.test_endpoint_health svc endpoint_name)
  = "healthy"
  <-> Services.describe_endpoint svc endpoint_name = Ok "InService"
      /\ exists instance_info,
           Testing.read_description
             (Services.described_endpoint svc endpoint_name)
           = Ok instance_info.
Proof.
  unfold Testing.test_endpoint_health.
  destruct (Services.describe_endpoint svc endpoint_name) as [status|e].
  - destruct (Testing.read_description _) as [info|e];
      cbn [Testing.health_status].
    + destruct (status =? "InService") eqn:Hs.
      * apply String.eqb_eq in Hs. subst status. split; eauto.
      * split; [discriminate|]. intros ([= ->] & _). discriminate.
    + split; [discriminate|]. intros (_ & info & [=]).
  - cbn [Testing.health_status]. split; [discriminate|].
    intros ([=] & _).
Qed.

(** The test suite gives the verdict [passed] exactly when the endpoint
    is described as [InService], the description carries every entry the
    health check reads (the two times, the variants, and the six keys of
    each variant), the functional accuracy is not below the minimum, the
    load success rate is not below 0.95 and the average latency is not
    above 1000 ms; and a [passed] verdict comes with no issue. *)
Theorem passed_verdict_is_sound
    (config : Config.PipelineConfig) (svc : Services.aws)
    (endpoint_name : string) :
  let r := Testing.run_comprehensive_tests config svc endpoint_name in
  (Testing.overall_status r = "passed" <->
   Services.describe_endpoint svc endpoint_name = Ok "InService"
   /\ (exists instance_info,
         Testing.read_description
           (Services.described_endpoint svc endpoint_name)
         = Ok instance_info)
   /\ PyFloat.lt (Testing.accuracy (Testing.predictions r))
                 (Config.MINIMUM_ACCURACY config) = false
   /\ PyFloat.lt (Testing.success_rate (Testing.performance r)) 0.95 = false
   /\ PyFloat.gt (Testing.load_avg_latency_ms (Testing.performance r)) 1000
      = false)
  /\ (Testing.overall_status r = "passed" -> Testing.issues r = []).
Proof.
  intros r. subst r. unfold Testing.run_comprehensive_tests.
  cbn [Testing.overall_status Testing.issues Testing.predictions
       Testing.performance].
  set (acc := Testing.accuracy _).
  set (rate := Testing.success_rate _).
  set (latency := Testing.load_avg_latency_ms _).
  pose proof (healthy_iff_in_service_and_readable svc endpoint_name) as Hh.
  set (health := Testing.health_status _) in *.
  unfold Testing.overall_test_status.
  destruct (health =? "healthy") eqn:Hhealth; cbn [negb].
  - apply String.eqb_eq in Hhealth. apply Hh in Hhealth as (Hd & Hr).
    destruct (PyFloat.lt acc (Config.MINIMUM_ACCURACY config)),
             (PyFloat.lt rate 0.95), (PyFloat.gt latency 1000);
      cbn; (split; [split|]); try discriminate; try reflexivity;
      try (intros (_ & _ & ? & ? & ?); discriminate);
      intros _; repeat split; assumption.
  - assert (Hno : ~ (Services.describe_endpoint svc endpoint_name
                     = Ok "InService"
                     /\ exists instance_info,
                          Testing.read_description
                            (Services.described_endpoint svc endpoint_name)
                          = Ok instance_info)).
    { intros H. apply Hh in H. rewrite H in Hhealth. discriminate. }
    destruct (PyFloat.lt acc (Config.MINIMUM_ACCURACY config)),
             (PyFloat.lt rate 0.95), (PyFloat.gt latency 1000);
      cbn; (split; [split|]); try discriminate;
      intros (? & ? & _); exfalso; apply Hno; split; assumption.
Qed.

(** The health check reads ['InstanceType'] of every production variant.
    On a description that lists a variant without that key, as the
    service's interface describes variants, the check reports [error]
    whatever the status of the endpoint, so the test suite lists the
    health issue and never gives the verdict [passed], however well the
    endpoint answers. *)
Theorem variant_without_instance_type_fails_the_health_check
    (config : Config.PipelineConfig) (svc : Services.aws)
    (endpoint_name : string)
    (variants : list Services.production_variant)
    (variant : Services.production_variant) :
  let r := Testing.run_comprehensive_tests config svc endpoint_name in
  Services.ProductionVariants (Services.described_endpoint svc endpoint_name)
  = Some variants ->
  In variant variants ->
  Services.InstanceType variant = None ->
  Testing.health_status (Testing.health r) = "error"
  /\ In Testing.issue_health (Testing.issues r)
  /\ Testing.overall_status r <> "passed".
Proof.
  intros r Hvariants Hin Hkey.
  assert (Hraise : exists e, Testing.read_variant variant = Raise e).
  { unfold Testing.read_variant. rewrite Hkey.
    destruct (Services.VariantName variant); cbn; eauto. }
  destruct Hraise as (e & Hraise).
  destruct (read_variants_raises variants variant e Hin Hraise)
    as (e' & Hloop).
  assert (Herror : Testing.health_status
                     (Testing.test_endpoint_health svc endpoint_name)
                   = "error").
  { unfold Testing.test_endpoint_health, Testing.read_description.
    destruct (Services.describe_endpoint svc endpoint_name) as [status|e0];
      [|reflexivity].
    rewrite Hvariants.
    destruct (Services.CreationTime _); cbn [Services.getitem and_then];
      [|reflexivity].
    destruct (Services.LastModifiedTime _); cbn [Services.getitem and_then];
      [|reflexivity].
    now rewrite Hloop. }
  subst r. unfold Testing.run_comprehensive_tests.
  cbn [Testing.overall_status Testing.issues Testing.health].
  split; [exact Herror|]. rewrite Herror.
  unfold Testing.overall_test_status.
  destruct (PyFloat.lt _ (Config.MINIMUM_ACCURACY config)),
           (PyFloat.lt _ 0.95), (PyFloat.gt _ 1000);
    cbn; (split; [now left | discriminate]).
Qed.

(** A witness: an endpoint in service that answers every shipped case
    with its expected class, described as the service's interface
    describes endpoints. *)
Lemma variant_without_instance_type_fails_the_health_check_witness :
  let r := Testing.run_comprehensive_tests Config.defaults accurate_model
             "iris-model-1" in
  Testing.accuracy (Testing.predictions r) = 1%float
  /\ Testing.success_rate (Testing.performance r) = 1%float
  /\ Testing.health_status (Testing.health r) = "error"
  /\ Testing.overall_status r <> "passed".
Proof.
  split; [vm_compute; reflexivity|]. split; [vm_compute; reflexivity|].
  pose proof (variant_without_instance_type_fails_the_health_check
                Config.defaults accurate_model "iris-model-1"
                [Samples.variant_summary] Samples.variant_summary
                eq_refl ltac:(now left) eq_refl) as (H1 & _ & H2).
  split; [exact H1 | exact H2].
Defined.

(** The load loop counts every request once: as successful, with its
    latency recorded, when it returns, and as failed when it raises. *)
Lemma send_requests_invariant svc endpoint_name (indices : list nat)
    (st : Testing.counters) :
  let st' := fold_left (Testing.send_request svc endpoint_name) indices st in
  let answered :=
    length (List.filter (request_answered svc endpoint_name) indices) in
  Testing.successful st' = (Testing.successful st + answered)%nat
  /\ (Testing.successful st' + Testing.failed st'
      = Testing.successful st + Testing.failed st + length indices)%nat
  /\ length (Testing.request_times st')
     = (length (Testing.request_times st) + answered)%nat.
Proof.
  revert st. induction indices as [|i indices IH]; intros st;
    cbn [fold_left List.filter length].
  - repeat split; lia.
  - destruct (IH (Testing.send_request svc endpoint_name st i))
      as (H1 & H2 & H3).
    cbv zeta in H1, H2, H3 |- *.
    assert (Hstep :
      let b := if request_answered svc endpoint_name i then 1%nat else 0%nat in
      Testing.successful (Testing.send_request svc endpoint_name st i)
      = (Testing.successful st + b)%nat
      /\ (Testing.successful (Testing.send_request svc endpoint_name st i)
          + Testing.failed (Testing.send_request svc endpoint_name st i)
          = Testing.successful st + Testing.failed st + 1)%nat
      /\ length (Testing.request_times
                   (Testing.send_request svc endpoint_name st i))
         = (length (Testing.request_times st) + b)%nat).
    { unfold Testing.send_request, request_answered.
      destruct (Services.invoke_endpoint svc i endpoint_name _)
        as [[ms body]|e];
        cbn [Testing.successful Testing.failed Testing.request_times];
        rewrite ?length_app; cbn [length]; repeat split; lia. }
    cbv zeta in Hstep. destruct Hstep as (S1 & S2 & S3).
    destruct (request_answered svc endpoint_name i); cbn [length];
      repeat split; lia.
Qed.

(** [test_endpoint_performance] accounts for every request the load window
    let through: the total is their number, a request that raises is
    counted as failed and does not stop the loop, and the success rate is
    the number of requests that returned divided by the total.  A window
    that lets no request through reports a success rate and an average
    latency of 0. *)
Theorem load_test_counts_every_request
    (svc : Services.aws) (endpoint_name : string) :
  let r := Testing.test_endpoint_performance svc endpoint_name in
  let n := Services.load_test_requests svc in
  let answered :=
    length (List.filter (request_answered svc endpoint_name) (seq 0 n)) in
  Testing.total_requests r = n
  /\ Testing.successful_requests r = answered
  /\ Testing.failed_requests r = (n - answered)%nat
  /\ Testing.success_rate r
     = (if (0 <? n)%nat then PyFloat.truediv answered n else 0%float)
  /\ (n = 0%nat ->
      Testing.success_rate r = 0%float
      /\ Testing.load_avg_latency_ms r = 0%float).
Proof.
  intros r n answered.
  destruct (send_requests_invariant svc endpoint_name (seq 0 n)
              {| Testing.request_times := [];
                 Testing.successful := 0;
                 Testing.failed := 0 |}) as (H1 & H2 & H3).
  cbn [Testing.successful Testing.failed Testing.request_times length
       Nat.add] in H1, H2, H3.
  rewrite length_seq in H2. fold answered in H1, H3.
  subst r. unfold Testing.test_endpoint_performance.
  cbn [Testing.total_requests Testing.successful_requests
       Testing.failed_requests Testing.success_rate
       Testing.load_avg_latency_ms].
  fold n. rewrite H2, H1.
  split; [reflexivity|]. split; [reflexivity|]. split; [lia|].
  split; [reflexivity|].
  intros Hn. split; [now rewrite Hn|].
  destruct (Testing.request_times _) as [|x xs]; [reflexivity|].
  cbn [length] in H3.
  assert (answered = 0)%nat by (subst answered; now rewrite Hn).
  lia.
Qed.

(** ** The command line *)

(** An override given on the command line replaces the attribute only
    when it is truthy: an absent threshold, a threshold of zero and an
    empty instance type leave the configured value in place, so a
    threshold of 0 cannot be set from the command line.  The other
    attributes are never changed. *)
Theorem override_ignores_falsy_arguments
    (cls : Config.PipelineConfig) (args : RunPipeline.arguments) :
  let config := RunPipeline.override cls args in
  Config.ACCURACY_THRESHOLD config
  = match RunPipeline.accuracy_threshold args with
    | Some x =>
        if PrimFloat.eqb x 0 then Config.ACCURACY_THRESHOLD cls else x
    | None => Config.ACCURACY_THRESHOLD cls
    end
  /\ Config.MINIMUM_ACCURACY config
     = match RunPipeline.minimum_accuracy args with
       | Some x =>
           if PrimFloat.eqb x 0 then Config.MINIMUM_ACCURACY cls else x
       | None => Config.MINIMUM_ACCURACY cls
       end
  /\ Config.INSTANCE_TYPE config
     = match RunPipeline.instance_type args with
       | Some "" | None => Config.INSTANCE_TYPE cls
       | Some x => x
       end
  /\ Config.AUTO_DEPLOY_ENABLED config = Config.AUTO_DEPLOY_ENABLED cls
  /\ Config.ROLLBACK_ON_FAILURE config = Config.ROLLBACK_ON_FAILURE cls
  /\ Config.MODEL_NAME_PREFIX config = Config.MODEL_NAME_PREFIX cls
  /\ Config.ENDPOINT_PREFIX config = Config.ENDPOINT_PREFIX cls.
Proof.
  unfold RunPipeline.override, RunPipeline.given, PyFloat.truthy.
  destruct (RunPipeline.accuracy_threshold args) as [t|];
    [destruct (PrimFloat.eqb t 0)|];
    (destruct (RunPipeline.minimum_accuracy args) as [m|];
     [destruct (PrimFloat.eqb m 0)|]);
    (destruct (RunPipeline.instance_type args) as [[|c i]|]);
    repeat split.
Qed.

(** The configuration check of [main] reads the class attributes only.
    With valid class attributes, a target below the minimum given on the
    command line is not rejected: the instance carries the pair, which
    [validate] would refuse, and [main] goes on to run the stages with
    it. *)
Theorem command_line_thresholds_bypass_validation
    (cls : Config.PipelineConfig) (args : RunPipeline.arguments)
    (w : RunPipeline.world) (target minimum : float) :
  let config := RunPipeline.override cls args in
  Config.validate cls = Ok true ->
  RunPipeline.accuracy_threshold args = Some target ->
  RunPipeline.minimum_accuracy args = Some minimum ->
  PyFloat.truthy target = true ->
  PyFloat.truthy minimum = true ->
  PyFloat.lt target minimum = true ->
  Config.ACCURACY_THRESHOLD config = target
  /\ Config.MINIMUM_ACCURACY config = minimum
  /\ (exists msg, Config.validate config = Raise (ValueError msg))
  /\ RunPipeline.main cls args w
     = match RunPipeline.run_stages config args w with
       | Ok _ => 0%Z
       | Raise _ => 1%Z
       end.
Proof.
  intros config Hvalid Ht Hm Htt Hmt Hlt.
  assert (E1 : Config.ACCURACY_THRESHOLD config = target).
  { subst config. unfold RunPipeline.override, RunPipeline.given.
    rewrite Ht, Hm. cbn [default from_option id]. rewrite Htt, Hmt.
    destruct (truthy_str (RunPipeline.instance_type args)); reflexivity. }
  assert (E2 : Config.MINIMUM_ACCURACY config = minimum).
  { subst config. unfold RunPipeline.override, RunPipeline.given.
    rewrite Ht, Hm. cbn [default from_option id]. rewrite Htt, Hmt.
    destruct (truthy_str (RunPipeline.instance_type args)); reflexivity. }
  split; [exact E1|]. split; [exact E2|]. split.
  - unfold Config.validate. rewrite E1, E2, Hlt.
    destruct (PyFloat.lt target 0 || PyFloat.gt target 1); [eauto|].
    destruct (PyFloat.lt minimum 0 || PyFloat.gt minimum 1); eauto.
  - unfold RunPipeline.main. now rewrite Hvalid.
Qed.

(** A witness: a target of 0.5 with a minimum of 0.9, in training mode. *)
Lemma command_line_thresholds_bypass_validation_witness :
  let args :=
    {| RunPipeline.mode_of := RunPipeline.training;
       RunPipeline.training_job_arg := None;
       RunPipeline.endpoint_name_arg := None;
       RunPipeline.output_file := None;
       RunPipeline.accuracy_threshold := Some 0.5%float;
       RunPipeline.minimum_accuracy := Some 0.9%float;
       RunPipeline.instance_type := None |} in
  exists msg,
    Config.validate (RunPipeline.override Config.defaults args)
    = Raise (ValueError msg).
Proof.
  intros args.
  pose proof (command_line_thresholds_bypass_validation Config.defaults args
                (Samples.world_with 0.97%float (Samples.healthy []))
                0.5%float 0.9%float
                ltac:(vm_compute; reflexivity) eq_refl eq_refl
                ltac:(vm_compute; reflexivity) ltac:(vm_compute; reflexivity)
                ltac:(vm_compute; reflexivity)) as (_ & _ & H & _).
  exact H.
Defined.

(** ** The stages of [main] *)

(** In testing mode with an endpoint named on the command line, and with
    valid class attributes: if the testing pipeline cannot be constructed
    the exit status is 1; otherwise [main] runs neither training nor
    deployment and tests that endpoint without listing any, and, the
    results file being written when one is asked for, it exits with 0
    whatever the verdict of the tests. *)
Theorem test_verdict_never_changes_exit_status
    (cls : Config.PipelineConfig) (args : RunPipeline.arguments)
    (w : RunPipeline.world) (endpoint_name : string) :
  let config := RunPipeline.override cls args in
  Config.validate cls = Ok true ->
  RunPipeline.mode_of args = RunPipeline.testing ->
  RunPipeline.endpoint_name_arg args = Some endpoint_name ->
  endpoint_name <> "" ->
  (truthy_str (RunPipeline.output_file args) = true ->
   RunPipeline.write_output w = Ok tt) ->
  match RunPipeline.new_testing_pipeline w with
  | Raise _ => RunPipeline.main cls args w = 1%Z
  | Ok _ =>
      RunPipeline.run_stages config args w
      = Ok {| RunPipeline.training_entry := None;
              RunPipeline.deployment_entry := None;
              RunPipeline.testing_entry :=
                Some (Some (Testing.run_comprehensive_tests config
                              (RunPipeline.sagemaker w) endpoint_name)) |}
      /\ RunPipeline.main cls args w = 0%Z
  end.
Proof.
  intros config Hvalid Hmode Harg Hne Hwrite.
  assert (Htruthy : truthy_str (Some endpoint_name) = true).
  { cbn [truthy_str]. destruct (endpoint_name =? "") eqn:E; [|reflexivity].
    apply String.eqb_eq in E. contradiction. }
  unfold RunPipeline.main. rewrite Hvalid. fold config.
  unfold RunPipeline.run_stages, RunPipeline.training_phase,
    RunPipeline.deployment_phase, RunPipeline.testing_phase,
    RunPipeline.determine_endpoint.
  rewrite Hmode, Harg. cbn [RunPipeline.mode_eqb orb].
  destruct (RunPipeline.new_testing_pipeline w) as [[]|e]; [|reflexivity].
  rewrite Htruthy. cbn iota. rewrite Htruthy. cbn [default from_option id].
  destruct (truthy_str (RunPipeline.output_file args));
    [rewrite Hwrite by reflexivity|]; split; reflexivity.
Qed.

(** A witness: the endpoint tested is not serving, and the exit status is
    0. *)
Lemma test_verdict_never_changes_exit_status_witness :
  RunPipeline.main Config.defaults
    {| RunPipeline.mode_of := RunPipeline.testing;
       RunPipeline.training_job_arg := None;
       RunPipeline.endpoint_name_arg := Some "iris-model-1";
       RunPipeline.output_file := None;
       RunPipeline.accuracy_threshold := None;
       RunPipeline.minimum_accuracy := None;
       RunPipeline.instance_type := None |}
    (Samples.world_with 0.97%float (Samples.not_serving [] "Failed"))
  = 0%Z.
Proof.
  pose proof (test_verdict_never_changes_exit_status Config.defaults
                {| RunPipeline.mode_of := RunPipeline.testing;
                   RunPipeline.training_job_arg := None;
                   RunPipeline.endpoint_name_arg := Some "iris-model-1";
                   RunPipeline.output_file := None;
                   RunPipeline.accuracy_threshold := None;
                   RunPipeline.minimum_accuracy := None;
                   RunPipeline.instance_type := None |}
                (Samples.world_with 0.97%float
                   (Samples.not_serving [] "Failed"))
                "iris-model-1"
                ltac:(vm_compute; reflexivity) eq_refl eq_refl
                ltac:(discriminate) ltac:(discriminate)) as H.
  exact (proj2 H).
Defined.

(** In testing mode without an endpoint on the command line, with valid
    class attributes and the results file written when one is asked for:
    if the testing pipeline cannot be constructed, or the listing of the
    endpoints raises, the exit status is 1.  Otherwise [main] runs
    neither training nor deployment and exits with 0; the endpoint it
    tests is the first listed one that is in service and carries the
    endpoint prefix (none, if that endpoint's name is empty), and without
    such an endpoint the tests are skipped. *)
Theorem testing_mode_discovers_the_endpoint
    (cls : Config.PipelineConfig) (args : RunPipeline.arguments)
    (w : RunPipeline.world) :
  let config := RunPipeline.override cls args in
  let prefix := Config.ENDPOINT_PREFIX config in
  let tested (found : option string) :=
    {| RunPipeline.training_entry := None;
       RunPipeline.deployment_entry := None;
       RunPipeline.testing_entry :=
         Some (if truthy_str found
               then Some (Testing.run_comprehensive_tests config
                            (RunPipeline.sagemaker w) (default "" found))
               else None) |} in
  Config.validate cls = Ok true ->
  RunPipeline.mode_of args = RunPipeline.testing ->
  truthy_str (RunPipeline.endpoint_name_arg args) = false ->
  (truthy_str (RunPipeline.output_file args) = true ->
   RunPipeline.write_output w = Ok tt) ->
  match RunPipeline.new_testing_pipeline w,
        Services.list_endpoints (RunPipeline.sagemaker w) with
  | Ok _, Ok endpoints =>
      RunPipeline.main cls args w = 0%Z
      /\ if existsb (serving prefix) endpoints then
           exists endpoint,
             first_where (serving prefix) endpoints endpoint
             /\ RunPipeline.run_stages config args w
                = Ok (tested (Some (fst endpoint)))
         else RunPipeline.run_stages config args w = Ok (tested None)
  | _, _ => RunPipeline.main cls args w = 1%Z
  end.
Proof.
  intros config prefix tested Hvalid Hmode Harg Hwrite.
  unfold RunPipeline.main. rewrite Hvalid. fold config.
  unfold RunPipeline.run_stages, RunPipeline.training_phase,
    RunPipeline.deployment_phase, RunPipeline.testing_phase,
    RunPipeline.determine_endpoint.
  rewrite Hmode, Harg. cbn [RunPipeline.mode_eqb orb mbind option_bind].
  destruct (RunPipeline.new_testing_pipeline w) as [[]|e]; [|reflexivity].
  destruct (Services.list_endpoints (RunPipeline.sagemaker w))
    as [endpoints|e]; [|reflexivity].
  change (fun endpoint : string * string =>
            (snd endpoint =? "InService")
            && contains (Config.ENDPOINT_PREFIX config) (fst endpoint))
    with (serving prefix).
  pose proof (find_first_where (serving prefix) endpoints) as Hfirst.
  assert (Hout : (if truthy_str (RunPipeline.output_file args)
                  then RunPipeline.write_output w else Ok tt) = Ok tt).
  { destruct (truthy_str (RunPipeline.output_file args));
      [now apply Hwrite | reflexivity]. }
  destruct (find (serving prefix) endpoints) as [endpoint|] eqn:Hfind;
    cbn [fmap option_fmap option_map].
  - assert (E : existsb (serving prefix) endpoints = true).
    { apply existsb_exists. exists endpoint. apply find_some in Hfind.
      tauto. }
    rewrite E. subst tested. cbn beta.
    destruct (truthy_str (Some (fst endpoint))) eqn:Hname; cbn iota;
      rewrite Hout; (split; [reflexivity|]); exists endpoint;
      (split; [exact Hfirst | now rewrite Hname]).
  - assert (E : existsb (serving prefix) endpoints = false).
    { apply not_true_is_false. intros (x & Hx & Hf)%existsb_exists.
      now rewrite (find_none _ _ Hfind x Hx) in Hf. }
    rewrite E. subst tested. cbn [truthy_str]. cbn iota. rewrite Hout.
    split; reflexivity.
Qed.

(** A witness: the account's one endpoint is in service and carries the
    prefix, so it is the one tested. *)
Lemma testing_mode_discovers_the_endpoint_witness :
  RunPipeline.main Config.defaults
    (Samples.arguments_for RunPipeline.testing)
    (Samples.world_with 0.97%float (Samples.healthy [])) = 0%Z
  /\ exists r,
       RunPipeline.run_stages Config.defaults
         (Samples.arguments_for RunPipeline.testing)
         (Samples.world_with 0.97%float (Samples.healthy [])) = Ok r
       /\ (Testing.tested_endpoint <$> default None (RunPipeline.testing_entry r))
          = Some "iris-model-old".
Proof.
  pose proof (testing_mode_discovers_the_endpoint Config.defaults
                (Samples.arguments_for RunPipeline.testing)
                (Samples.world_with 0.97%float (Samples.healthy []))
                ltac:(vm_compute; reflexivity) eq_refl eq_refl
                ltac:(discriminate)) as H.
  cbv zeta in H.
  change (RunPipeline.new_testing_pipeline _) with (@Ok unit tt) in H.
  change (Services.list_endpoints _)
    with (@Ok (list (string * string)) [("iris-model-old", "InService")])
    in H.
  cbv beta iota in H. destruct H as (Hexit & H). split; [exact Hexit|].
  eexists. split; [vm_compute; reflexivity|]. vm_compute. reflexivity.
Defined.

(** In complete mode every run that reaches the end of the [try] block
    holds the training results, and deployment passes two gates.  When
    training does not recommend deployment, the stage is skipped.  When
    it does, the deployment entry is what [run_deployment_pipeline]
    returns when called without a job name: the job is not the one the
    training stage trained but the one [get_latest_training_job] finds;
    without one the entry is the [failed] dictionary; with one the
    criteria of the deployment pipeline decide again on that job, the
    entry holds deployment results exactly when they approve and
    [AUTO_DEPLOY_ENABLED] is set, and those results are successful ones
    (failed ones make the summary raise, and the run does not reach the
    end of the [try] block). *)
Theorem complete_mode_deploys_only_after_both_gates
    (cls : Config.PipelineConfig) (args : RunPipeline.arguments)
    (w : RunPipeline.world) (r : RunPipeline.results) :
  let config := RunPipeline.override cls args in
  let svc := RunPipeline.sagemaker w in
  RunPipeline.mode_of args = RunPipeline.complete ->
  RunPipeline.run_stages config args w = Ok r ->
  exists t,
    RunPipeline.training_entry r = Some t
    /\ fst (Training.run_training_pipeline config (RunPipeline.sklearn w))
       = Ok t
    /\ if Training.should_deploy_flag t then
         exists p,
           RunPipeline.deployer_run config w None = Ok p
           /\ RunPipeline.deployment_entry r = Some p
           /\ if truthy_str (latest_training_job config svc) then
                let name := default "" (latest_training_job config svc) in
                let decision := criteria config svc name in
                exists deployment,
                  p = Deployment.PipelineSuccess name (fst decision)
                        (snd decision) deployment
                  /\ (is_Some deployment <->
                      fst decision && Config.AUTO_DEPLOY_ENABLED config
                      = true)
                  /\ (forall d, deployment = Some d ->
                      Deployment.deployment_status d = "success")
              else
                p = Deployment.PipelineFailed "No suitable training job found"
       else
         RunPipeline.deployment_entry r
         = Some (Deployment.PipelineSkipped "deployment criteria not met").
Proof.
  intros config svc Hmode Hrun.
  unfold RunPipeline.run_stages, RunPipeline.training_phase in Hrun.
  rewrite Hmode in Hrun. cbn [RunPipeline.mode_eqb orb] in Hrun.
  destruct (RunPipeline.new_training_pipeline w); [|discriminate].
  destruct (fst (Training.run_training_pipeline config (RunPipeline.sklearn w)))
    as [t|e]; [|discriminate].
  exists t.
  destruct (RunPipeline.deployment_phase config args w (Some t))
    as [deploy|e] eqn:Hdeploy; [|discriminate].
  destruct (RunPipeline.testing_phase config args w deploy); [|discriminate].
  destruct (if truthy_str _ then _ else _); [|discriminate].
  injection Hrun as <-.
  cbn [RunPipeline.training_entry RunPipeline.deployment_entry].
  split; [reflexivity|]. split; [reflexivity|].
  unfold RunPipeline.deployment_phase, RunPipeline.produce_deploy_results
    in Hdeploy.
  rewrite Hmode in Hdeploy. cbn [RunPipeline.mode_eqb orb andb] in Hdeploy.
  destruct (RunPipeline.new_deployment_pipeline w); [|discriminate].
  destruct (Training.should_deploy_flag t) eqn:Hflag.
  - unfold RunPipeline.deployer_run in *.
    pose proof (run_deployment_pipeline_exact svc (RunPipeline.clock w) None
                  (Deployment.init config)) as Hexact.
    cbv zeta in Hexact.
    cbn [truthy_str Deployment.config Deployment.init] in Hexact.
    fold svc in Hdeploy |- *.
    destruct (Deployment.run_deployment_pipeline svc (RunPipeline.clock w)
                None (Deployment.init config)) as [result s'].
    cbn [fst snd] in *.
    destruct (truthy_str (latest_training_job config svc)).
    + destruct (fst (criteria config svc _)
                && Config.AUTO_DEPLOY_ENABLED config) eqn:Hgo.
      * destruct Hexact as (s1 & d & s2 & _ & _ & _ & ->).
        cbn [Deployment.get_deployment_results] in Hdeploy.
        destruct d as [endpoint test meta|error rollback attempted];
          cbn [Deployment.endpoint_name_of] in Hdeploy; [|discriminate].
        injection Hdeploy as <-. eexists. split; [reflexivity|].
        split; [reflexivity|]. eexists. split.
        { apply andb_prop in Hgo as (Hgo & _). rewrite Hgo. reflexivity. }
        split; [split; eauto|]. now intros ? [= <-].
      * destruct Hexact as (-> & _).
        cbn [Deployment.get_deployment_results] in Hdeploy.
        injection Hdeploy as <-. eexists. split; [reflexivity|].
        split; [reflexivity|]. eexists. split; [reflexivity|].
        split; [split; [intros [? [=]] | intros [=]]|]. intros ? [=].
    + destruct Hexact as (-> & _).
      cbn [Deployment.get_deployment_results] in Hdeploy.
      injection Hdeploy as <-. eexists. split; [reflexivity|].
      split; reflexivity.
  - cbn [Deployment.get_deployment_results] in Hdeploy.
    injection Hdeploy as <-. reflexivity.
Qed.

(** A witness, twice.  On the sample account, whose listing is as the
    service's interface gives it, training reaches 0.97 and recommends
    deployment, the deployment pipeline finds no training job, and the
    entry is the [failed] dictionary.  On the account whose listing
    carries ['TrainingJobs'], the job reports 0.97, both gates approve and
    the entry holds the results of a successful deployment. *)
Lemma complete_mode_deploys_only_after_both_gates_witness :
  (exists r,
     RunPipeline.run_stages Config.defaults
       (Samples.arguments_for RunPipeline.complete)
       (Samples.world_with 0.97%float
          (Samples.healthy [("accuracy", 0.97%float)])) = Ok r
     /\ RunPipeline.deployment_entry r
        = Some (Deployment.PipelineFailed "No suitable training job found"))
  /\ (exists r d,
        RunPipeline.run_stages Config.defaults
          (Samples.arguments_for RunPipeline.complete)
          (Samples.world_with 0.97%float
             (account_listing_training_jobs [("accuracy", 0.97%float)]))
        = Ok r
        /\ (RunPipeline.deployment_entry r
              ≫= Deployment.get_deployment_results) = Some d
        /\ Deployment.deployment_status d = "success").
Proof.
  split.
  - assert (Hrun : exists r,
               RunPipeline.run_stages Config.defaults
                 (Samples.arguments_for RunPipeline.complete)
                 (Samples.world_with 0.97%float
                    (Samples.healthy [("accuracy", 0.97%float)])) = Ok r)
      by (eexists; vm_compute; reflexivity).
    destruct Hrun as (r & Hrun). exists r. split; [exact Hrun|].
    destruct (complete_mode_deploys_only_after_both_gates Config.defaults
                (Samples.arguments_for RunPipeline.complete)
                (Samples.world_with 0.97%float
                   (Samples.healthy [("accuracy", 0.97%float)]))
                r eq_refl Hrun) as (t & _ & Ht & H).
    vm_compute in Ht. injection Ht as <-.
    cbn [Training.should_deploy_flag] in H.
    destruct H as (p & _ & Hentry & Hp). vm_compute in Hp. subst p.
    exact Hentry.
  - assert (Hrun : exists r,
               RunPipeline.run_stages Config.defaults
                 (Samples.arguments_for RunPipeline.complete)
                 (Samples.world_with 0.97%float
                    (account_listing_training_jobs
                       [("accuracy", 0.97%float)])) = Ok r)
      by (eexists; vm_compute; reflexivity).
    destruct Hrun as (r & Hrun).
    destruct (complete_mode_deploys_only_after_both_gates Config.defaults
                (Samples.arguments_for RunPipeline.complete)
                (Samples.world_with 0.97%float
                   (account_listing_training_jobs
                      [("accuracy", 0.97%float)]))
                r eq_refl Hrun) as (t & _ & Ht & H).
    vm_compute in Ht. injection Ht as <-.
    cbn [Training.should_deploy_flag] in H.
    destruct H as (p & _ & Hentry & Hp).
    assert (Hfound : truthy_str
                       (latest_training_job
                          (RunPipeline.override Config.defaults
                             (Samples.arguments_for RunPipeline.complete))
                          (account_listing_training_jobs
                             [("accuracy", 0.97%float)])) = true)
      by (vm_compute; reflexivity).
    cbn [RunPipeline.sagemaker Samples.world_with] in Hp.
    rewrite Hfound in Hp. cbv zeta in Hp.
    destruct Hp as (deployment & -> & Hsome & Hsuccess).
    destruct (proj2 Hsome ltac:(vm_compute; reflexivity)) as (d & ->).
    exists r, d. split; [exact Hrun|]. rewrite Hentry.
    split; [reflexivity | now apply Hsuccess].
Defined.

(** In deployment mode, with valid class attributes and the results file
    written when one is asked for: if the deployment pipeline cannot be
    constructed the exit status is 1; otherwise [run_deployment_pipeline]
    returns, and the exit status is 1 exactly when it returns the results
    of a failed deployment (the summary reads the endpoint name they
    lack).  So a run that finds no training job, or whose model misses
    the target, exits with 0.  An empty job name on the command line
    counts as none. *)
Theorem deployment_mode_exit_status
    (cls : Config.PipelineConfig) (args : RunPipeline.arguments)
    (w : RunPipeline.world) :
  let config := RunPipeline.override cls args in
  let training_job_name :=
    if truthy_str (RunPipeline.training_job_arg args)
    then RunPipeline.training_job_arg args else None in
  Config.validate cls = Ok true ->
  RunPipeline.mode_of args = RunPipeline.deployment ->
  (truthy_str (RunPipeline.output_file args) = true ->
   RunPipeline.write_output w = Ok tt) ->
  match RunPipeline.new_deployment_pipeline w with
  | Raise _ => RunPipeline.main cls args w = 1%Z
  | Ok _ =>
      exists p,
        RunPipeline.deployer_run config w training_job_name = Ok p
        /\ RunPipeline.main cls args w
           = match Deployment.get_deployment_results p with
             | Some (Deployment.DeployFailed _ _ _) => 1%Z
             | _ => 0%Z
             end
  end.
Proof.
  intros config training_job_name Hvalid Hmode Hwrite.
  unfold RunPipeline.main. rewrite Hvalid. fold config.
  unfold RunPipeline.run_stages, RunPipeline.training_phase,
    RunPipeline.deployment_phase, RunPipeline.produce_deploy_results,
    RunPipeline.testing_phase.
  rewrite Hmode. cbn [RunPipeline.mode_eqb orb andb].
  destruct (RunPipeline.new_deployment_pipeline w) as [[]|e]; [|reflexivity].
  assert (Hreturns : exists p,
             RunPipeline.deployer_run config w training_job_name = Ok p).
  { unfold RunPipeline.deployer_run.
    pose proof (run_deployment_pipeline_exact (RunPipeline.sagemaker w)
                  (RunPipeline.clock w) training_job_name
                  (Deployment.init config)) as Hexact.
    cbv zeta in Hexact.
    destruct (truthy_str (if truthy_str training_job_name then _ else _)).
    - destruct (_ && _).
      + destruct Hexact as (? & ? & ? & _ & _ & _ & ->). eauto.
      + destruct Hexact as (-> & _). eauto.
    - destruct Hexact as (-> & _). eauto. }
  destruct Hreturns as (p & Hp). exists p. split; [exact Hp|].
  assert (Hproduced :
            (if truthy_str (RunPipeline.training_job_arg args)
             then RunPipeline.deployer_run config w
                    (RunPipeline.training_job_arg args)
             else RunPipeline.deployer_run config w None) = Ok p).
  { subst training_job_name.
    now destruct (truthy_str (RunPipeline.training_job_arg args)). }
  rewrite Hproduced.
  destruct (Deployment.get_deployment_results p)
    as [[endpoint test meta|error rollback attempted]|];
    cbn [Deployment.endpoint_name_of]; try reflexivity;
    (destruct (truthy_str (RunPipeline.output_file args));
     [now rewrite Hwrite | reflexivity]).
Qed.

(** A witness: on the sample account no training job is named and none
    is found, nothing is deployed, and the exit status is 0. *)
Lemma deployment_mode_exit_status_witness :
  RunPipeline.deployer_run Config.defaults
    (Samples.world_with 0.97%float
       (Samples.healthy [("accuracy", 0.97%float)])) None
  = Ok (Deployment.PipelineFailed "No suitable training job found")
  /\ RunPipeline.main Config.defaults
       (Samples.arguments_for RunPipeline.deployment)
       (Samples.world_with 0.97%float
          (Samples.healthy [("accuracy", 0.97%float)])) = 0%Z.
Proof.
  pose proof (deployment_mode_exit_status Config.defaults
                (Samples.arguments_for RunPipeline.deployment)
                (Samples.world_with 0.97%float
                   (Samples.healthy [("accuracy", 0.97%float)]))
                ltac:(vm_compute; reflexivity) eq_refl
                ltac:(discriminate)) as H.
  cbv zeta in H.
  change (RunPipeline.new_deployment_pipeline _) with (@Ok unit tt) in H.
  cbv beta iota in H. destruct H as (p & Hp & Hexit).
  vm_compute in Hp. injection Hp as <-.
  split; [vm_compute; reflexivity | exact Hexit].
Defined.

(** ** [TrainingPipeline.run_training_pipeline] *)

(** A training run that returns reports success, recommends deployment
    exactly when the accuracy reaches the target, holds a SageMaker job
    exactly when it recommends deployment with automatic deployment
    enabled, and sends one notification: of success when it recommends
    deployment, of failure otherwise.  A run raises exactly what the local
    evaluation or the SageMaker training raised, after one notification of
    an error. *)
Theorem training_pipeline_outcomes
    (config : Config.PipelineConfig) (svc : Training.services) :
  let out := Training.run_training_pipeline config svc in
  match fst out with
  | Ok r =>
      Training.evaluate_local_model svc = Ok (Training.evaluation r)
      /\ Training.pipeline_status r = "success"
      /\ Training.should_deploy_flag r
         = PyFloat.ge (Training.accuracy (Training.evaluation r))
                      (Config.ACCURACY_THRESHOLD config)
      /\ (forall name,
            Training.sagemaker_training_job r = Some name <->
            Training.should_deploy_flag r
            && Config.AUTO_DEPLOY_ENABLED config = true
            /\ Training.train_sagemaker_model svc = Ok name)
      /\ notifications (snd out)
         = [if Training.should_deploy_flag r then "success" else "failure"]
  | Raise e =>
      (Training.evaluate_local_model svc = Raise e
       \/ exists evaluation,
            Training.evaluate_local_model svc = Ok evaluation
            /\ PyFloat.ge (Training.accuracy evaluation)
                          (Config.ACCURACY_THRESHOLD config) = true
            /\ Config.AUTO_DEPLOY_ENABLED config = true
            /\ Training.train_sagemaker_model svc = Raise e)
      /\ notifications (snd out) = ["error"]
  end.
Proof.
  intros out. subst out.
  unfold Training.run_training_pipeline, Training.should_deploy.
  destruct (Training.evaluate_local_model svc) as [evaluation|e];
    [|cbn; split; [now left | reflexivity]].
  destruct (PyFloat.ge (Training.accuracy evaluation)
                       (Config.ACCURACY_THRESHOLD config)) eqn:Htarget.
  - destruct (Config.AUTO_DEPLOY_ENABLED config) eqn:Hauto;
      cbn -[PyFloat.ge String.append].
    + destruct (Training.train_sagemaker_model svc) as [job|e];
        cbn -[PyFloat.ge String.append].
      * rewrite Htarget. do 3 (split; [reflexivity|]).
        split; [|reflexivity].
        intros name. split; [now intros [= <-] | now intros (_ & [= <-])].
      * split; [|reflexivity]. right. exists evaluation.
        split; [reflexivity|]. split; [exact Htarget|]. now split.
    + rewrite Htarget. do 3 (split; [reflexivity|]). split; [|reflexivity].
      intros name. split; [intros [=] | intros ([=] & _)].
  - destruct (PyFloat.ge (Training.accuracy evaluation)
                         (Config.MINIMUM_ACCURACY config));
      cbn -[PyFloat.ge String.append]; rewrite Htarget;
      do 3 (split; [reflexivity|]); (split; [|reflexivity]);
      intros name; (split; [intros [=] | intros ([=] & _)]).
Qed.

(** ** Running [scripts/run_pipeline.py] *)

(** With deferred annotations no [def] reads a name, so every module of
    imports and class definitions loads. *)
Lemma deferred_module_loads (sdk : bool) (body : list ModuleLoad.stmt) :
  forall globals,
    exists loaded, ModuleLoad.exec_module false sdk globals body = Ok loaded.
Proof.
  assert (Hdefs : forall globals defs,
             ModuleLoad.exec_defs false globals defs = Ok tt).
  { intros globals defs. induction defs as [|d defs IH]; [reflexivity|].
    exact IH. }
  induction body as [|[names|names|class_name defs] body IH]; intros globals;
    cbn [ModuleLoad.exec_module].
  - now eexists.
  - apply IH.
  - apply IH.
  - rewrite Hdefs. apply IH.
Qed.

(** Where annotations are evaluated when a [def] executes, the script
    ends with status 1 whatever its arguments and whatever the services
    answer, because its import of [pipeline.deployment] raises; where they
    are deferred and the other imports return, the status is that of
    [main]. *)
Theorem script_exit_status_with_eager_annotations
    (sdk : bool) (other_imports : result unit)
    (cls : Config.PipelineConfig) (args : RunPipeline.arguments)
    (w : RunPipeline.world) :
  script_exit_status true sdk other_imports cls args w = 1%Z
  /\ script_exit_status false sdk (Ok tt) cls args w
     = RunPipeline.main cls args w.
Proof.
  unfold script_exit_status, ModuleLoad.import_then. split.
  - assert (Himport : exists n,
              ModuleLoad.exec_module true sdk ∅ ModuleLoad.deployment_py
              = Raise (NameError n)).
    { destruct sdk; eexists; vm_compute; reflexivity. }
    destruct Himport as (n & ->). reflexivity.
  - destruct (deferred_module_loads sdk ModuleLoad.deployment_py ∅)
      as (globals & ->).
    reflexivity.
Qed.

(** ** [scripts/deploy_model.py] *)

(** The script's [get_latest_training_job] has no [try]: a fault of the
    listing leaves it, and so does the [KeyError] of an answer without
    ['TrainingJobs'], as the answers of the service's interface are.
    Otherwise it returns the first listed job that has completed and
    whose lower-cased name contains [iris]; when no job is such, the
    first listed job that has completed; and [None] when no listed job
    has completed. *)
Theorem script_latest_training_job_prefers_iris
    (env : DeployScript.environment) :
  let found := DeployScript.get_latest_training_job env in
  match DeployScript.list_training_jobs env with
  | Raise e => found = Raise e
  | Ok response =>
      match Services.TrainingJobs response with
      | None => found = Raise (KeyError "TrainingJobs")
      | Some jobs =>
          if existsb DeployScript.completed_iris jobs then
            exists job,
              first_where DeployScript.completed_iris jobs job
              /\ found = Ok (Some (fst job))
          else if existsb completed jobs then
            exists job,
              first_where completed jobs job
              /\ found = Ok (Some (fst job))
          else found = Ok None
      end
  end.
Proof.
  intros found. subst found. unfold DeployScript.get_latest_training_job.
  destruct (DeployScript.list_training_jobs env) as [response|e];
    [|reflexivity].
  cbn [and_then].
  destruct (Services.TrainingJobs response) as [jobs|]; [|reflexivity].
  cbn [Services.getitem and_then].
  change (fun job : string * string => snd job =? "Completed")
    with completed.
  pose proof (find_first_where DeployScript.completed_iris jobs) as H1.
  pose proof (find_first_where completed jobs) as H2.
  destruct (find DeployScript.completed_iris jobs) as [job|] eqn:F1.
  - assert (E : existsb DeployScript.completed_iris jobs = true).
    { apply existsb_exists. exists job. apply find_some in F1. tauto. }
    rewrite E. eauto.
  - assert (E : existsb DeployScript.completed_iris jobs = false).
    { apply not_true_is_false. intros (x & Hx & Hf)%existsb_exists.
      now rewrite (find_none _ _ F1 x Hx) in Hf. }
    rewrite E.
    destruct (find completed jobs) as [job|] eqn:F2.
    + assert (E2 : existsb completed jobs = true).
      { apply existsb_exists. exists job. apply find_some in F2. tauto. }
      rewrite E2. eauto.
    + assert (E2 : existsb completed jobs = false).
      { apply not_true_is_false. intros (x & Hx & Hf)%existsb_exists.
        now rewrite (find_none _ _ F2 x Hx) in Hf. }
      now rewrite E2.
Qed.

(** [deploy_model] reports a failure only for what creating the endpoint
    raised and a failed test only for what the test prediction raised on
    the created endpoint, which then stays deployed under the name it
    reports; it reports success only when both returned; and it raises
    exactly what preparing the model raised, before any endpoint is
    created. *)
Theorem script_deploy_model_outcomes
    (env : DeployScript.environment) (training_job_name instance : string) :
  let endpoint_name := "iris-model-" ++ DeployScript.clock env in
  match DeployScript.deploy_model env training_job_name instance with
  | Ok (DeployScript.Deployed name prediction) =>
      name = endpoint_name
      /\ DeployScript.model_deploy env endpoint_name = Ok tt
      /\ DeployScript.predict env = Ok prediction
  | Ok (DeployScript.DeployedButTestFailed name error) =>
      name = endpoint_name
      /\ DeployScript.model_deploy env endpoint_name = Ok tt
      /\ exists e, DeployScript.predict env = Raise e /\ error = str_of_exn e
  | Ok (DeployScript.Failed error) =>
      exists e,
        DeployScript.model_deploy env endpoint_name = Raise e
        /\ error = str_of_exn e
  | Raise e =>
      DeployScript.prepare_model env training_job_name = Raise e
  end.
Proof.
  intros endpoint_name. unfold DeployScript.deploy_model.
  destruct (DeployScript.prepare_model env training_job_name) as [[]|e];
    [|reflexivity].
  fold endpoint_name.
  destruct (DeployScript.model_deploy env endpoint_name) as [[]|e];
    [|now exists e].
  destruct (DeployScript.predict env) as [prediction|e].
  - now repeat split.
  - split; [reflexivity|]. split; [reflexivity|]. now exists e.
Qed.

(** The script exits with 0 exactly when it found a training job, the
    endpoint was created and answered the test prediction, and the
    results, when asked for, were written. *)
Theorem script_exits_zero_iff_endpoint_answers
    (env : DeployScript.environment) (args : DeployScript.arguments) :
  DeployScript.main env args = 0%Z <->
  exists training_job_name prediction,
    DeployScript.find_training_job env args = Ok (Some training_job_name)
    /\ DeployScript.prepare_model env training_job_name = Ok tt
    /\ DeployScript.model_deploy env ("iris-model-" ++ DeployScript.clock env)
       = Ok tt
    /\ DeployScript.predict env = Ok prediction
    /\ (truthy_str (DeployScript.output_json args) = true ->
        DeployScript.write_json env
          (DeployScript.Deployed ("iris-model-" ++ DeployScript.clock env)
                                 prediction) = Ok tt).
Proof.
  unfold DeployScript.main, DeployScript.deploy_model. split.
  - destruct (DeployScript.find_training_job env args) as [[name|]|e];
      [|discriminate..].
    destruct (DeployScript.prepare_model env name) as [[]|e] eqn:Hprepare;
      [|discriminate].
    destruct (DeployScript.model_deploy env _) as [[]|e] eqn:Hdeploy.
    + destruct (DeployScript.predict env) as [prediction|e] eqn:Hpredict.
      * intros Hexit. exists name, prediction.
        split; [reflexivity|]. split; [exact Hprepare|].
        split; [reflexivity|]. split; [reflexivity|].
        intros Hout. rewrite Hout in Hexit.
        now destruct (DeployScript.write_json env _) as [[]|].
      * now destruct (if truthy_str _ then _ else _).
    + now destruct (if truthy_str _ then _ else _).
  - intros (name & prediction & -> & -> & -> & -> & Hwrite).
    destruct (truthy_str (DeployScript.output_json args)); [|reflexivity].
    now rewrite Hwrite.
Qed.

(** On a listing as the service's interface gives it, the lookup of the
    script raises, so the script exits with 1 unless the job is named on
    the command line; on a listing under ['TrainingJobs'], the completed
    job named after the iris model is found, not the newer completed
    one. *)
Example script_needs_the_job_named :
  let listed :=
    [("xgboost-7", "Completed"); ("Iris-Classifier-2", "Failed");
     ("IRIS-classifier-1", "Completed")] in
  let env := script_environment (Samples.summaries listed) in
  DeployScript.get_latest_training_job env = Raise (KeyError "TrainingJobs")
  /\ DeployScript.main env
       {| DeployScript.training_job_arg := None;
          DeployScript.instance_type := "ml.m5.large";
          DeployScript.output_json := None |} = 1%Z
  /\ DeployScript.main env
       {| DeployScript.training_job_arg := Some "IRIS-classifier-1";
          DeployScript.instance_type := "ml.m5.large";
          DeployScript.output_json := Some "out.json" |} = 0%Z
  /\ DeployScript.get_latest_training_job
       (script_environment
          {| Services.TrainingJobs := Some listed;
             Services.TrainingJobSummaries := None |})
     = Ok (Some "IRIS-classifier-1").
Proof.
  vm_compute. repeat split; reflexivity.
Qed.
